(** * lambrk-frontend: token refresh interceptor, realtime connection
      manager and client-side vote bookkeeping

    A shallow embedding of
    - [src/app/interceptors/auth.interceptor.ts] (bearer token attachment and
      the 401 refresh queue),
    - the [AuthService] it drives (local storage, signals, refresh, logout),
    - [src/app/services/websocket.service.ts] (connection state log,
      reconnection counter, subscription list),
    - [VoteService.votePost] and [PostService.votePost],
    and, around them, of the interceptor chain of [app.config.ts] with the
    error interceptor, [AuthService.login] and the token refresh timer,
    [VoteService.voteComment], the
    list and page vote handlers of [home.component.ts], the local state
    kept by [createPost], [getPost] and [deletePost], and the [timeAgo] and
    [truncate] pipes.

    JavaScript objects used as string-keyed maps ([localStorage], HTTP
    headers) are [gmap string string]; arrays are lists; [number] fields that
    only ever hold integers are [Z]; [T | null] is [option T].  Asynchronous
    code is cut at its suspension points: every callback that the event loop
    may run is one function on an explicit state record.

    The HTTP backend, the router and the STOMP client are the environment.
    What the code sends is logged in the state ([wire], [sent],
    [navigations], the client's [subscriptions], [timers]); what comes back
    (a response, an error, a broker frame, a closed transport, a due timer)
    is an event of the [step] function of the component, in whatever order
    the environment produces them: the STOMP client's own reconnect loop
    shows as a transport that closes and a handshake that is accepted
    again.  Client callbacks are taken to come from the client the service
    currently holds.  Of the token refresh timer of [AuthService] the
    firing is modelled, up to the call it makes.  HTTP header names are
    read and written without regard to case, as Angular's [HttpHeaders]
    does. *)

From Stdlib Require Import ZArith Bool Ascii.
From Stdlib Require String.
From stdpp Require Import base option list gmap strings pretty.

Local Open Scope Z_scope.

(** ** JavaScript helpers *)

Module Js.

(** [s.includes(sub)]: [sub] occurs somewhere in [s]. *)
Fixpoint includes (s sub : string) : bool :=
  String.prefix sub s ||
  match s with
  | EmptyString => false
  | String _ rest => includes rest sub
  end.

(** Truthiness of a [string | null] value: [null] and the empty string are
    falsy, every other string is truthy. *)
Definition truthy (v : option string) : bool :=
  match v with
  | None => false
  | Some EmptyString => false
  | Some (String _ _) => true
  end.

(** [arr.findIndex(p)], with [None] for [-1]. *)
Fixpoint findIndex {A} (p : A -> bool) (arr : list A) : option nat :=
  match arr with
  | [] => None
  | x :: rest => if p x then Some 0%nat else S <$> findIndex p rest
  end.

(** [s.toLowerCase()] on ASCII text, which header names are: [A] to [Z]
    become [a] to [z], every other character stays. *)
Definition toLowerCaseChar (c : ascii) : ascii :=
  let n := N_of_ascii c in
  if ((65 <=? n) && (n <=? 90))%N then ascii_of_N (n + 32) else c.

Fixpoint toLowerCase (s : string) : string :=
  match s with
  | EmptyString => EmptyString
  | String c rest => String (toLowerCaseChar c) (toLowerCase rest)
  end.

End Js.

(** ** HTTP requests as the interceptor sees them *)

Module Http.

Inductive Method := GET | POST | PUT | DELETE.

#[global] Instance Method_eq_dec : EqDecision Method.
Proof. solve_decision. Defined.

(** Angular's [HttpHeaders]: the values of every header under its
    lower-cased name, and for each header the spelling of the name that was
    used first.  Reading and writing take the name in any case. *)
Record HttpHeaders := mkHeaders {
  headerValues : gmap string (list string);
  normalizedNames : gmap string string
}.

#[global] Instance HttpHeaders_eq_dec : EqDecision HttpHeaders.
Proof. solve_decision. Defined.

#[global] Instance HttpHeaders_empty : Empty HttpHeaders := mkHeaders ∅ ∅.

(** [headers.get(name)]: the first value held under the lower-cased name,
    or [null]. *)
#[global] Instance HttpHeaders_lookup : Lookup string string HttpHeaders :=
  fun name h => headerValues h !! Js.toLowerCase name ≫= head.

(** [headers.set(name, value)]: the value replaces whatever is held under
    the lower-cased name; the spelling is recorded only for a new header. *)
#[global] Instance HttpHeaders_insert : Insert string string HttpHeaders :=
  fun name value h =>
    let key := Js.toLowerCase name in
    mkHeaders (<[key := [value]]> (headerValues h))
              (match normalizedNames h !! key with
               | Some _ => normalizedNames h
               | None => <[key := name]> (normalizedNames h)
               end).

(** [new HttpHeaders({ name: value })] *)
#[global] Instance HttpHeaders_singleton : SingletonM string string HttpHeaders :=
  fun name value => <[name := value]> (∅ : HttpHeaders).

Record HttpRequest := mkRequest {
  url : string;
  method : Method;
  body : string;
  headers : HttpHeaders
}.

#[global] Instance HttpRequest_eq_dec : EqDecision HttpRequest.
Proof. solve_decision. Defined.

(** [req.clone({ setHeaders: { name: value } })] *)
Definition setHeader (name value : string) (req : HttpRequest) : HttpRequest :=
  {| url := url req;
     method := method req;
     body := body req;
     headers := <[name := value]> (headers req) |}.

(** What reaches the caller of a failed request. [ApiError] is the wrapper
    built by [ErrorHandlerService.handleError] around the original error. *)
Inductive HttpError :=
| HttpErrorResponse (status : Z)
| JsError (message : string)
| ApiError (originalError : HttpError).

End Http.

(** ** Data shapes of [models/post.model.ts] used by the core *)

Module Model.

Record ApiUser := mkApiUser {
  id : Z;
  username : string;
  displayName : option string;
  karma : Z
}.

Record AuthResponse := mkAuthResponse {
  accessToken : string;
  refreshToken : string;
  tokenType : string;
  expiresIn : Z;
  user : ApiUser
}.

(** [JSON.stringify] is the host's; the development is parametric in it. *)
Class JsonStringify (A : Type) := JSON_stringify : A -> string.

End Model.

(** ** AuthService: the Session *)

Module AuthService.
Import Http Model.

Definition TOKEN_KEY : string := "reddit_access_token".
Definition REFRESH_TOKEN_KEY : string := "reddit_refresh_token".
Definition USER_KEY : string := "reddit_user".

Record t := mk {
  apiUrl : string;
  localStorage : gmap string string;
  currentUser : option ApiUser;
  isAuthenticated : bool;
  authSubject : option AuthResponse;
  (** the timer armed by [scheduleTokenRefresh], with its delay in ms *)
  refreshSub : option Z;
  (** targets of [router.navigate], oldest first *)
  navigations : list string
}.

Definition getAccessToken (a : t) : option string :=
  localStorage a !! TOKEN_KEY.

Definition clearTokens (a : t) : t :=
  mk (apiUrl a)
     (delete USER_KEY (delete REFRESH_TOKEN_KEY (delete TOKEN_KEY (localStorage a))))
     (currentUser a) (isAuthenticated a) (authSubject a) (refreshSub a)
     (navigations a).

Definition handleLogout (a : t) : t :=
  let a := clearTokens a in
  mk (apiUrl a) (localStorage a) None false None None (navigations a).

Definition logout (a : t) : t :=
  let a := handleLogout a in
  mk (apiUrl a) (localStorage a) (currentUser a) (isAuthenticated a)
     (authSubject a) (refreshSub a) (navigations a ++ ["/auth/login"]).

Definition scheduleTokenRefresh (expiresInSec : Z) (a : t) : t :=
  let refreshMs := Z.max ((expiresInSec - 300) * 1000) 60000 in
  mk (apiUrl a) (localStorage a) (currentUser a) (isAuthenticated a)
     (authSubject a) (Some refreshMs) (navigations a).

Section WithJson.
Context `{JsonStringify ApiUser}.

Definition handleAuthSuccess (res : AuthResponse) (a : t) : t :=
  let storage :=
    <[USER_KEY := JSON_stringify (user res)]>
      (<[REFRESH_TOKEN_KEY := refreshToken res]>
         (<[TOKEN_KEY := accessToken res]> (localStorage a))) in
  scheduleTokenRefresh (expiresIn res)
    (mk (apiUrl a) storage (Some (user res)) true (Some res) (refreshSub a)
        (navigations a)).

(** [refreshToken()] up to its suspension point: either the synchronous
    [throwError], or the POST that goes out. *)
Definition refreshToken (a : t) : HttpError + HttpRequest :=
  let refreshToken := localStorage a !! REFRESH_TOKEN_KEY in
  if negb (Js.truthy refreshToken)
  then inl (JsError "No refresh token available")
  else inr (mkRequest (apiUrl a +:+ "/refresh") POST
                      (default "" refreshToken)
                      {["Content-Type" := "text/plain"]}).

(** [tap(res => this.handleAuthSuccess(res))] *)
Definition refreshToken_next (res : AuthResponse) (a : t) : t :=
  handleAuthSuccess res a.

(** [catchError(err => { this.handleLogout(); return
    this.errorHandler.handleError(err); })]: the state after, and the
    error that is rethrown. *)
Definition refreshToken_error (err : HttpError) (a : t) : t * HttpError :=
  (handleLogout a, ApiError err).

End WithJson.

End AuthService.

(** ** The auth interceptor and its refresh queue *)

Module Interceptor.
Import Http Model.

Definition AUTH_ENDPOINTS : list string :=
  ["/api/auth/login"; "/api/auth/register"; "/api/auth/refresh"].

Definition isAuthEndpoint (url : string) : bool :=
  existsb (fun ep => Js.includes url ep) AUTH_ENDPOINTS.

Definition addToken (req : HttpRequest) (token : string) : HttpRequest :=
  setHeader "Authorization" ("Bearer " +:+ token) req.

(** The request that [authInterceptorFn] hands to [next]. *)
Definition authInterceptorFn (req : HttpRequest) (authService : AuthService.t)
  : HttpRequest :=
  if isAuthEndpoint (url req) then req
  else
    let token := AuthService.getAccessToken authService in
    if Js.truthy token then addToken req (default "" token) else req.

(** A call that left the client. *)
Inductive Wire :=
| RefreshCall (req : HttpRequest)   (** the POST made by [refreshToken()] *)
| Forwarded (req : HttpRequest).    (** [next(req)] *)

Definition isRefreshCall (w : Wire) : bool :=
  match w with RefreshCall _ => true | Forwarded _ => false end.

(** Module-level state of the interceptor together with what the event
    loop holds for it.  [refreshTokenSubject] is a [BehaviorSubject]: a
    current value and its subscribers; every subscriber is the pipeline
    [filter(token !== null), take(1), switchMap(token => next(addToken(req,
    token)))] of one request, recorded by that request. *)
Record t := mk {
  isRefreshing : bool;
  subjectValue : option string;
  waiters : list HttpRequest;
  authService : AuthService.t;
  (** original requests whose [refreshToken()] POST is outstanding *)
  refreshing : list HttpRequest;
  (** original requests re-dispatched by the refresh pipeline itself, the
      response to which is outstanding *)
  retrying : list HttpRequest;
  wire : list Wire;
  (** errors delivered to callers *)
  failures : list (HttpRequest * HttpError)
}.

Definition init (authService : AuthService.t) : t :=
  mk false None [] authService [] [] [] [].

Definition set_isRefreshing (b : bool) (s : t) : t :=
  mk b (subjectValue s) (waiters s) (authService s) (refreshing s)
     (retrying s) (wire s) (failures s).

Definition set_authService (a : AuthService.t) (s : t) : t :=
  mk (isRefreshing s) (subjectValue s) (waiters s) a (refreshing s)
     (retrying s) (wire s) (failures s).

Definition set_refreshing (l : list HttpRequest) (s : t) : t :=
  mk (isRefreshing s) (subjectValue s) (waiters s) (authService s) l
     (retrying s) (wire s) (failures s).

Definition set_retrying (l : list HttpRequest) (s : t) : t :=
  mk (isRefreshing s) (subjectValue s) (waiters s) (authService s)
     (refreshing s) l (wire s) (failures s).

Definition send (w : list Wire) (s : t) : t :=
  mk (isRefreshing s) (subjectValue s) (waiters s) (authService s)
     (refreshing s) (retrying s) (wire s ++ w) (failures s).

Definition throwError (req : HttpRequest) (err : HttpError) (s : t) : t :=
  mk (isRefreshing s) (subjectValue s) (waiters s) (authService s)
     (refreshing s) (retrying s) (wire s) (failures s ++ [(req, err)]).

(** [refreshTokenSubject.next(v)].  A [null] is dropped by every
    subscriber's [filter]; a token passes it, [take(1)] ends the
    subscription and [switchMap] re-dispatches the subscriber's request. *)
Definition subject_next (v : option string) (s : t) : t :=
  match v with
  | None =>
      mk (isRefreshing s) None (waiters s) (authService s) (refreshing s)
         (retrying s) (wire s) (failures s)
  | Some token =>
      mk (isRefreshing s) (Some token) [] (authService s) (refreshing s)
         (retrying s)
         (wire s ++ map (fun req => Forwarded (addToken req token)) (waiters s))
         (failures s)
  end.

(** Subscribing the waiting pipeline of [req]: a [BehaviorSubject] replays
    its current value to a new subscriber. *)
Definition subject_subscribe (req : HttpRequest) (s : t) : t :=
  match subjectValue s with
  | Some token => send [Forwarded (addToken req token)] s
  | None =>
      mk (isRefreshing s) (subjectValue s) (waiters s ++ [req])
         (authService s) (refreshing s) (retrying s) (wire s) (failures s)
  end.

(** The [catchError] and [finalize] of the refresh pipeline. *)
Definition refresh_catchError (req : HttpRequest) (err : HttpError) (s : t) : t :=
  let s := set_isRefreshing false s in
  let s := set_authService (AuthService.logout (authService s)) s in
  throwError req err s.

Definition refresh_finalize (s : t) : t := set_isRefreshing false s.

(** [handle401], run when the pipeline it returns is subscribed (which
    [catchError] does at once). *)
Definition handle401 (req : HttpRequest) (s : t) : t :=
  if negb (isRefreshing s) then
    let s := set_isRefreshing true s in
    let s := subject_next None s in
    match AuthService.refreshToken (authService s) with
    | inl err => refresh_finalize (refresh_catchError req err s)
    | inr post => set_refreshing (refreshing s ++ [req]) (send [RefreshCall post] s)
    end
  else subject_subscribe req s.

(** An [HttpErrorResponse] of the given status comes out of [next] for
    [req].  A request to an auth endpoint was forwarded by [return
    next(req)], with no [catchError]: the error goes to the caller as it
    is.  For every other request the [catchError] of [authInterceptorFn]
    runs.  (This is the auth interceptor with the backend behind [next];
    [InterceptorChain] puts the error interceptor in between.) *)
Definition onErrorResponse (req : HttpRequest) (status : Z) (s : t) : t :=
  if isAuthEndpoint (url req) then throwError req (HttpErrorResponse status) s
  else if status =? 401 then handle401 req s
  else throwError req (HttpErrorResponse status) s.

Section WithJson.
Context `{JsonStringify ApiUser}.

(** The [i]-th outstanding refresh POST answers with [res]. *)
Definition onRefreshResponse (i : nat) (res : AuthResponse) (s : t) : t :=
  match refreshing s !! i with
  | None => s
  | Some req =>
      let s := set_refreshing (delete i (refreshing s)) s in
      let s := set_authService (AuthService.refreshToken_next res (authService s)) s in
      (* switchMap *)
      let s := set_isRefreshing false s in
      let s := subject_next (Some (accessToken res)) s in
      let s := send [Forwarded (addToken req (accessToken res))] s in
      set_retrying (retrying s ++ [req]) s
  end.

(** The [i]-th outstanding refresh POST fails with [err]. *)
Definition onRefreshError (i : nat) (err : HttpError) (s : t) : t :=
  match refreshing s !! i with
  | None => s
  | Some req =>
      let s := set_refreshing (delete i (refreshing s)) s in
      let '(a, err) := AuthService.refreshToken_error err (authService s) in
      let s := set_authService a s in
      refresh_finalize (refresh_catchError req err s)
  end.

(** The request re-dispatched by the [i]-th refresh pipeline settles:
    with a response ([None]) the pipeline completes, with an error its
    [catchError] runs; [finalize] runs in both cases. *)
Definition onRetrySettled (i : nat) (result : option HttpError) (s : t) : t :=
  match retrying s !! i with
  | None => s
  | Some req =>
      let s := set_retrying (delete i (retrying s)) s in
      match result with
      | None => refresh_finalize s
      | Some err => refresh_finalize (refresh_catchError req err s)
      end
  end.

Inductive Event :=
| ErrorResponse (req : HttpRequest) (status : Z)
| RefreshResponse (i : nat) (res : AuthResponse)
| RefreshError (i : nat) (err : HttpError)
| RetrySettled (i : nat) (result : option HttpError).

Definition step (s : t) (e : Event) : t :=
  match e with
  | ErrorResponse req status => onErrorResponse req status s
  | RefreshResponse i res => onRefreshResponse i res s
  | RefreshError i err => onRefreshError i err s
  | RetrySettled i result => onRetrySettled i result s
  end.

Definition run (s : t) (events : list Event) : t := foldl step s events.

End WithJson.

(** The responses to [reqs] arrive as 401s one after the other, with no
    other event in between. *)
Definition unauthorized (reqs : list HttpRequest) (s : t) : t :=
  foldl (fun s req => onErrorResponse req 401 s) s reqs.


Definition refreshCalls (s : t) : nat :=
  length (filter (fun w => isRefreshCall w = true) (wire s)).

End Interceptor.

(** ** WebSocketService: connection state, reconnection, subscriptions *)

Module WebSocketService.
Import Model.

Inductive WebSocketConnectionState :=
| DISCONNECTED | CONNECTING | CONNECTED | RECONNECTING | ERROR.

Record WebSocketConnectionEvent := mkEvent {
  state : WebSocketConnectionState;
  timestamp : Z;
  error : option string;
  reconnectAttempt : option Z
}.

(** The subject a subscription callback feeds the decoded message to. *)
Inductive Handler :=
| toNotification | toKarma | toVote | toPost | toComment
| toSubreddit | toAnnouncement | toUserStatus.

(** The STOMP [Client] object, as far as the service reads or drives it. *)
Record Client := mkClient {
  connected : bool;
  authorization : string;
  (** calls of [client.subscribe(destination, callback)], oldest first *)
  subscriptions : list (string * Handler)
}.

Module USER_TOPICS.
Definition notifications (username : string) : string :=
  "/user/" +:+ username +:+ "/queue/notifications".
Definition karma (username : string) : string :=
  "/user/" +:+ username +:+ "/queue/karma".
Definition votes (username : string) : string :=
  "/user/" +:+ username +:+ "/queue/votes".
Definition posts (username : string) : string :=
  "/user/" +:+ username +:+ "/queue/posts".
Definition comments (username : string) : string :=
  "/user/" +:+ username +:+ "/queue/comments".
End USER_TOPICS.

Module PUBLIC_TOPICS.
Definition announcements : string := "/topic/announcements".
Definition userStatus (username : string) : string :=
  "/topic/user-status/" +:+ username.
End PUBLIC_TOPICS.

Definition maxReconnectAttempts : Z := 5.
Definition reconnectDelay : Z := 1000.

Record t := mk {
  client : option Client;
  connectionState : WebSocketConnectionState;
  connectionEvents : list WebSocketConnectionEvent;
  reconnectAttempts : Z;
  activeSubscriptions : list string;
  (** delays of the pending [setTimeout(() => this.connect(), delay)] *)
  timers : list Z;
  authService : AuthService.t;
  (** [Date.now()] *)
  now : Z
}.

Definition init (authService : AuthService.t) (now : Z) : t :=
  mk None DISCONNECTED [] 0 [] [] authService now.

(** [this.client?.connected] *)
Definition clientConnected (s : t) : bool :=
  match client s with
  | Some c => connected c
  | None => false
  end.

(** What the client holds from [client.subscribe] calls. *)
Definition clientSubscriptions (s : t) : list (string * Handler) :=
  match client s with
  | Some c => subscriptions c
  | None => []
  end.

(** The access token as [connect] reads it. *)
Definition storedToken (s : t) : option string :=
  AuthService.localStorage (authService s) !! "reddit_access_token".

Definition setConnectionState (st : WebSocketConnectionState)
    (err : option string) (attempt : option Z) (s : t) : t :=
  let event := mkEvent st (now s) err attempt in
  mk (client s) st (connectionEvents s ++ [event]) (reconnectAttempts s)
     (activeSubscriptions s) (timers s) (authService s) (now s).

Definition set_client (c : option Client) (s : t) : t :=
  mk c (connectionState s) (connectionEvents s) (reconnectAttempts s)
     (activeSubscriptions s) (timers s) (authService s) (now s).

Definition set_reconnectAttempts (n : Z) (s : t) : t :=
  mk (client s) (connectionState s) (connectionEvents s) n
     (activeSubscriptions s) (timers s) (authService s) (now s).

Definition set_activeSubscriptions (l : list string) (s : t) : t :=
  mk (client s) (connectionState s) (connectionEvents s) (reconnectAttempts s)
     l (timers s) (authService s) (now s).

Definition set_timers (l : list Z) (s : t) : t :=
  mk (client s) (connectionState s) (connectionEvents s) (reconnectAttempts s)
     (activeSubscriptions s) l (authService s) (now s).

Definition set_now (n : Z) (s : t) : t :=
  mk (client s) (connectionState s) (connectionEvents s) (reconnectAttempts s)
     (activeSubscriptions s) (timers s) (authService s) n.

Definition connect (s : t) : t :=
  if clientConnected s then s
  else
    let token := storedToken s in
    if negb (Js.truthy token) then s
    else
      let s := setConnectionState CONNECTING None None s in
      set_client (Some (mkClient false ("Bearer " +:+ default "" token) [])) s.

Definition disconnect (s : t) : t :=
  let s := set_client None s in
  let s := set_activeSubscriptions [] s in
  setConnectionState DISCONNECTED None None s.

Definition scheduleReconnect (s : t) : t :=
  if maxReconnectAttempts <=? reconnectAttempts s then
    setConnectionState ERROR (Some "Max reconnect attempts reached") None s
  else
    let s := set_reconnectAttempts (reconnectAttempts s + 1) s in
    let s := setConnectionState RECONNECTING None (Some (reconnectAttempts s)) s in
    let delay := reconnectDelay * reconnectAttempts s in
    set_timers (timers s ++ [delay]) s.

(** [private subscribe(destination, callback)] *)
Definition subscribe (destination : string) (callback : Handler) (s : t) : t :=
  match client s with
  | Some c =>
      if connected c then
        let c := mkClient (connected c) (authorization c)
                          (subscriptions c ++ [(destination, callback)]) in
        let s := set_client (Some c) s in
        set_activeSubscriptions (activeSubscriptions s ++ [destination]) s
      else s
  | None => s
  end.

(** [private unsubscribe(destination)] *)
Definition unsubscribe (destination : string) (s : t) : t :=
  if negb (clientConnected s) then s
  else
    set_activeSubscriptions
      (filter (fun d => d <> destination) (activeSubscriptions s)) s.

Definition subscribeToUserTopics (s : t) : t :=
  match AuthService.currentUser (authService s) with
  | None => s
  | Some user =>
      let username := username user in
      let s := subscribe (USER_TOPICS.notifications username) toNotification s in
      let s := subscribe (USER_TOPICS.karma username) toKarma s in
      let s := subscribe (USER_TOPICS.votes username) toVote s in
      let s := subscribe (USER_TOPICS.posts username) toPost s in
      subscribe (USER_TOPICS.comments username) toComment s
  end.

Definition subscribeToAnnouncements (s : t) : t :=
  subscribe PUBLIC_TOPICS.announcements toAnnouncement s.

Definition subscribeToUserStatus (username : string) (s : t) : t :=
  subscribe (PUBLIC_TOPICS.userStatus username) toUserStatus s.

(** The callbacks installed on the client by [connect]. *)
Definition onConnect (s : t) : t :=
  let s := set_reconnectAttempts 0 s in
  let s := setConnectionState CONNECTED None None s in
  subscribeToUserTopics s.

Definition onDisconnect (s : t) : t :=
  setConnectionState DISCONNECTED None None s.

Definition onStompError (message : string) (s : t) : t :=
  setConnectionState ERROR (Some message) None s.

Definition onWebSocketError (s : t) : t :=
  let s := setConnectionState ERROR (Some "WebSocket connection failed") None s in
  scheduleReconnect s.

(** The client library flips [connected] before it calls back. *)
Definition client_set_connected (b : bool) (s : t) : t :=
  match client s with
  | Some c => set_client (Some (mkClient b (authorization c) (subscriptions c))) s
  | None => s
  end.

Inductive Event :=
| Connect
| Disconnect
| Subscribe (destination : string) (callback : Handler)
| Unsubscribe (destination : string)
| StompConnected            (** the broker accepted the handshake *)
| StompDisconnected
| StompError (message : string)
| WebSocketError            (** the transport failed or dropped *)
| TimerFires                (** the oldest pending reconnect timer is due *)
| Elapse (ms : Z)
| WebSocketClose.           (** the transport closes without an error event *)

Definition step (s : t) (e : Event) : t :=
  match e with
  | Connect => connect s
  | Disconnect => disconnect s
  | Subscribe d cb => subscribe d cb s
  | Unsubscribe d => unsubscribe d s
  | StompConnected =>
      match client s with
      | Some _ => onConnect (client_set_connected true s)
      | None => s
      end
  | StompDisconnected =>
      match client s with
      | Some _ => onDisconnect (client_set_connected false s)
      | None => s
      end
  | StompError m =>
      match client s with
      | Some _ => onStompError m s
      | None => s
      end
  | WebSocketError =>
      match client s with
      | Some _ => onWebSocketError (client_set_connected false s)
      | None => s
      end
  | TimerFires =>
      match timers s with
      | [] => s
      | _ :: rest => connect (set_timers rest s)
      end
  | Elapse ms => set_now (now s + ms) s
  | WebSocketClose =>
      (* no [onWebSocketClose] is installed: none of the service's code
         runs; the client, created with [reconnectDelay], reconnects by
         itself, which shows as a later [StompConnected] *)
      client_set_connected false s
  end.

Definition run (s : t) (events : list Event) : t := foldl step s events.

(** The recorded log, without timestamps and error texts. *)
Definition stateLog (s : t)
  : list (WebSocketConnectionState * option Z) :=
  map (fun e => (state e, reconnectAttempt e)) (connectionEvents s).

(** How often [d] occurs in a list of topic keys. *)
Definition occurrences (d : string) (l : list string) : nat :=
  length (filter (fun x => x = d) l).


End WebSocketService.

(** ** Voting: VoteService and PostService.votePost *)

Module Vote.
Import Http.

Inductive VoteType := UPVOTE | DOWNVOTE.

#[global] Instance VoteType_eq_dec : EqDecision VoteType.
Proof. solve_decision. Defined.

Record VotePostRequest := mkVotePostRequest {
  req_voteType : VoteType;
  req_postId : Z;
  req_commentId : option Z
}.

Record VoteResult := mkVoteResult {
  success : bool;
  res_postId : option Z;
  newScore : Z;
  newUpvoteCount : Z;
  newDownvoteCount : Z;
  res_userVote : option VoteType
}.

Record Post := mkPost {
  id : Z;
  title : string;
  score : Z;
  upvoteCount : Z;
  downvoteCount : Z;
  commentCount : Z;
  userVote : option VoteType
}.

End Vote.

Module VoteService.
Import Vote.

(** The body that [votePost] posts to [/api/votes/post]. *)
Definition votePost_request (postId : Z) (voteType : option VoteType)
  : VotePostRequest :=
  mkVotePostRequest (default UPVOTE voteType) postId None.

(** [map(() => ({...}))]: the value emitted for a response with the given
    (ignored) body. *)
Definition votePost_map (postId : Z) (voteType : option VoteType)
    (responseBody : string) : VoteResult :=
  mkVoteResult true (Some postId) 0 0 0 voteType.

End VoteService.

Module PostService.
Import Http Vote.

Record t := mk {
  posts : list Post;
  loading : bool;
  error : option string;
  currentPost : option Post;
  (** bodies posted to the vote endpoint, oldest first *)
  sent : list VotePostRequest
}.

Record Delta := mkDelta {
  newUserVote : option VoteType;
  scoreDelta : Z;
  upvoteDelta : Z;
  downvoteDelta : Z
}.

(** The branch cascade of [votePost] that picks the new vote and the three
    deltas from the post's current vote and the requested one. *)
Definition voteDelta (currentUserVote voteType : option VoteType) : Delta :=
  match voteType with
  | None =>
      (* Removing vote *)
      match currentUserVote with
      | Some UPVOTE => mkDelta None (-1) (-1) 0
      | Some DOWNVOTE => mkDelta None 1 0 (-1)
      | None => mkDelta None 0 0 0
      end
  | Some vt =>
      if decide (currentUserVote = Some vt) then
        (* Toggle off *)
        match vt with
        | UPVOTE => mkDelta None (-1) (-1) 0
        | DOWNVOTE => mkDelta None 1 0 (-1)
        end
      else if decide (currentUserVote = None) then
        (* New vote *)
        match vt with
        | UPVOTE => mkDelta (Some vt) 1 1 0
        | DOWNVOTE => mkDelta (Some vt) (-1) 0 1
        end
      else
        (* Flip vote *)
        match vt with
        | UPVOTE => mkDelta (Some vt) 2 1 (-1)
        | DOWNVOTE => mkDelta (Some vt) (-2) (-1) 1
        end
  end.

Definition applyDelta (d : Delta) (currentPost : Post) : Post :=
  mkPost (id currentPost) (title currentPost)
         (score currentPost + scoreDelta d)
         (upvoteCount currentPost + upvoteDelta d)
         (downvoteCount currentPost + downvoteDelta d)
         (commentCount currentPost)
         (newUserVote d).

(** [this.posts().find((p) => p.id === postId) || this.currentPost()] *)
Definition findPost (postId : Z) (s : t) : option Post :=
  match find (fun p => bool_decide (id p = postId)) (posts s) with
  | Some p => Some p
  | None => currentPost s
  end.

(** What a call of [votePost] hands to the continuation it registers. *)
Record Pending := mkPending {
  pending_postId : Z;
  pending_voteType : option VoteType;
  updatedPost : Post
}.

(** [votePost] up to the point where the request is in flight. *)
Definition votePost (postId : Z) (voteType : option VoteType) (s : t)
  : t * (HttpError + Pending) :=
  let s := mk (posts s) true None (currentPost s) (sent s) in
  match findPost postId s with
  | None => (s, inl (JsError "Post not found"))
  | Some currentPost =>
      let d := voteDelta (userVote currentPost) voteType in
      let updatedPost := applyDelta d currentPost in
      (mk (posts s) (loading s) (error s) (PostService.currentPost s)
          (sent s ++ [VoteService.votePost_request postId voteType]),
       inr (mkPending postId voteType updatedPost))
  end.

(** The [map(() => {...})] that runs when the vote endpoint answers; its
    argument is the [VoteResult] emitted by [VoteService.votePost]. *)
Definition votePost_map (p : Pending) (result : VoteResult) (s : t) : t * Post :=
  let postId := pending_postId p in
  let currentPosts := posts s in
  let currentPosts :=
    match Js.findIndex (fun q => bool_decide (id q = postId)) currentPosts with
    | Some index => <[index := updatedPost p]> currentPosts
    | None => currentPosts
    end in
  let current :=
    match currentPost s with
    | Some c => if bool_decide (id c = postId) then Some (updatedPost p) else Some c
    | None => None
    end in
  (mk currentPosts false (error s) current (sent s), updatedPost p).

(** The whole response path: the HTTP body goes through
    [VoteService.votePost]'s [map] and then through [votePost_map]. *)
Definition votePost_onResponse (p : Pending) (responseBody : string) (s : t)
  : t * Post :=
  votePost_map p
    (VoteService.votePost_map (pending_postId p) (pending_voteType p) responseBody)
    s.

Definition handleError (err : HttpError) (s : t) : t :=
  let status := match err with HttpErrorResponse st => Some st | _ => None end in
  let message :=
    if decide (status = Some 400) then "Validation failed. Please check your input."
    else if decide (status = Some 401) then "You must be logged in to perform this action."
    else if decide (status = Some 403) then "You do not have permission to perform this action."
    else if decide (status = Some 404) then "Post or subreddit not found."
    else if decide (status = Some 422) then "Content moderation violation."
    else if decide (status = Some 429) then "Rate limit exceeded. Please try again later."
    else if decide (status = Some 503) then "Service temporarily unavailable. Please try again later."
    else "An unexpected error occurred. Please try again." in
  mk (posts s) (loading s) (Some message) (currentPost s) (sent s).

(** The [catchError] of [votePost]. *)
Definition votePost_catchError (err : HttpError) (s : t) : t * HttpError :=
  let s := mk (posts s) false (error s) (currentPost s) (sent s) in
  (handleError err s, err).

End PostService.

(** ** Concrete sessions, requests and posts used in the examples *)

Module Samples.
Import Http Model.

Definition stringifyUser : JsonStringify ApiUser := fun u => username u.

Definition alice : ApiUser := mkApiUser 1 "alice" None 10.

(** A logged-in session holding access token [abc]. *)
Definition session : AuthService.t :=
  AuthService.mk "http://localhost:8080/api/auth"
    (<[AuthService.USER_KEY := "alice"]>
       (<[AuthService.REFRESH_TOKEN_KEY := "refresh-1"]>
          (<[AuthService.TOKEN_KEY := "abc"]> ∅)))
    (Some alice) true None None [].

(** A visitor who never logged in: nothing in local storage. *)
Definition anonymous : AuthService.t :=
  AuthService.mk "http://localhost:8080/api/auth" ∅ None false None None [].

Definition getPosts : HttpRequest :=
  mkRequest "http://localhost:8080/api/posts" GET "" ∅.

Definition getFeed : HttpRequest :=
  mkRequest "http://localhost:8080/api/feed" GET "" ∅.

Definition getComments : HttpRequest :=
  mkRequest "http://localhost:8080/api/comments/post/7" GET "" ∅.

Definition postLogin : HttpRequest :=
  mkRequest "http://localhost:8080/api/auth/login" POST "credentials" ∅.

Definition refreshed : AuthResponse :=
  mkAuthResponse "xyz" "refresh-2" "Bearer" 86400 alice.

Definition post : Vote.Post := Vote.mkPost 7 "hello" 3 5 2 0 (Some Vote.DOWNVOTE).

Definition postService : PostService.t :=
  PostService.mk [post] false None None [].

(** The realtime service of the logged-in session, connected. *)
Definition connectedService : WebSocketService.t :=
  WebSocketService.run (WebSocketService.init session 0)
    [WebSocketService.Connect; WebSocketService.StompConnected].

End Samples.

(** ** The interceptor chain of [app.config.ts] *)

Module InterceptorChain.
Import Http Interceptor.

(** [error.status] as a [catchError] callback reads it: an
    [HttpErrorResponse] has the field; an [ApiError] ([problem],
    [originalError], [isNetworkError]) and a plain [Error] do not, and the
    read gives [undefined]. *)
Definition status (error : HttpError) : option Z :=
  match error with
  | HttpErrorResponse st => Some st
  | JsError _ => None
  | ApiError _ => None
  end.

(** [errorInterceptorFn]'s [catchError]: [new
    ErrorHandlerService().handleError(error)] rethrows the wrapped error;
    the handler instance made for the call is dropped with its signals. *)
Definition errorInterceptorFn_catchError (error : HttpError) : HttpError :=
  ApiError error.

(** [authInterceptorFn]'s [catchError], for whatever error reaches it. *)
Definition authInterceptorFn_catchError (req : HttpRequest) (error : HttpError)
    (s : t) : t :=
  if decide (status error = Some 401) then handle401 req s
  else throwError req error s.

(** [withInterceptors([authInterceptorFn, errorInterceptorFn])]: the auth
    interceptor is the outer one.  An error answer of the backend to [req]
    comes back through the error interceptor first, then through the auth
    interceptor, which has a [catchError] only for requests that are not
    to an auth endpoint. *)
Definition onBackendError (req : HttpRequest) (error : HttpError) (s : t) : t :=
  let error := errorInterceptorFn_catchError error in
  if isAuthEndpoint (url req) then throwError req error s
  else authInterceptorFn_catchError req error s.

End InterceptorChain.

(** ** AuthService: login *)

Module AuthLogin.
Import Http Model.

(** The service with the two signals that [login] drives. *)
Record t := mk {
  service : AuthService.t;
  loading : bool;
  error : option string
}.

(** [login] up to the POST. *)
Definition login (credentials : string) (s : t) : t * HttpRequest :=
  (mk (service s) true None,
   mkRequest (AuthService.apiUrl (service s) +:+ "/login") POST credentials ∅).

(** The [catchError] of [login]: the state after, and the rethrown error. *)
Definition login_catchError (err : HttpError) (s : t) : t * HttpError :=
  let s := mk (service s) false (error s) in
  let s :=
    if decide (InterceptorChain.status err = Some 401)
    then mk (service s) (loading s) (Some "Invalid username or password.")
    else s in
  (s, ApiError err).

End AuthLogin.

(** ** VoteService.voteComment and the rest of PostService's local state *)

Module VoteComment.
Import Vote.

Record VoteCommentRequest := mkVoteCommentRequest {
  req_voteType : VoteType;
  req_postId : option Z;
  req_commentId : Z
}.

(** The body that [voteComment] posts to [/api/votes/comment]. *)
Definition voteComment_request (commentId : Z) (voteType : option VoteType)
  : VoteCommentRequest :=
  mkVoteCommentRequest (default UPVOTE voteType) None commentId.

End VoteComment.

Module PostStore.
Import Vote PostService.

(** The [tap] of [createPost]. *)
Definition createPost_tap (newPost : Post) (s : t) : t :=
  mk (newPost :: posts s) false (error s) (currentPost s) (sent s).

(** The [tap] of [getPost]. *)
Definition getPost_tap (post : Post) (s : t) : t :=
  mk (posts s) false (error s) (Some post) (sent s).

(** The [tap] of [deletePost]. *)
Definition deletePost_tap (postId : Z) (s : t) : t :=
  mk (filter (fun p => id p <> postId) (posts s)) false (error s)
     (currentPost s) (sent s).

End PostStore.

(** ** The vote handlers of the post list and of the post page *)

Module HomeComponent.
Import Http Vote.

Inductive VoteButton := upvote | downvote.

Definition apiVoteType (voteType : VoteButton) : VoteType :=
  match voteType with
  | upvote => UPVOTE
  | downvote => DOWNVOTE
  end.

(** [post.userVote === apiVoteType ? null : apiVoteType] *)
Definition finalVote (post : Post) (voteType : VoteButton) : option VoteType :=
  if decide (userVote post = Some (apiVoteType voteType)) then None
  else Some (apiVoteType voteType).

(** [onVote(post, voteType)] of the list: a navigation to the login page,
    or the call of [PostService.votePost]. *)
Definition onVote (post : Post) (voteType : VoteButton)
    (authService : AuthService.t) (postService : PostService.t)
  : string + PostService.t * (HttpError + PostService.Pending) :=
  if negb (AuthService.isAuthenticated authService) then inl "/auth/login"
  else inr (PostService.votePost (id post) (finalVote post voteType) postService).

Inductive TargetType := POST | COMMENT.

Record WebSocketVoteUpdate := mkVoteUpdate {
  targetId : Z;
  targetType : TargetType;
  voteType : option VoteType;
  newScore : Z;
  update_userVote : option VoteType
}.

(** The list's handler of [voteUpdates$]. *)
Definition onVoteUpdate (vote : WebSocketVoteUpdate) (postService : PostService.t)
  : PostService.t :=
  match targetType vote with
  | COMMENT => postService
  | POST =>
      let currentPosts := PostService.posts postService in
      match Js.findIndex (fun p => bool_decide (id p = targetId vote)) currentPosts with
      | None => postService
      | Some index =>
          match currentPosts !! index with
          | None => postService
          | Some p =>
              let p := mkPost (id p) (title p) (newScore vote) (upvoteCount p)
                              (downvoteCount p) (commentCount p)
                              (update_userVote vote) in
              PostService.mk (<[index := p]> currentPosts)
                (PostService.loading postService) (PostService.error postService)
                (PostService.currentPost postService) (PostService.sent postService)
          end
      end
  end.

(** The post page keeps its own copy of the post beside the service. *)
Record PostPage := mkPage {
  post : option Post;
  postService : PostService.t
}.

(** The page's handler of [voteUpdates$] for its post. *)
Definition page_onVoteUpdate (postId : Z) (vote : WebSocketVoteUpdate)
    (page : PostPage) : PostPage :=
  match post page with
  | Some current =>
      if bool_decide (targetId vote = postId) then
        match targetType vote with
        | POST =>
            mkPage (Some (mkPost (id current) (title current) (newScore vote)
                            (upvoteCount current) (downvoteCount current)
                            (commentCount current) (update_userVote vote)))
                   (postService page)
        | COMMENT => page
        end
      else page
  | None => page
  end.

(** The page's [votePost(voteType)] up to the request. *)
Definition page_votePost (voteType : VoteButton) (page : PostPage)
  : PostPage * option (HttpError + PostService.Pending) :=
  match post page with
  | None => (page, None)
  | Some currentPost =>
      let '(ps, r) :=
        PostService.votePost (id currentPost) (finalVote currentPost voteType)
          (postService page) in
      (mkPage (post page) ps, Some r)
  end.

(** The response arrives: [PostService]'s [map] runs, then the page's
    [next: (updatedPost) => this.post.set(updatedPost)]. *)
Definition page_votePost_next (p : PostService.Pending) (responseBody : string)
    (page : PostPage) : PostPage :=
  let '(ps, updatedPost) :=
    PostService.votePost_onResponse p responseBody (postService page) in
  mkPage (Some updatedPost) ps.

End HomeComponent.

(** ** Display pipes *)

Module Pipes.

(** The largest time a [Date] holds, in milliseconds either side of the
    epoch; [new Date(value)] beyond it is an invalid date. *)
Definition maxDate : Z := 8640000000000000.

(** [TimeAgoPipe.transform] for a [number] value: [now] is [Date.now()],
    [value] a time in integral milliseconds; [None] is [null] or
    [undefined].  The time of an invalid date is [NaN]: the difference
    and the seconds are [NaN], every comparison fails, and the last
    branch prints the [NaN] it computes.  [Math.floor] of a quotient is
    [Z.div]. *)
Definition timeAgo (now : Z) (value : option Z) : string :=
  match value with
  | None => ""
  | Some value =>
      if value =? 0 then ""
      else if (value <? - maxDate) || (maxDate <? value) then "NaNy ago"
      else
        let diff := now - value in
        let seconds := diff / 1000 in
        if seconds <? 60 then "just now"
        else if seconds <? 3600 then pretty (seconds / 60) +:+ "m ago"
        else if seconds <? 86400 then pretty (seconds / 3600) +:+ "h ago"
        else if seconds <? 2592000 then pretty (seconds / 86400) +:+ "d ago"
        else if seconds <? 31536000 then pretty (seconds / 2592000) +:+ "mo ago"
        else pretty (seconds / 31536000) +:+ "y ago"
  end.

(** A JavaScript string: its UTF-16 code units. *)
Definition JsString := list N.

(** The code units that [trim] strips: WhiteSpace and LineTerminator. *)
Definition isWhiteSpace (c : N) : bool :=
  bool_decide
    (c ∈ [9; 10; 11; 12; 13; 32; 160; 5760; 8232; 8233; 8239; 8287; 12288; 65279]%N)
  || ((8192 <=? c) && (c <=? 8202))%N.

Fixpoint trimStart (s : JsString) : JsString :=
  match s with
  | [] => []
  | c :: rest => if isWhiteSpace c then trimStart rest else s
  end.

Definition trimEnd (s : JsString) : JsString := reverse (trimStart (reverse s)).

Definition trim (s : JsString) : JsString := trimEnd (trimStart s).

(** ["..."] *)
Definition ellipsis : JsString := [46; 46; 46]%N.

(** [TruncatePipe.transform(value, limit)] for an integral [limit].
    [substring(0, limit)] clamps a negative [limit] to 0. *)
Definition truncate (value : option JsString) (limit : Z) : JsString :=
  match value with
  | None => []
  | Some [] => []
  | Some value =>
      if Z.of_nat (length value) <=? limit then value
      else trim (take (Z.to_nat limit) value) ++ ellipsis
  end.

End Pipes.

(** ** Counting what the refresh queue holds and has sent *)

Module InterceptorCounts.
Import Http Interceptor.

Definition is401 (e : Event) : bool :=
  match e with
  | ErrorResponse _ status => status =? 401
  | _ => false
  end.

Definition count401 (events : list Event) : nat :=
  length (filter (fun e => is401 e = true) events).

(** [q] and [r] differ at most in their Authorization header: [r] is [q]
    or a re-dispatched copy of it. *)
Definition sameRequest (q r : HttpRequest) : Prop :=
  addToken q "" = addToken r "".

#[global] Instance sameRequest_dec (q r : HttpRequest) : Decision (sameRequest q r).
Proof. unfold sameRequest. apply _. Defined.

Definition isForwardOf (q : HttpRequest) (w : Wire) : bool :=
  match w with
  | Forwarded r => bool_decide (sameRequest q r)
  | RefreshCall _ => false
  end.

(** How often [q] was re-dispatched so far. *)
Definition forwardedOf (q : HttpRequest) (s : t) : nat :=
  length (filter (fun w => isForwardOf q w = true) (wire s)).

(** How often [q] occurs in a list of held requests. *)
Definition heldOf (q : HttpRequest) (l : list HttpRequest) : nat :=
  length (filter (sameRequest q) l).

(** The re-dispatches of [q] together with the places it holds in the
    queue, waiting or as the trigger of a refresh. *)
Definition accountedOf (q : HttpRequest) (s : t) : nat :=
  (forwardedOf q s + heldOf q (waiters s) + heldOf q (refreshing s))%nat.

(** The event is a 401 response to [q] that runs the 401 handler. *)
Definition is401Of (q : HttpRequest) (e : Event) : bool :=
  match e with
  | ErrorResponse r status =>
      (status =? 401) && negb (isAuthEndpoint (url r)) && bool_decide (sameRequest q r)
  | _ => false
  end.

Definition count401Of (q : HttpRequest) (events : list Event) : nat :=
  length (filter (fun e => is401Of q e = true) events).

(** The user logs in while the interceptor state stays as it is. *)
Definition loggedIn `{Model.JsonStringify Model.ApiUser}
    (res : Model.AuthResponse) (s : t) : t :=
  set_authService (AuthService.handleAuthSuccess res (authService s)) s.

End InterceptorCounts.

(** ** The token refresh timer of AuthService *)

Module TokenRefreshTimer.
Import Http Interceptor.

(** The timer has fired: none is pending until the next
    [scheduleTokenRefresh]. *)
Definition fired (a : AuthService.t) : AuthService.t :=
  AuthService.mk (AuthService.apiUrl a) (AuthService.localStorage a)
    (AuthService.currentUser a) (AuthService.isAuthenticated a)
    (AuthService.authSubject a) None (AuthService.navigations a).

(** The timer armed by [scheduleTokenRefresh] is due and its
    [switchMap(() => this.refreshToken())] runs, up to the POST.  Without a
    refresh token [refreshToken()] throws, and the [error] callback of the
    subscription logs out.  The interceptor's flag is not read. *)
Definition onRefreshTimer (s : t) : t :=
  match AuthService.refreshSub (authService s) with
  | None => s
  | Some _ =>
      let s := set_authService (fired (authService s)) s in
      match AuthService.refreshToken (authService s) with
      | inl _ => set_authService (AuthService.handleLogout (authService s)) s
      | inr post => send [RefreshCall post] s
      end
  end.

End TokenRefreshTimer.

(** ** Reading the connection log *)

Module WebSocketLog.
Import WebSocketService.

(** The state of the newest log entry; [DISCONNECTED] for an empty log. *)
Definition lastState (s : t) : WebSocketConnectionState :=
  match last (connectionEvents s) with
  | Some e => state e
  | None => DISCONNECTED
  end.

(** A reconnect delay: the base delay times an attempt number from 1 to
    the ceiling. *)
Definition reconnectDelayOf (delay : Z) : Prop :=
  exists attempt, 1 <= attempt <= maxReconnectAttempts /\ delay = reconnectDelay * attempt.

(** From entry [n] of the log on, every reconnecting entry comes directly
    after an error entry that records a failed transport. *)
Definition reconnectingFollowsError (n : nat)
    (log : list WebSocketConnectionEvent) : Prop :=
  forall i e, (n <= i)%nat -> log !! i = Some e -> state e = RECONNECTING ->
    exists j p, i = S j /\ (n <= j)%nat /\ log !! j = Some p /\
      state p = ERROR /\ error p = Some "WebSocket connection failed".

(** The five per-user topics in the order [subscribeToUserTopics] takes
    them, with their handlers. *)
Definition userTopics (username : string) : list (string * Handler) :=
  [(USER_TOPICS.notifications username, toNotification);
   (USER_TOPICS.karma username, toKarma);
   (USER_TOPICS.votes username, toVote);
   (USER_TOPICS.posts username, toPost);
   (USER_TOPICS.comments username, toComment)].

End WebSocketLog.

(** ** Further concrete states used in the examples *)

Module MoreSamples.
Import Http Model.


(** The realtime service after one transport error: a timer is pending. *)
Definition droppedService : WebSocketService.t :=
  WebSocketService.step Samples.connectedService WebSocketService.WebSocketError.

(** The post page after it loaded the sample post through [getPost]: the
    page and the service each hold a copy. *)
Definition loadedPage : HomeComponent.PostPage :=
  HomeComponent.mkPage (Some Samples.post)
    (PostStore.getPost_tap Samples.post (PostService.mk [] false None None [])).

End MoreSamples.

(** ** A click on a vote button, up to the server's answer *)

Module VoteClick.
Import Http Vote HomeComponent.

Definition opposite (voteType : VoteType) : VoteType :=
  match voteType with
  | UPVOTE => DOWNVOTE
  | DOWNVOTE => UPVOTE
  end.

(** The list's [onVote] followed by the answer of the vote endpoint:
    [None] when the click led to the login page or no request went out. *)
Definition clickAndAnswer (post : Post) (voteType : VoteButton)
    (authService : AuthService.t) (postService : PostService.t)
    (responseBody : string) : option (PostService.t * Post) :=
  match onVote post voteType authService postService with
  | inr (postService, inr pending) =>
      Some (PostService.votePost_onResponse pending responseBody postService)
  | _ => None
  end.

(** The post a second click on the same button ends with: the post as it
    was, unless it held the opposite vote, which the two clicks replace
    and then remove. *)
Definition afterTwoClicks (post : Post) (voteType : VoteButton) : Post :=
  if decide (userVote post = Some (opposite (apiVoteType voteType)))
  then PostService.applyDelta (PostService.voteDelta (userVote post) None) post
  else post.

End VoteClick.

(** * Properties *)

(** ** Voting *)

Section VoteProperties.
Import Vote PostService.

Lemma findIndex_lt {A} (p : A -> bool) (l : list A) (i : nat) :
  Js.findIndex p l = Some i -> (i < length l)%nat.
Proof.
  revert i. induction l as [|x l IH]; intros i; simpl; [done|].
  destruct (p x).
  - intros [= <-]. lia.
  - destruct (Js.findIndex p l) as [j|]; simpl; [|done].
    intros [= <-]. specialize (IH j eq_refl). lia.
Qed.

Lemma voteDelta_score (cur vt : option VoteType) :
  scoreDelta (voteDelta cur vt) =
  upvoteDelta (voteDelta cur vt) - downvoteDelta (voteDelta cur vt).
Proof.
  unfold voteDelta.
  destruct vt as [[]|], cur as [[]|]; repeat case_decide; simpl; congruence || lia.
Qed.

Lemma voteDelta_newUserVote (cur vt : option VoteType) :
  newUserVote (voteDelta cur vt) = None <-> vt = None \/ vt = cur.
Proof.
  unfold voteDelta.
  destruct vt as [[]|], cur as [[]|]; repeat case_decide; simpl;
    split; intros; try congruence; try tauto; try (destruct H; congruence);
    intuition congruence.
Qed.

Lemma votePost_inr (postId : Z) (voteType : option VoteType) (s s' : t) (p : Pending) :
  votePost postId voteType s = (s', inr p) ->
  exists cur,
    findPost postId s = Some cur /\
    p = mkPending postId voteType (applyDelta (voteDelta (userVote cur) voteType) cur) /\
    sent s' = sent s ++ [VoteService.votePost_request postId voteType].
Proof.
  unfold votePost.
  change (findPost postId (mk (posts s) true None (currentPost s) (sent s)))
    with (findPost postId s).
  destruct (findPost postId s) as [cur|]; [|discriminate].
  intros [= <- <-]. by exists cur.
Qed.

Lemma votePost_found (postId : Z) (voteType : option VoteType) (s : t) (cur : Post) :
  findPost postId s = Some cur ->
  votePost postId voteType s =
    (mk (posts s) true None (currentPost s)
        (sent s ++ [VoteService.votePost_request postId voteType]),
     inr (mkPending postId voteType
            (applyDelta (voteDelta (userVote cur) voteType) cur))).
Proof.
  intros Hfind. unfold votePost.
  change (findPost postId (mk (posts s) true None (currentPost s) (sent s)))
    with (findPost postId s).
  by rewrite Hfind.
Qed.

(** C9. Whenever [votePost] finds the post, in the list or, failing that,
    as the current post, it posts one request to the vote endpoint, and the
    vote type of that request is not null: it is the requested one, or
    UPVOTE when the call asks for removal ([null]).  The post that the
    response handler then returns and writes into the local state is the
    post found at call time with the three deltas added and the new user
    vote; it is the same whatever the server's response body or the
    [VoteResult] built from it.  A call that finds no post sends nothing
    and fails with "Post not found". *)
Theorem votePost_sends_vote_type_and_computes_locally
    (postId : Z) (voteType : option VoteType) (s : t) :
  (forall cur,
     find (fun p => bool_decide (id p = postId)) (posts s) = Some cur \/
     (find (fun p => bool_decide (id p = postId)) (posts s) = None /\
      currentPost s = Some cur) ->
     exists s' p,
       votePost postId voteType s = (s', inr p) /\
       sent s' =
         sent s ++ [mkVotePostRequest
                      (match voteType with Some v => v | None => UPVOTE end)
                      postId None] /\
       posts s' = posts s /\
       currentPost s' = currentPost s /\
       loading s' = true /\
       id (updatedPost p) = id cur /\
       title (updatedPost p) = title cur /\
       commentCount (updatedPost p) = commentCount cur /\
       score (updatedPost p) = score cur + scoreDelta (voteDelta (userVote cur) voteType) /\
       upvoteCount (updatedPost p) =
         upvoteCount cur + upvoteDelta (voteDelta (userVote cur) voteType) /\
       downvoteCount (updatedPost p) =
         downvoteCount cur + downvoteDelta (voteDelta (userVote cur) voteType) /\
       userVote (updatedPost p) = newUserVote (voteDelta (userVote cur) voteType) /\
       forall (later : t) (responseBody : string) (result : VoteResult),
         snd (votePost_onResponse p responseBody later) = updatedPost p /\
         snd (votePost_map p result later) = updatedPost p /\
         loading (fst (votePost_map p result later)) = false /\
         sent (fst (votePost_map p result later)) = sent later /\
         (forall index,
            Js.findIndex (fun q => bool_decide (id q = postId)) (posts later) = Some index ->
            posts (fst (votePost_map p result later)) !! index = Some (updatedPost p)) /\
         (forall c, currentPost later = Some c -> id c = postId ->
            currentPost (fst (votePost_map p result later)) = Some (updatedPost p))) /\
  (find (fun p => bool_decide (id p = postId)) (posts s) = None ->
   currentPost s = None ->
   snd (votePost postId voteType s) = inl (Http.JsError "Post not found") /\
   sent (fst (votePost postId voteType s)) = sent s /\
   posts (fst (votePost postId voteType s)) = posts s).
Proof.
  split.
  - intros cur Hcur.
    assert (findPost postId s = Some cur) as Hfind.
    { unfold findPost. by destruct Hcur as [-> | [-> ->]]. }
    rewrite (votePost_found postId voteType s cur Hfind).
    eexists _, _. split; [reflexivity|].
    split; [by destruct voteType|].
    repeat split.
    + intros index Hidx. unfold votePost_map. cbn [fst posts pending_postId updatedPost].
      rewrite Hidx. apply list_lookup_insert_eq. by eapply findIndex_lt.
    + intros c Hc Hid. unfold votePost_map.
      cbn [fst currentPost pending_postId updatedPost].
      rewrite Hc. by rewrite bool_decide_eq_true_2.
  - intros Hnone Hcur. unfold votePost, findPost. cbn [posts currentPost].
    by rewrite Hnone, Hcur.
Qed.

(** Removing the downvote of the sample post: the post is in the list,
    UPVOTE goes out, and the post loses the downvote locally. *)
Lemma votePost_sends_vote_type_and_computes_locally_witness :
  find (fun p => bool_decide (id p = 7)) (posts Samples.postService) = Some Samples.post /\
  exists s' p,
    votePost 7 None Samples.postService = (s', inr p) /\
    sent s' = sent Samples.postService ++ [mkVotePostRequest UPVOTE 7 None] /\
    score (updatedPost p) = 4 /\
    downvoteCount (updatedPost p) = 1 /\
    userVote (updatedPost p) = None.
Proof.
  split; [reflexivity|].
  destruct (votePost_sends_vote_type_and_computes_locally 7 None Samples.postService)
    as [Hfound _].
  destruct (Hfound Samples.post (or_introl eq_refl))
    as (s' & p & Hcall & Hsent & _ & _ & _ & _ & _ & _ & Hscore & _ & Hdown & Hvote & _).
  exists s', p. split; [exact Hcall|]. split; [exact Hsent|].
  split; [exact Hscore|]. split; [exact Hdown|exact Hvote].
Defined.

(** C10. When [votePost] goes ahead, the score delta it applies is the
    upvote delta minus the downvote delta, so the identity
    [score = upvoteCount - downvoteCount] carries over from the post found
    at call time to the updated post; and the updated post's user vote is
    null exactly when the call removes a vote (vote type null) or repeats
    the post's current vote (toggle off). *)
Theorem votePost_preserves_score_identity
    (postId : Z) (voteType : option VoteType) (s s' : t) (p : Pending)
    (Hcall : votePost postId voteType s = (s', inr p)) :
  exists cur,
    findPost postId s = Some cur /\
    scoreDelta (voteDelta (userVote cur) voteType) =
      upvoteDelta (voteDelta (userVote cur) voteType) -
      downvoteDelta (voteDelta (userVote cur) voteType) /\
    score (updatedPost p) - score cur =
      (upvoteCount (updatedPost p) - upvoteCount cur) -
      (downvoteCount (updatedPost p) - downvoteCount cur) /\
    (score cur = upvoteCount cur - downvoteCount cur ->
     score (updatedPost p) = upvoteCount (updatedPost p) - downvoteCount (updatedPost p)) /\
    (userVote (updatedPost p) = None <-> voteType = None \/ voteType = userVote cur).
Proof.
  apply votePost_inr in Hcall as (cur & Hfind & -> & _).
  exists cur. simpl.
  pose proof (voteDelta_score (userVote cur) voteType) as Hd.
  repeat split; try done; try lia; apply voteDelta_newUserVote.
Qed.

Lemma votePost_preserves_score_identity_witness :
  exists cur,
    findPost 7 Samples.postService = Some cur /\
    scoreDelta (voteDelta (userVote cur) (Some UPVOTE)) =
      upvoteDelta (voteDelta (userVote cur) (Some UPVOTE)) -
      downvoteDelta (voteDelta (userVote cur) (Some UPVOTE)) /\
    score (mkPost 7 "hello" 5 6 1 0 (Some UPVOTE)) - score cur =
      (upvoteCount (mkPost 7 "hello" 5 6 1 0 (Some UPVOTE)) - upvoteCount cur) -
      (downvoteCount (mkPost 7 "hello" 5 6 1 0 (Some UPVOTE)) - downvoteCount cur) /\
    (score cur = upvoteCount cur - downvoteCount cur ->
     score (mkPost 7 "hello" 5 6 1 0 (Some UPVOTE)) =
       upvoteCount (mkPost 7 "hello" 5 6 1 0 (Some UPVOTE)) -
       downvoteCount (mkPost 7 "hello" 5 6 1 0 (Some UPVOTE))) /\
    (userVote (mkPost 7 "hello" 5 6 1 0 (Some UPVOTE)) = None <->
       Some UPVOTE = None \/ Some UPVOTE = userVote cur).
Proof.
  apply (votePost_preserves_score_identity 7 (Some UPVOTE) Samples.postService
           (mk [Samples.post] true None None [mkVotePostRequest UPVOTE 7 None])
           (mkPending 7 (Some UPVOTE) (mkPost 7 "hello" 5 6 1 0 (Some UPVOTE)))).
  reflexivity.
Defined.

(** Removing the downvote of the sample post: UPVOTE goes out, and the
    post loses the downvote locally. *)
Example votePost_removal :
  votePost 7 None Samples.postService =
    (mk [Samples.post] true None None [mkVotePostRequest UPVOTE 7 None],
     inr (mkPending 7 None (mkPost 7 "hello" 4 5 1 0 None))).
Proof. reflexivity. Qed.

Example votePost_unknown_post :
  votePost 8 (Some UPVOTE) Samples.postService =
    (mk [Samples.post] true None None [], inl (Http.JsError "Post not found")).
Proof. reflexivity. Qed.

End VoteProperties.

(** ** Dispatch: attaching the bearer token *)

Section DispatchProperties.
Import Http Interceptor.

Lemma truthy_Some (token : string) :
  Js.truthy (Some token) = true <-> token <> "".
Proof. destruct token; simpl; split; congruence. Qed.




Lemma headers_get (h : HttpHeaders) (name : string) :
  h !! name = headerValues h !! Js.toLowerCase name ≫= head.
Proof. reflexivity. Qed.

Lemma headers_set_values (h : HttpHeaders) (name value : string) :
  headerValues (<[name := value]> h) =
    <[Js.toLowerCase name := [value]]> (headerValues h).
Proof. reflexivity. Qed.

(** Reading a header after a write, in whatever case the two names are. *)
Lemma headers_get_set (h : HttpHeaders) (name name' value : string) :
  (<[name := value]> h : HttpHeaders) !! name' =
    if decide (Js.toLowerCase name' = Js.toLowerCase name) then Some value
    else h !! name'.
Proof.
  rewrite !headers_get, headers_set_values. case_decide as Heq.
  - by rewrite Heq, lookup_insert_eq.
  - by rewrite lookup_insert_ne.
Qed.

Lemma addToken_headerValues (req : HttpRequest) (token : string) :
  headerValues (headers (addToken req token)) =
    <["authorization" := ["Bearer " +:+ token]]> (headerValues (headers req)).
Proof. reflexivity. Qed.

Lemma addToken_Authorization (req : HttpRequest) (token : string) :
  headers (addToken req token) !! "Authorization" = Some ("Bearer " +:+ token).
Proof.
  rewrite headers_get, addToken_headerValues.
  change (Js.toLowerCase "Authorization") with "authorization".
  by rewrite lookup_insert_eq.
Qed.





(** A request that already carries a bearer token under the lower-case
    spelling of the header. *)
Example authInterceptorFn_replaces_lower_case_header :
  headers (authInterceptorFn
             (mkRequest "http://localhost:8080/api/posts" GET ""
                        {["authorization" := "Bearer old"]})
             Samples.session) !! "authorization" = Some "Bearer abc" /\
  headerValues
    (headers (authInterceptorFn
                (mkRequest "http://localhost:8080/api/posts" GET ""
                           {["authorization" := "Bearer old"]})
                Samples.session)) = {["authorization" := ["Bearer abc"]]} /\
  normalizedNames
    (headers (authInterceptorFn
                (mkRequest "http://localhost:8080/api/posts" GET ""
                           {["authorization" := "Bearer old"]})
                Samples.session)) = {["authorization" := "authorization"]}.
Proof. repeat split; vm_compute; reflexivity. Qed.

Example authInterceptorFn_attaches_token :
  authInterceptorFn Samples.getPosts Samples.session =
    addToken Samples.getPosts "abc" /\
  headers (authInterceptorFn Samples.getPosts Samples.session) !! "Authorization" =
    Some "Bearer abc".
Proof. split; vm_compute; reflexivity. Qed.

Example authInterceptorFn_skips_login :
  isAuthEndpoint (url Samples.postLogin) = true /\
  authInterceptorFn Samples.postLogin Samples.session = Samples.postLogin.
Proof. split; vm_compute; reflexivity. Qed.

Example authInterceptorFn_without_token :
  authInterceptorFn Samples.getPosts Samples.anonymous = Samples.getPosts /\
  headers (authInterceptorFn Samples.getPosts Samples.anonymous) !! "Authorization" = None.
Proof. split; vm_compute; reflexivity. Qed.

End DispatchProperties.

(** ** The refresh queue *)

Section RefreshProperties.
Import Http Model Interceptor.
Context `{JsonStringify ApiUser}.

Lemma refreshToken_inr (a : AuthService.t) :
  Js.truthy (AuthService.localStorage a !! AuthService.REFRESH_TOKEN_KEY) = true ->
  exists token,
    AuthService.localStorage a !! AuthService.REFRESH_TOKEN_KEY = Some token /\
    AuthService.refreshToken a =
      inr (mkRequest (AuthService.apiUrl a +:+ "/refresh") POST token
                     {["Content-Type" := "text/plain"]}).
Proof.
  unfold AuthService.refreshToken.
  destruct (AuthService.localStorage a !! AuthService.REFRESH_TOKEN_KEY)
    as [token|]; [|discriminate].
  intros ->. by exists token.
Qed.

Lemma refreshToken_inl (a : AuthService.t) :
  Js.truthy (AuthService.localStorage a !! AuthService.REFRESH_TOKEN_KEY) = false ->
  AuthService.refreshToken a = inl (JsError "No refresh token available").
Proof. unfold AuthService.refreshToken. by intros ->. Qed.

(** The first handler: flag clear, a refresh token in storage. *)
Lemma handle401_starts_refresh (req post : HttpRequest) (s : t) :
  isRefreshing s = false ->
  AuthService.refreshToken (authService s) = inr post ->
  handle401 req s =
    mk true None (waiters s) (authService s) (refreshing s ++ [req])
       (retrying s) (wire s ++ [RefreshCall post]) (failures s).
Proof.
  intros Hflag Hpost. unfold handle401. rewrite Hflag. simpl. by rewrite Hpost.
Qed.

(** A later handler: flag set, no token published yet. *)
Lemma handle401_waits (req : HttpRequest) (s : t) :
  isRefreshing s = true ->
  subjectValue s = None ->
  handle401 req s =
    mk true None (waiters s ++ [req]) (authService s) (refreshing s)
       (retrying s) (wire s) (failures s).
Proof.
  intros Hflag Hval. unfold handle401, subject_subscribe.
  by rewrite Hflag, Hval.
Qed.

Lemma refreshToken_post (a : AuthService.t) (token : string) :
  AuthService.localStorage a !! "reddit_refresh_token" = Some token ->
  token <> "" ->
  AuthService.refreshToken a =
    inr (mkRequest (AuthService.apiUrl a +:+ "/refresh") POST token
                   {["Content-Type" := "text/plain"]}).
Proof.
  intros Htok Hne.
  unfold AuthService.refreshToken, AuthService.REFRESH_TOKEN_KEY.
  rewrite Htok. apply truthy_Some in Hne. by rewrite Hne.
Qed.

Lemma onErrorResponse_401 (req : HttpRequest) (s : t) :
  isAuthEndpoint (url req) = false ->
  onErrorResponse req 401 s = handle401 req s.
Proof. intros Hep. unfold onErrorResponse. by rewrite Hep. Qed.

Lemma onErrorResponse_auth (req : HttpRequest) (status : Z) (s : t) :
  isAuthEndpoint (url req) = true ->
  onErrorResponse req status s = throwError req (HttpErrorResponse status) s.
Proof. intros Hep. unfold onErrorResponse. by rewrite Hep. Qed.



Lemma refreshCalls_app (s : t) (w : list Wire) :
  refreshCalls (send w s) =
  (refreshCalls s + length (filter (fun x => isRefreshCall x = true) w))%nat.
Proof. unfold refreshCalls, send; simpl. by rewrite filter_app, length_app. Qed.

Lemma filter_Forwarded (l : list HttpRequest) (f : HttpRequest -> HttpRequest) :
  filter (fun x => isRefreshCall x = true) (map (fun q => Forwarded (f q)) l) = [].
Proof.
  induction l as [|q l IH]; [done|]. simpl.
  rewrite filter_cons_False; [done|]. simpl. congruence.
Qed.

Lemma handleLogout_clears (a : AuthService.t) :
  AuthService.localStorage (AuthService.handleLogout a) !! AuthService.TOKEN_KEY = None /\
  AuthService.localStorage (AuthService.handleLogout a) !! AuthService.REFRESH_TOKEN_KEY = None /\
  AuthService.localStorage (AuthService.handleLogout a) !! AuthService.USER_KEY = None /\
  AuthService.currentUser (AuthService.handleLogout a) = None /\
  AuthService.isAuthenticated (AuthService.handleLogout a) = false /\
  AuthService.authSubject (AuthService.handleLogout a) = None /\
  AuthService.refreshSub (AuthService.handleLogout a) = None /\
  AuthService.navigations (AuthService.handleLogout a) = AuthService.navigations a.
Proof.
  unfold AuthService.handleLogout, AuthService.clearTokens; simpl.
  rewrite !lookup_delete. repeat split; by repeat case_decide.
Qed.

Lemma logout_clears (a : AuthService.t) :
  AuthService.localStorage (AuthService.logout a) !! AuthService.TOKEN_KEY = None /\
  AuthService.localStorage (AuthService.logout a) !! AuthService.REFRESH_TOKEN_KEY = None /\
  AuthService.localStorage (AuthService.logout a) !! AuthService.USER_KEY = None /\
  AuthService.currentUser (AuthService.logout a) = None /\
  AuthService.isAuthenticated (AuthService.logout a) = false /\
  AuthService.authSubject (AuthService.logout a) = None /\
  AuthService.refreshSub (AuthService.logout a) = None /\
  AuthService.navigations (AuthService.logout a) =
    AuthService.navigations a ++ ["/auth/login"].
Proof.
  destruct (handleLogout_clears a) as (? & ? & ? & ? & ? & ? & ? & Hnav).
  unfold AuthService.logout.
  cbn [AuthService.localStorage AuthService.currentUser AuthService.isAuthenticated
       AuthService.authSubject AuthService.refreshSub AuthService.navigations].
  rewrite Hnav. by repeat split.
Qed.

Lemma onRefreshError_eq (i : nat) (req : HttpRequest) (err : HttpError) (s : t) :
  refreshing s !! i = Some req ->
  onRefreshError i err s =
    mk false (subjectValue s) (waiters s)
       (AuthService.logout (AuthService.handleLogout (authService s)))
       (delete i (refreshing s)) (retrying s) (wire s)
       (failures s ++ [(req, ApiError err)]).
Proof. intros Hreq. unfold onRefreshError. by rewrite Hreq. Qed.

Lemma onRefreshResponse_eq (i : nat) (req : HttpRequest) (res : AuthResponse) (s : t) :
  refreshing s !! i = Some req ->
  onRefreshResponse i res s =
    mk false (Some (accessToken res)) []
       (AuthService.handleAuthSuccess res (authService s))
       (delete i (refreshing s)) (retrying s ++ [req])
       (wire s ++ map (fun q => Forwarded (addToken q (accessToken res)))
                      (waiters s ++ [req]))
       (failures s).
Proof.
  intros Hreq. unfold onRefreshResponse. rewrite Hreq.
  unfold subject_next, send; simpl. by rewrite map_app, <- app_assoc.
Qed.




(** C3. When the [i]-th outstanding refresh call, triggered by [req],
    answers with access token [T], the requests re-dispatched are exactly
    the waiting ones, in the order they queued, and then [req], each with
    the header [Authorization: Bearer T] set and otherwise as it was; no
    waiter is left, and [T] is the stored access token. *)
Theorem refresh_success_redispatches_with_new_token
    (s : t) (i : nat) (req : HttpRequest) (res : AuthResponse)
    (Hout : refreshing s !! i = Some req) :
  wire (onRefreshResponse i res s) =
    wire s ++ map (fun q => Forwarded (addToken q (accessToken res)))
                  (waiters s ++ [req]) /\
  (forall q, q ∈ waiters s ++ [req] ->
     Forwarded (addToken q (accessToken res)) ∈ wire (onRefreshResponse i res s) /\
     headers (addToken q (accessToken res)) !! "Authorization" =
       Some ("Bearer " +:+ accessToken res) /\
     url (addToken q (accessToken res)) = url q /\
     method (addToken q (accessToken res)) = method q /\
     body (addToken q (accessToken res)) = body q) /\
  waiters (onRefreshResponse i res s) = [] /\
  refreshCalls (onRefreshResponse i res s) = refreshCalls s /\
  failures (onRefreshResponse i res s) = failures s /\
  isRefreshing (onRefreshResponse i res s) = false /\
  AuthService.getAccessToken (authService (onRefreshResponse i res s)) =
    Some (accessToken res).
Proof.
  rewrite (onRefreshResponse_eq i req res s Hout); simpl.
  repeat split.
  - apply elem_of_app; right. apply list_elem_of_fmap. by exists q.
  - apply addToken_Authorization.
  - unfold refreshCalls; simpl.
    by rewrite filter_app, length_app, filter_Forwarded, Nat.add_0_r.
  - unfold AuthService.getAccessToken; simpl.
    rewrite !lookup_insert. by repeat case_decide.
Qed.

(** C4. Let the in-flight flag be clear and local storage hold a refresh
    token.  When the 401 handler of [req] runs and the refresh call it
    makes fails, then the flag is clear again, the access token, the
    refresh token and the user are gone from local storage, the current
    user and the authenticated state are reset, the refresh timer is
    cancelled, the user is sent to the login page, [req] fails with the
    error, and nothing more was sent: the one refresh call made for the 401
    is not repeated and [req] is not re-dispatched. *)
Theorem refresh_failure_destroys_session
    (s : t) (req : HttpRequest) (err : HttpError) (token : string)
    (Hidle : isRefreshing s = false)
    (Htoken : AuthService.localStorage (authService s) !! "reddit_refresh_token" =
                Some token)
    (Hne : token <> "") :
  let s1 := handle401 req s in
  let s2 := onRefreshError (length (refreshing s)) err s1 in
  wire s1 =
    wire s ++ [RefreshCall (mkRequest (AuthService.apiUrl (authService s) +:+ "/refresh")
                              POST token {["Content-Type" := "text/plain"]})] /\
  refreshCalls s1 = S (refreshCalls s) /\
  wire s2 = wire s1 /\
  refreshCalls s2 = S (refreshCalls s) /\
  isRefreshing s2 = false /\
  refreshing s2 = refreshing s /\
  retrying s2 = retrying s /\
  AuthService.localStorage (authService s2) !! "reddit_access_token" = None /\
  AuthService.localStorage (authService s2) !! "reddit_refresh_token" = None /\
  AuthService.localStorage (authService s2) !! "reddit_user" = None /\
  AuthService.currentUser (authService s2) = None /\
  AuthService.isAuthenticated (authService s2) = false /\
  AuthService.authSubject (authService s2) = None /\
  AuthService.refreshSub (authService s2) = None /\
  AuthService.navigations (authService s2) =
    AuthService.navigations (authService s) ++ ["/auth/login"] /\
  failures s2 = failures s ++ [(req, ApiError err)].
Proof.
  intros s1 s2.
  pose proof (refreshToken_post _ _ Htoken Hne) as Hpost.
  assert (s1 = handle401 req s) as Hs1 by done.
  rewrite (handle401_starts_refresh req _ s Hidle Hpost) in Hs1.
  assert (refreshing s1 !! length (refreshing s) = Some req) as Hout.
  { rewrite Hs1; simpl. by rewrite lookup_app_r, Nat.sub_diag. }
  assert (refreshCalls s1 = S (refreshCalls s)) as Hcalls.
  { rewrite Hs1. unfold refreshCalls; simpl.
    rewrite filter_app, length_app; simpl. lia. }
  subst s2. rewrite (onRefreshError_eq _ req err s1 Hout).
  destruct (logout_clears (AuthService.handleLogout (authService s1)))
    as (? & ? & ? & ? & ? & ? & ? & Hnav).
  destruct (handleLogout_clears (authService s1)) as (_ & _ & _ & _ & _ & _ & _ & Hnav').
  cbn [wire isRefreshing refreshing retrying authService failures refreshCalls].
  rewrite Hnav, Hnav'. clearbody s1.
  repeat split; try done.
  - by subst s1.
  - subst s1; simpl. by rewrite delete_middle, app_nil_r.
  - by subst s1.
  - by subst s1.
  - by subst s1.
Qed.

End RefreshProperties.

Section RefreshScenarios.
Import Http Model Interceptor Samples.



Lemma refresh_success_redispatches_with_new_token_witness :
  refreshing (unauthorized [getPosts; getFeed; getComments] (init session)) !! 0%nat =
    Some getPosts /\
  wire (onRefreshResponse (H := stringifyUser) 0 refreshed
          (unauthorized [getPosts; getFeed; getComments] (init session))) =
    wire (unauthorized [getPosts; getFeed; getComments] (init session)) ++
    map (fun q => Forwarded (addToken q "xyz")) ([getFeed; getComments] ++ [getPosts]).
Proof.
  split; [reflexivity|].
  apply (refresh_success_redispatches_with_new_token (H := stringifyUser)
           (unauthorized [getPosts; getFeed; getComments] (init session))
           0 getPosts refreshed eq_refl).
Defined.

Lemma refresh_failure_destroys_session_witness :
  isRefreshing (init session) = false /\
  refreshCalls (onRefreshError 0 (HttpErrorResponse 401)
                  (handle401 getPosts (init session))) = 1%nat /\
  AuthService.getAccessToken
    (authService (onRefreshError 0 (HttpErrorResponse 401)
                    (handle401 getPosts (init session)))) = None.
Proof.
  split; [reflexivity|].
  assert ("refresh-1" <> "") as Hne by discriminate.
  destruct (refresh_failure_destroys_session
              (init session) getPosts (HttpErrorResponse 401) "refresh-1"
              eq_refl eq_refl Hne)
    as (_ & _ & _ & Hcalls & _ & _ & _ & Htok & _).
  split; [exact Hcalls|exact Htok].
Defined.


End RefreshScenarios.

(** ** The realtime connection manager *)

Section ConnectionProperties.
Import Model WebSocketService WebSocketLog.

Lemma subscribe_connected (d : string) (cb : Handler) (s : t) :
  clientConnected s = true ->
  exists c,
    client s = Some c /\
    subscribe d cb s =
      mk (Some (mkClient true (authorization c) (subscriptions c ++ [(d, cb)])))
         (connectionState s) (connectionEvents s) (reconnectAttempts s)
         (activeSubscriptions s ++ [d]) (timers s) (authService s) (now s).
Proof.
  unfold clientConnected, subscribe.
  destruct (client s) as [c|]; [|discriminate].
  intros Hc. exists c. by rewrite Hc.
Qed.

Lemma subscribe_not_connected (d : string) (cb : Handler) (s : t) :
  clientConnected s = false -> subscribe d cb s = s.
Proof.
  unfold clientConnected, subscribe.
  destruct (client s) as [c|]; [|done]. by intros ->.
Qed.

Lemma occurrences_snoc (d : string) (l : list string) :
  occurrences d (l ++ [d]) = S (occurrences d l).
Proof.
  unfold occurrences. rewrite filter_app, length_app.
  rewrite filter_cons_True by done. simpl. lia.
Qed.

(** C5, as amended.  While the client is connected, every call of
    [subscribe] adds its key at the end of the registry and registers its
    handler with the client, whether or not the key is already there: the
    key then occurs once more than before, and two calls with the same key
    leave two entries and two handlers.  ([subscribe] changes nothing only
    while the client is not connected.)  A following [unsubscribe] removes
    every occurrence of the key. *)
Theorem subscribe_appends_key
    (s : t) (d : string) (cb cb' : Handler)
    (Hconn : clientConnected s = true) :
  activeSubscriptions (subscribe d cb s) = activeSubscriptions s ++ [d] /\
  clientSubscriptions (subscribe d cb s) = clientSubscriptions s ++ [(d, cb)] /\
  occurrences d (activeSubscriptions (subscribe d cb s)) =
    S (occurrences d (activeSubscriptions s)) /\
  clientConnected (subscribe d cb s) = true /\
  activeSubscriptions (subscribe d cb' (subscribe d cb s)) =
    activeSubscriptions s ++ [d; d] /\
  clientSubscriptions (subscribe d cb' (subscribe d cb s)) =
    clientSubscriptions s ++ [(d, cb); (d, cb')] /\
  d ∉ activeSubscriptions (unsubscribe d (subscribe d cb' (subscribe d cb s))).
Proof.
  destruct (subscribe_connected d cb s Hconn) as (c & Hc & ->).
  unfold clientSubscriptions, clientConnected, unsubscribe, subscribe; simpl.
  rewrite Hc, occurrences_snoc, <- !app_assoc; simpl.
  repeat split.
  rewrite list_elem_of_filter. tauto.
Qed.

(** [subscribe] touches the client's subscriptions and the registry only. *)
Lemma subscribe_frame (d : string) (cb : Handler) (s : t) :
  connectionState (subscribe d cb s) = connectionState s /\
  connectionEvents (subscribe d cb s) = connectionEvents s /\
  reconnectAttempts (subscribe d cb s) = reconnectAttempts s /\
  timers (subscribe d cb s) = timers s /\
  authService (subscribe d cb s) = authService s /\
  now (subscribe d cb s) = now s.
Proof.
  unfold subscribe. destruct (client s) as [c|]; [|done].
  by destruct (connected c).
Qed.

Lemma subscribeToUserTopics_frame (s : t) :
  connectionState (subscribeToUserTopics s) = connectionState s /\
  connectionEvents (subscribeToUserTopics s) = connectionEvents s /\
  reconnectAttempts (subscribeToUserTopics s) = reconnectAttempts s /\
  timers (subscribeToUserTopics s) = timers s /\
  authService (subscribeToUserTopics s) = authService s /\
  now (subscribeToUserTopics s) = now s.
Proof.
  unfold subscribeToUserTopics.
  destruct (AuthService.currentUser (authService s)) as [u|]; [|done].
  repeat match goal with
  | |- context [subscribe ?d ?cb ?x] =>
      let F := fresh in
      pose proof (subscribe_frame d cb x) as F;
      destruct F as (-> & -> & -> & -> & -> & ->)
  end.
  done.
Qed.

Lemma onWebSocketError_below (s : t) :
  reconnectAttempts s < maxReconnectAttempts ->
  onWebSocketError s =
    mk (client s) RECONNECTING
       (connectionEvents s ++
          [mkEvent ERROR (now s) (Some "WebSocket connection failed") None;
           mkEvent RECONNECTING (now s) None (Some (reconnectAttempts s + 1))])
       (reconnectAttempts s + 1) (activeSubscriptions s)
       (timers s ++ [reconnectDelay * (reconnectAttempts s + 1)])
       (authService s) (now s).
Proof.
  intros Hlt. unfold onWebSocketError, scheduleReconnect; simpl.
  destruct (Z.leb_spec maxReconnectAttempts (reconnectAttempts s)); [lia|].
  unfold set_timers, setConnectionState, set_reconnectAttempts; simpl.
  by rewrite <- app_assoc.
Qed.

Lemma onWebSocketError_ceiling (s : t) :
  maxReconnectAttempts <= reconnectAttempts s ->
  onWebSocketError s =
    mk (client s) ERROR
       (connectionEvents s ++
          [mkEvent ERROR (now s) (Some "WebSocket connection failed") None;
           mkEvent ERROR (now s) (Some "Max reconnect attempts reached") None])
       (reconnectAttempts s) (activeSubscriptions s) (timers s)
       (authService s) (now s).
Proof.
  intros Hge. unfold onWebSocketError, scheduleReconnect; simpl.
  destruct (Z.leb_spec maxReconnectAttempts (reconnectAttempts s)); [|lia].
  unfold setConnectionState; simpl. by rewrite <- app_assoc.
Qed.




Lemma step_WebSocketError_below (s : t) (c : Client) :
  client s = Some c ->
  reconnectAttempts s < maxReconnectAttempts ->
  step s WebSocketError =
    mk (Some (mkClient false (authorization c) (subscriptions c))) RECONNECTING
       (connectionEvents s ++
          [mkEvent ERROR (now s) (Some "WebSocket connection failed") None;
           mkEvent RECONNECTING (now s) None (Some (reconnectAttempts s + 1))])
       (reconnectAttempts s + 1) (activeSubscriptions s)
       (timers s ++ [reconnectDelay * (reconnectAttempts s + 1)])
       (authService s) (now s).
Proof.
  intros Hc Hlt. cbn [step]. rewrite Hc.
  rewrite onWebSocketError_below;
    unfold client_set_connected; rewrite Hc; [done|]. by simpl.
Qed.

Lemma step_WebSocketError_ceiling (s : t) (c : Client) :
  client s = Some c ->
  maxReconnectAttempts <= reconnectAttempts s ->
  step s WebSocketError =
    mk (Some (mkClient false (authorization c) (subscriptions c))) ERROR
       (connectionEvents s ++
          [mkEvent ERROR (now s) (Some "WebSocket connection failed") None;
           mkEvent ERROR (now s) (Some "Max reconnect attempts reached") None])
       (reconnectAttempts s) (activeSubscriptions s) (timers s)
       (authService s) (now s).
Proof.
  intros Hc Hlt. cbn [step]. rewrite Hc.
  rewrite onWebSocketError_ceiling;
    unfold client_set_connected; rewrite Hc; [done|]. by simpl.
Qed.



Lemma connect_frame (s : t) :
  reconnectAttempts (connect s) = reconnectAttempts s /\
  timers (connect s) = timers s /\
  activeSubscriptions (connect s) = activeSubscriptions s /\
  authService (connect s) = authService s /\
  now (connect s) = now s /\
  ((connectionState (connect s) = connectionState s /\
    connectionEvents (connect s) = connectionEvents s) \/
   (connectionState (connect s) = CONNECTING /\
    connectionEvents (connect s) =
      connectionEvents s ++ [mkEvent CONNECTING (now s) None None])).
Proof.
  unfold connect. destruct (clientConnected s); [by repeat split; try left|].
  destruct (Js.truthy (storedToken s)); cbn [negb].
  - repeat split. by right.
  - repeat split. by left.
Qed.

Lemma client_set_connected_frame (b : bool) (s : t) :
  connectionState (client_set_connected b s) = connectionState s /\
  connectionEvents (client_set_connected b s) = connectionEvents s /\
  reconnectAttempts (client_set_connected b s) = reconnectAttempts s /\
  timers (client_set_connected b s) = timers s /\
  activeSubscriptions (client_set_connected b s) = activeSubscriptions s /\
  now (client_set_connected b s) = now s.
Proof. unfold client_set_connected. by destruct (client s). Qed.

Lemma step_TimerFires_connects (s : t) (delay : Z) (rest : list Z) :
  timers s = delay :: rest ->
  clientConnected s = false ->
  Js.truthy (storedToken s) = true ->
  step s TimerFires =
    mk (Some (mkClient false ("Bearer " +:+ default "" (storedToken s)) []))
       CONNECTING
       (connectionEvents s ++ [mkEvent CONNECTING (now s) None None])
       (reconnectAttempts s) (activeSubscriptions s) rest
       (authService s) (now s).
Proof.
  intros Htimers Hconn Htoken. cbn [step]. rewrite Htimers.
  unfold connect.
  change (clientConnected (set_timers rest s)) with (clientConnected s).
  change (storedToken (set_timers rest s)) with (storedToken s).
  by rewrite Hconn, Htoken.
Qed.

Lemma step_StompConnected (s : t) (c : Client) :
  client s = Some c ->
  step s StompConnected =
    subscribeToUserTopics
      (mk (Some (mkClient true (authorization c) (subscriptions c))) CONNECTED
          (connectionEvents s ++ [mkEvent CONNECTED (now s) None None])
          0 (activeSubscriptions s) (timers s) (authService s) (now s)).
Proof.
  intros Hc. cbn [step]. rewrite Hc.
  unfold onConnect, client_set_connected. by rewrite Hc.
Qed.

Lemma subscribe_keeps_connected (d : string) (cb : Handler) (s : t) :
  clientConnected (subscribe d cb s) = clientConnected s.
Proof.
  unfold subscribe, clientConnected.
  destruct (client s) as [c|] eqn:Hcl; [|by rewrite Hcl].
  destruct (connected c) eqn:Hc; [done|]. by rewrite Hcl.
Qed.

Lemma subscribeToUserTopics_keeps_connected (s : t) :
  clientConnected (subscribeToUserTopics s) = clientConnected s.
Proof.
  unfold subscribeToUserTopics.
  destruct (AuthService.currentUser (authService s)) as [u|]; [|done].
  by rewrite !subscribe_keeps_connected.
Qed.

Lemma run_cons (s : t) (e : Event) (events : list Event) :
  run s (e :: events) = run (step s e) events.
Proof. reflexivity. Qed.







Lemma step_TimerFires_connected (s : t) (delay : Z) (rest : list Z) :
  timers s = delay :: rest ->
  clientConnected s = true ->
  step s TimerFires = set_timers rest s.
Proof.
  intros Htimers Hconn. cbn [step]. rewrite Htimers. unfold connect.
  change (clientConnected (set_timers rest s)) with (clientConnected s).
  by rewrite Hconn.
Qed.

(** What one event adds to the log: nothing, one entry that is not a
    reconnecting one, or the entry of a failed transport and one more. *)
Lemma step_log_added (s : t) (e : Event) :
  connectionEvents (step s e) = connectionEvents s \/
  (exists x, state x <> RECONNECTING /\
     connectionEvents (step s e) = connectionEvents s ++ [x]) \/
  (exists p y, state p = ERROR /\ error p = Some "WebSocket connection failed" /\
     connectionEvents (step s e) = connectionEvents s ++ [p; y]).
Proof.
  destruct e as [| |d cb|d| | |m| | |ms|].
  - cbn [step]. destruct (connect_frame s) as (_ & _ & _ & _ & _ & [[_ He]|[_ He]]).
    + by left.
    + right; left. by exists (mkEvent CONNECTING (now s) None None).
  - right; left. by exists (mkEvent DISCONNECTED (now s) None None).
  - left. cbn [step]. by destruct (subscribe_frame d cb s) as (_ & -> & _).
  - left. cbn [step]. unfold unsubscribe. by destruct (clientConnected s).
  - destruct (client s) as [c|] eqn:Hc; [|left; cbn [step]; by rewrite Hc].
    right; left. rewrite (step_StompConnected s c Hc).
    match goal with
    | |- context [subscribeToUserTopics ?x] =>
        destruct (subscribeToUserTopics_frame x) as (_ & -> & _)
    end.
    by exists (mkEvent CONNECTED (now s) None None).
  - cbn [step]. destruct (client s) as [c|] eqn:Hc; [|by left].
    right; left. destruct (client_set_connected_frame false s) as (_ & He & _ & _ & _ & Hn).
    unfold onDisconnect, setConnectionState. cbn [connectionEvents]. rewrite He, Hn.
    by exists (mkEvent DISCONNECTED (now s) None None).
  - cbn [step]. destruct (client s); [|by left].
    right; left. by exists (mkEvent ERROR (now s) (Some m) None).
  - destruct (client s) as [c|] eqn:Hc; [|left; cbn [step]; by rewrite Hc].
    right; right.
    destruct (Z.lt_ge_cases (reconnectAttempts s) maxReconnectAttempts).
    + rewrite (step_WebSocketError_below s c Hc) by done.
      by exists (mkEvent ERROR (now s) (Some "WebSocket connection failed") None),
                (mkEvent RECONNECTING (now s) None (Some (reconnectAttempts s + 1))).
    + rewrite (step_WebSocketError_ceiling s c Hc) by done.
      by exists (mkEvent ERROR (now s) (Some "WebSocket connection failed") None),
                (mkEvent ERROR (now s) (Some "Max reconnect attempts reached") None).
  - cbn [step]. destruct (timers s) as [|delay rest]; [by left|].
    destruct (connect_frame (set_timers rest s)) as (_ & _ & _ & _ & _ & [[_ He]|[_ He]]).
    + by left.
    + right; left. by exists (mkEvent CONNECTING (now s) None None).
  - by left.
  - left. cbn [step]. by destruct (client_set_connected_frame false s) as (_ & -> & _).
Qed.

Lemma reconnectingFollowsError_snoc (n : nat)
    (log : list WebSocketConnectionEvent) (x : WebSocketConnectionEvent) :
  state x <> RECONNECTING ->
  reconnectingFollowsError n log -> reconnectingFollowsError n (log ++ [x]).
Proof.
  intros Hx Hinv i e Hi He Hst.
  destruct (decide (i < length log)%nat) as [Hlt|Hge].
  - rewrite lookup_app_l in He by done.
    destruct (Hinv i e Hi He Hst) as (j & p & -> & Hj & Hp & Hs & Herr).
    exists j, p. repeat split; try done. rewrite lookup_app_l; [done|lia].
  - rewrite lookup_app_r in He by lia.
    destruct (i - length log)%nat as [|k]; [|done].
    injection He as <-. done.
Qed.

Lemma reconnectingFollowsError_error (n : nat)
    (log : list WebSocketConnectionEvent) (p y : WebSocketConnectionEvent) :
  (n <= length log)%nat ->
  state p = ERROR -> error p = Some "WebSocket connection failed" ->
  reconnectingFollowsError n log -> reconnectingFollowsError n (log ++ [p; y]).
Proof.
  intros Hn Hp Herr Hinv.
  assert (reconnectingFollowsError n (log ++ [p])) as Hinv'
    by (apply reconnectingFollowsError_snoc; [by rewrite Hp|done]).
  change (log ++ [p; y]) with (log ++ [p] ++ [y]). rewrite app_assoc.
  intros i e Hi He Hst.
  destruct (decide (i < length (log ++ [p]))%nat) as [Hlt|Hge].
  - rewrite lookup_app_l in He by done.
    destruct (Hinv' i e Hi He Hst) as (j & q & -> & Hj & Hq & Hs & He').
    exists j, q. repeat split; try done. rewrite lookup_app_l; [done|lia].
  - rewrite lookup_app_r in He by lia. rewrite length_app in *. cbn [length] in *.
    destruct (i - (length log + 1))%nat as [|k] eqn:Hk; [|done].
    exists (length log), p. split; [lia|]. split; [done|]. split; [|done].
    rewrite lookup_app_l by (rewrite length_app; cbn [length]; lia).
    by rewrite lookup_app_r, Nat.sub_diag.
Qed.

Lemma step_reconnectingFollowsError (n : nat) (s : t) (e : Event) :
  (n <= length (connectionEvents s))%nat ->
  reconnectingFollowsError n (connectionEvents s) ->
  (n <= length (connectionEvents (step s e)))%nat /\
  reconnectingFollowsError n (connectionEvents (step s e)).
Proof.
  intros Hn Hinv.
  destruct (step_log_added s e) as [->|[(x & Hx & ->)|(p & y & Hp & Herr & ->)]].
  - done.
  - split; [rewrite length_app; lia|]. by apply reconnectingFollowsError_snoc.
  - split; [rewrite length_app; lia|]. by apply reconnectingFollowsError_error.
Qed.

Lemma run_reconnectingFollowsError (n : nat) (events : list Event) (s : t) :
  (n <= length (connectionEvents s))%nat ->
  reconnectingFollowsError n (connectionEvents s) ->
  reconnectingFollowsError n (connectionEvents (run s events)).
Proof.
  revert s. induction events as [|e events IH]; intros s Hn Hinv; [done|].
  rewrite run_cons.
  destruct (step_reconnectingFollowsError n s e Hn Hinv) as [Hn' Hinv'].
  by apply IH.
Qed.

Lemma reconnectingFollowsError_end (log : list WebSocketConnectionEvent) :
  reconnectingFollowsError (length log) log.
Proof.
  intros i e Hi He. apply lookup_lt_Some in He. lia.
Qed.

(** The drop is reported as a transport error and the manager's timer
    fires before the client has reconnected by itself. *)
Lemma drop_timer_first (s : t) (wait handshake : Z) :
  clientConnected s = true ->
  reconnectAttempts s = 0 ->
  timers s = [] ->
  Js.truthy (storedToken s) = true ->
  connectionState (step s WebSocketError) = RECONNECTING /\
  reconnectAttempts (step s WebSocketError) = 1 /\
  timers (step s WebSocketError) = [1000] /\
  stateLog (step s WebSocketError) =
    stateLog s ++ [(ERROR, None); (RECONNECTING, Some 1)] /\
  stateLog (run s [WebSocketError; Elapse wait; TimerFires;
                   Elapse handshake; StompConnected]) =
    stateLog s ++ [(ERROR, None); (RECONNECTING, Some 1);
                   (CONNECTING, None); (CONNECTED, None)] /\
  connectionState (run s [WebSocketError; Elapse wait; TimerFires;
                          Elapse handshake; StompConnected]) = CONNECTED /\
  reconnectAttempts (run s [WebSocketError; Elapse wait; TimerFires;
                            Elapse handshake; StompConnected]) = 0 /\
  timers (run s [WebSocketError; Elapse wait; TimerFires;
                 Elapse handshake; StompConnected]) = [].
Proof.
  intros Hconn Hzero Htimers Htoken.
  unfold clientConnected in Hconn.
  destruct (client s) as [c|] eqn:Hc; [|discriminate].
  unfold run. cbn [foldl].
  rewrite (step_WebSocketError_below s c Hc)
    by (rewrite Hzero; unfold maxReconnectAttempts; lia).
  rewrite Hzero, Htimers.
  repeat (split; [done|]).
  split; [unfold stateLog; cbn [connectionEvents]; by rewrite map_app|].
  change (step (mk ?cl ?st ?ev ?att ?subs ?tm ?auth ?nw) (Elapse ?ms))
    with (mk cl st ev att subs tm auth (nw + ms)).
  erewrite step_TimerFires_connects; [|reflexivity|reflexivity|exact Htoken].
  change (step (mk ?cl ?st ?ev ?att ?subs ?tm ?auth ?nw) (Elapse ?ms))
    with (mk cl st ev att subs tm auth (nw + ms)).
  erewrite step_StompConnected; [|reflexivity].
  match goal with
  | |- context [subscribeToUserTopics ?x] =>
      destruct (subscribeToUserTopics_frame x) as (Hs & He & Ha & Ht & _)
  end.
  unfold stateLog. rewrite Hs, He, Ha, Ht.
  cbn [connectionState connectionEvents reconnectAttempts timers now app].
  rewrite <- !app_assoc, !map_app. by repeat split.
Qed.

(** The drop is reported as a transport error, and the client, created
    with its own reconnect delay, is connected again before the manager's
    timer fires: the timer then finds the client connected. *)
Lemma drop_client_first (s : t) :
  clientConnected s = true ->
  reconnectAttempts s = 0 ->
  timers s = [] ->
  stateLog (run s [WebSocketError; StompConnected; TimerFires]) =
    stateLog s ++ [(ERROR, None); (RECONNECTING, Some 1); (CONNECTED, None)] /\
  connectionState (run s [WebSocketError; StompConnected; TimerFires]) = CONNECTED /\
  reconnectAttempts (run s [WebSocketError; StompConnected; TimerFires]) = 0 /\
  timers (run s [WebSocketError; StompConnected; TimerFires]) = [].
Proof.
  intros Hconn Hzero Htimers.
  unfold clientConnected in Hconn.
  destruct (client s) as [c|] eqn:Hc; [|discriminate].
  unfold run. cbn [foldl].
  rewrite (step_WebSocketError_below s c Hc)
    by (rewrite Hzero; unfold maxReconnectAttempts; lia).
  rewrite Hzero, Htimers.
  erewrite step_StompConnected; [|reflexivity].
  match goal with
  | |- context [subscribeToUserTopics ?x] =>
      set (s1 := x);
      destruct (subscribeToUserTopics_frame s1) as (Hs & He & Ha & Ht & _);
      pose proof (subscribeToUserTopics_keeps_connected s1) as Hk
  end.
  rewrite (step_TimerFires_connected (subscribeToUserTopics s1) 1000 [])
    by (by rewrite ?Ht, ?Hk).
  unfold stateLog. cbn [set_timers connectionState connectionEvents
                        reconnectAttempts timers].
  rewrite Hs, He, Ha. subst s1.
  cbn [connectionState connectionEvents reconnectAttempts].
  rewrite <- !app_assoc, !map_app. by repeat split.
Qed.

(** The transport closes without an error event and the client reconnects
    by itself: none of the service's code runs for the drop. *)
Lemma drop_silent (s : t) :
  clientConnected s = true ->
  stateLog (step s WebSocketClose) = stateLog s /\
  connectionState (step s WebSocketClose) = connectionState s /\
  clientConnected (step s WebSocketClose) = false /\
  stateLog (run s [WebSocketClose; StompConnected]) = stateLog s ++ [(CONNECTED, None)] /\
  connectionState (run s [WebSocketClose; StompConnected]) = CONNECTED /\
  reconnectAttempts (run s [WebSocketClose; StompConnected]) = 0 /\
  timers (run s [WebSocketClose; StompConnected]) = timers s.
Proof.
  intros Hconn. unfold clientConnected in Hconn.
  destruct (client s) as [c|] eqn:Hc; [|discriminate].
  unfold run. cbn [foldl].
  assert (step s WebSocketClose =
          mk (Some (mkClient false (authorization c) (subscriptions c)))
             (connectionState s) (connectionEvents s) (reconnectAttempts s)
             (activeSubscriptions s) (timers s) (authService s) (now s)) as ->.
  { cbn [step]. unfold client_set_connected. by rewrite Hc. }
  repeat (split; [done|]).
  erewrite step_StompConnected; [|reflexivity].
  match goal with
  | |- context [subscribeToUserTopics ?x] =>
      destruct (subscribeToUserTopics_frame x) as (Hs & He & Ha & Ht & _)
  end.
  unfold stateLog. rewrite Hs, He, Ha, Ht.
  cbn [connectionState connectionEvents reconnectAttempts timers].
  rewrite map_app. by repeat split.
Qed.

(** C7, as amended.  Let the connection be established (client connected,
    state connected, counter 0, no timer pending) and an access token be
    stored.  What the log records of a drop depends on how the STOMP
    client reports it and on which reconnection comes first.
    When the client reports the drop as a transport error, the log gains
    error and then reconnecting with attempt 1, and a timer of 1000 ms is
    armed.  If that timer fires before the client is connected again, and
    the broker then accepts the handshake, the log gains exactly error,
    reconnecting with attempt 1, connecting, connected.  If the client,
    which is created with a reconnect delay of its own, is connected again
    first, the log gains error, reconnecting with attempt 1, connected,
    and the timer then finds the client connected and records nothing.
    When the transport closes without an error event, no code of the
    service runs: nothing is recorded for the drop, and the client's own
    reconnection records connected once more.  The counter is back at 0
    after the accepted handshake in each case.  And whatever the events
    are, a reconnecting entry never comes directly after a connected one:
    the entry before it is always an error entry that records the failed
    transport. *)
Theorem drop_and_reconnect_state_sequence
    (s : t) (wait handshake : Z)
    (Hconn : clientConnected s = true)
    (Hstate : connectionState s = CONNECTED)
    (Hzero : reconnectAttempts s = 0)
    (Htimers : timers s = [])
    (Htoken : Js.truthy (storedToken s) = true) :
  (connectionState (step s WebSocketError) = RECONNECTING /\
   reconnectAttempts (step s WebSocketError) = 1 /\
   timers (step s WebSocketError) = [1000] /\
   stateLog (step s WebSocketError) =
     stateLog s ++ [(ERROR, None); (RECONNECTING, Some 1)]) /\
  (stateLog (run s [WebSocketError; Elapse wait; TimerFires;
                    Elapse handshake; StompConnected]) =
     stateLog s ++ [(ERROR, None); (RECONNECTING, Some 1);
                    (CONNECTING, None); (CONNECTED, None)] /\
   connectionState (run s [WebSocketError; Elapse wait; TimerFires;
                           Elapse handshake; StompConnected]) = CONNECTED /\
   reconnectAttempts (run s [WebSocketError; Elapse wait; TimerFires;
                             Elapse handshake; StompConnected]) = 0 /\
   timers (run s [WebSocketError; Elapse wait; TimerFires;
                  Elapse handshake; StompConnected]) = []) /\
  (stateLog (run s [WebSocketError; StompConnected; TimerFires]) =
     stateLog s ++ [(ERROR, None); (RECONNECTING, Some 1); (CONNECTED, None)] /\
   connectionState (run s [WebSocketError; StompConnected; TimerFires]) = CONNECTED /\
   reconnectAttempts (run s [WebSocketError; StompConnected; TimerFires]) = 0 /\
   timers (run s [WebSocketError; StompConnected; TimerFires]) = []) /\
  (stateLog (step s WebSocketClose) = stateLog s /\
   connectionState (step s WebSocketClose) = CONNECTED /\
   clientConnected (step s WebSocketClose) = false /\
   stateLog (run s [WebSocketClose; StompConnected]) = stateLog s ++ [(CONNECTED, None)] /\
   connectionState (run s [WebSocketClose; StompConnected]) = CONNECTED /\
   reconnectAttempts (run s [WebSocketClose; StompConnected]) = 0 /\
   timers (run s [WebSocketClose; StompConnected]) = []) /\
  (forall events,
     reconnectingFollowsError (length (connectionEvents s))
       (connectionEvents (run s events))).
Proof.
  destruct (drop_timer_first s wait handshake Hconn Hzero Htimers Htoken)
    as (H1 & H2 & H3 & H4 & H5 & H6 & H7 & H8).
  destruct (drop_client_first s Hconn Hzero Htimers) as (H9 & H10 & H11 & H12).
  destruct (drop_silent s Hconn) as (H13 & H14 & H15 & H16 & H17 & H18 & H19).
  rewrite Hstate in H14. rewrite Htimers in H19.
  split; [done|]. split; [done|]. split; [done|]. split; [done|].
  intros events. apply run_reconnectingFollowsError; [done|].
  apply reconnectingFollowsError_end.
Qed.

End ConnectionProperties.

Section ConnectionScenarios.
Import Model WebSocketService Samples.

Lemma subscribe_appends_key_witness :
  clientConnected connectedService = true /\
  activeSubscriptions
    (subscribe "/topic/announcements" toAnnouncement
       (subscribe "/topic/announcements" toAnnouncement connectedService)) =
    activeSubscriptions connectedService
      ++ ["/topic/announcements"; "/topic/announcements"].
Proof.
  assert (clientConnected connectedService = true) as Hconn
    by (vm_compute; reflexivity).
  split; [exact Hconn|].
  destruct (subscribe_appends_key connectedService "/topic/announcements"
              toAnnouncement toAnnouncement Hconn)
    as (_ & _ & _ & _ & Htwice & _).
  exact Htwice.
Defined.


(** C5, as stated, fails: on a connected service the second
    [subscribeToAnnouncements()] finds the key in the registry and still
    changes the state; the key then occurs twice and the client holds two
    handlers for it. *)
Lemma subscribe_twice_duplicates_key :
  clientConnected connectedService = true /\
  occurrences PUBLIC_TOPICS.announcements
    (activeSubscriptions (subscribeToAnnouncements connectedService)) = 1%nat /\
  subscribeToAnnouncements (subscribeToAnnouncements connectedService) <>
    subscribeToAnnouncements connectedService /\
  occurrences PUBLIC_TOPICS.announcements
    (activeSubscriptions
       (subscribeToAnnouncements (subscribeToAnnouncements connectedService))) = 2%nat /\
  filter (fun sub => sub.1 = PUBLIC_TOPICS.announcements)
    (clientSubscriptions
       (subscribeToAnnouncements (subscribeToAnnouncements connectedService))) =
    [(PUBLIC_TOPICS.announcements, toAnnouncement);
     (PUBLIC_TOPICS.announcements, toAnnouncement)].
Proof.
  split; [vm_compute; reflexivity|].
  split; [vm_compute; reflexivity|].
  split; [|split; vm_compute; reflexivity].
  intros Heq.
  apply (f_equal (fun s => length (activeSubscriptions s))) in Heq.
  vm_compute in Heq. discriminate Heq.
Qed.

Lemma drop_and_reconnect_state_sequence_witness :
  clientConnected connectedService = true /\
  stateLog (run connectedService
              [WebSocketError; Elapse 1000; TimerFires; Elapse 40; StompConnected]) =
    stateLog connectedService ++
      [(ERROR, None); (RECONNECTING, Some 1); (CONNECTING, None); (CONNECTED, None)] /\
  stateLog (run connectedService [WebSocketClose; StompConnected]) =
    stateLog connectedService ++ [(CONNECTED, None)].
Proof.
  assert (clientConnected connectedService = true) as Hconn
    by (vm_compute; reflexivity).
  assert (Js.truthy (storedToken connectedService) = true) as Htoken
    by (vm_compute; reflexivity).
  split; [exact Hconn|].
  destruct (drop_and_reconnect_state_sequence connectedService 1000 40
              Hconn eq_refl eq_refl eq_refl Htoken)
    as (_ & (Hlog & _) & _ & (_ & _ & _ & Hsilent & _) & _).
  split; [exact Hlog|exact Hsilent].
Defined.

(** C7, as stated, fails.  In the log of a connection that is
    established, drops with a transport error and is re-established by the
    manager's timer, an error entry stands between the first connected
    entry and the reconnecting one.  When the transport closes without an
    error event and the client reconnects by itself, neither reconnecting
    nor connecting is recorded.  And no sequence of events at all records
    reconnecting directly after connected. *)
Lemma drop_and_reconnect_log_has_error :
  stateLog (run (init session 0)
              [Connect; StompConnected; WebSocketError; TimerFires; StompConnected]) =
    [(CONNECTING, None); (CONNECTED, None); (ERROR, None);
     (RECONNECTING, Some 1); (CONNECTING, None); (CONNECTED, None)] /\
  drop 1 (stateLog (run (init session 0)
                      [Connect; StompConnected; WebSocketError; TimerFires;
                       StompConnected])) <>
    [(CONNECTED, None); (RECONNECTING, Some 1); (CONNECTING, None); (CONNECTED, None)] /\
  stateLog (run (init session 0)
              [Connect; StompConnected; WebSocketClose; StompConnected]) =
    [(CONNECTING, None); (CONNECTED, None); (CONNECTED, None)] /\
  ~ (exists events i,
       stateLog (run (init session 0) events) !! i = Some (CONNECTED, None) /\
       stateLog (run (init session 0) events) !! S i = Some (RECONNECTING, Some 1)).
Proof.
  split; [vm_compute; reflexivity|].
  split; [intros Heq; vm_compute in Heq; discriminate Heq|].
  split; [vm_compute; reflexivity|].
  intros (events & i & Hi & Hsi).
  unfold stateLog in Hi, Hsi. rewrite list_lookup_fmap in Hi, Hsi.
  destruct (connectionEvents (run (init session 0) events) !! i) as [p|] eqn:Hp;
    [|discriminate].
  destruct (connectionEvents (run (init session 0) events) !! S i) as [e|] eqn:He;
    [|discriminate].
  cbn [fmap option_fmap option_map] in Hi, Hsi.
  injection Hi as Hpst _. injection Hsi as Hest _.
  destruct (run_reconnectingFollowsError 0 events (init session 0))
    with (i := S i) (e := e) as (j & q & Hj & _ & Hq & Hqst & _);
    [done|apply (reconnectingFollowsError_end [])|lia|done|done|].
  injection Hj as <-. rewrite Hp in Hq. injection Hq as <-. congruence.
Qed.


End ConnectionScenarios.

(** * Further properties *)

(** ** The interceptors together, and the queue over whole runs *)

Section ChainProperties.
Import Http Model Interceptor InterceptorChain InterceptorCounts TokenRefreshTimer.
Context `{JsonStringify ApiUser}.

(** X1. With the interceptors registered as in [app.config.ts] (auth
    first, error second) an error answer reaches the auth interceptor
    already wrapped by the error interceptor, and the wrapper has no
    [status]: whatever the backend's status, 401 included, the request
    fails with the wrapped error, no refresh call is made, nothing is
    queued and the session is left alone.  On its own the auth
    interceptor's handler does run [handle401] on a 401 response. *)
Theorem configured_chain_never_refreshes
    (req : HttpRequest) (error : HttpError) (s : t) :
  wire (onBackendError req error s) = wire s /\
  isRefreshing (onBackendError req error s) = isRefreshing s /\
  subjectValue (onBackendError req error s) = subjectValue s /\
  waiters (onBackendError req error s) = waiters s /\
  refreshing (onBackendError req error s) = refreshing s /\
  authService (onBackendError req error s) = authService s /\
  failures (onBackendError req error s) = failures s ++ [(req, ApiError error)] /\
  authInterceptorFn_catchError req (HttpErrorResponse 401) s = handle401 req s.
Proof.
  unfold onBackendError, authInterceptorFn_catchError, errorInterceptorFn_catchError.
  cbn [status]. rewrite (decide_False (P := None = Some 401)) by discriminate.
  rewrite (decide_True (P := Some 401 = Some 401)) by done.
  by destruct (isAuthEndpoint (url req)).
Qed.

Lemma step_flag_value (s : t) (e : Event) :
  (isRefreshing s = true -> subjectValue s = None) ->
  isRefreshing (step s e) = true -> subjectValue (step s e) = None.
Proof.
  intros Inv. destruct e as [req status|i res|i err|i result]; simpl.
  - unfold onErrorResponse.
    destruct (isAuthEndpoint (url req)); [exact Inv|].
    destruct (status =? 401); [|exact Inv].
    unfold handle401. destruct (isRefreshing s) eqn:Hflag; simpl.
    + unfold subject_subscribe. rewrite (Inv eq_refl). simpl. by rewrite Hflag.
    + by destruct (AuthService.refreshToken (authService s)).
  - unfold onRefreshResponse. destruct (refreshing s !! i); [done|exact Inv].
  - unfold onRefreshError. destruct (refreshing s !! i); [done|exact Inv].
  - unfold onRetrySettled.
    destruct (retrying s !! i); [by destruct result|exact Inv].
Qed.

Lemma run_flag_value (events : list Event) (s : t) :
  (isRefreshing s = true -> subjectValue s = None) ->
  isRefreshing (run s events) = true -> subjectValue (run s events) = None.
Proof.
  revert s. induction events as [|e events IH]; intros s Inv; [exact Inv|].
  apply IH. by apply step_flag_value.
Qed.

(** X2. In every state the interceptor can reach from its initial one,
    a set in-flight flag means the shared subject holds [null].  So a 401
    handler that finds the flag set never picks up an old token: it sends
    nothing and its request joins the end of the waiting list. *)
Theorem late_401_always_queues
    (a : AuthService.t) (events : list Event) (req : HttpRequest)
    (Hflag : isRefreshing (run (init a) events) = true) :
  subjectValue (run (init a) events) = None /\
  wire (handle401 req (run (init a) events)) = wire (run (init a) events) /\
  waiters (handle401 req (run (init a) events)) =
    waiters (run (init a) events) ++ [req] /\
  failures (handle401 req (run (init a) events)) = failures (run (init a) events).
Proof.
  assert (subjectValue (run (init a) events) = None) as Hval
    by (by apply run_flag_value).
  by rewrite (handle401_waits req _ Hflag Hval).
Qed.

(** X3. A 401 that finds the flag clear and no refresh token in storage
    makes no call: the request fails at once with "No refresh token
    available", the flag is clear again, the session is wiped and the
    user is sent to the login page. *)
Theorem handle401_without_refresh_token
    (s : t) (req : HttpRequest)
    (Hidle : isRefreshing s = false)
    (Hnone : Js.truthy (AuthService.localStorage (authService s)
                          !! AuthService.REFRESH_TOKEN_KEY) = false) :
  wire (handle401 req s) = wire s /\
  isRefreshing (handle401 req s) = false /\
  waiters (handle401 req s) = waiters s /\
  refreshing (handle401 req s) = refreshing s /\
  failures (handle401 req s) =
    failures s ++ [(req, JsError "No refresh token available")] /\
  AuthService.getAccessToken (authService (handle401 req s)) = None /\
  AuthService.isAuthenticated (authService (handle401 req s)) = false /\
  AuthService.currentUser (authService (handle401 req s)) = None /\
  AuthService.navigations (authService (handle401 req s)) =
    AuthService.navigations (authService s) ++ ["/auth/login"].
Proof.
  unfold handle401. rewrite Hidle.
  cbn [negb set_isRefreshing subject_next authService].
  rewrite (refreshToken_inl _ Hnone).
  destruct (logout_clears (authService s)) as (Htok & _ & _ & Hu & Hauth & _ & _ & Hnav).
  unfold refresh_finalize, refresh_catchError, throwError, set_authService,
    set_isRefreshing, AuthService.getAccessToken.
  cbn [wire isRefreshing waiters refreshing failures authService].
  by rewrite Htok, Hu, Hauth, Hnav.
Qed.

(** X4. The [finalize] of a refresh pipeline runs when the request it
    re-dispatched completes, and clears the flag then, whatever is in
    flight.  So if an earlier pipeline is still waiting for its
    re-dispatched request, its completion clears the flag under a refresh
    call that is outstanding, and the next 401 on a request that is not to
    an auth endpoint starts another refresh call beside it. *)
Theorem stale_finalize_allows_second_refresh
    (s : t) (i : nat) (r q : HttpRequest)
    (Hretry : retrying s !! i = Some r)
    (Htoken : Js.truthy (AuthService.localStorage (authService s)
                           !! AuthService.REFRESH_TOKEN_KEY) = true)
    (Hq : isAuthEndpoint (url q) = false) :
  isRefreshing (onRetrySettled i None s) = false /\
  refreshing (onRetrySettled i None s) = refreshing s /\
  wire (onRetrySettled i None s) = wire s /\
  refreshCalls (onErrorResponse q 401 (onRetrySettled i None s)) =
    S (refreshCalls s) /\
  refreshing (onErrorResponse q 401 (onRetrySettled i None s)) =
    refreshing s ++ [q].
Proof.
  assert (onRetrySettled i None s =
          mk false (subjectValue s) (waiters s) (authService s) (refreshing s)
             (delete i (retrying s)) (wire s) (failures s)) as ->.
  { unfold onRetrySettled. by rewrite Hretry. }
  destruct (refreshToken_inr _ Htoken) as (token & _ & Hpost).
  rewrite (onErrorResponse_401 q _ Hq).
  rewrite (handle401_starts_refresh q _ (mk false _ _ _ _ _ _ _) eq_refl Hpost).
  repeat split.
  unfold refreshCalls; simpl. rewrite filter_app, length_app; simpl. lia.
Qed.

(** X5. The [catchError] of the refresh pipeline sits after the
    [switchMap] that re-dispatches the request, so it also catches the
    failure of the re-dispatched request: whatever that error is, the
    session that was just refreshed is wiped, the user is sent to the login
    page and the request fails with the error. *)
Theorem failed_retry_forces_logout
    (s : t) (i : nat) (r : HttpRequest) (err : HttpError)
    (Hretry : retrying s !! i = Some r) :
  isRefreshing (onRetrySettled i (Some err) s) = false /\
  wire (onRetrySettled i (Some err) s) = wire s /\
  failures (onRetrySettled i (Some err) s) = failures s ++ [(r, err)] /\
  AuthService.getAccessToken (authService (onRetrySettled i (Some err) s)) = None /\
  AuthService.localStorage (authService (onRetrySettled i (Some err) s))
    !! AuthService.REFRESH_TOKEN_KEY = None /\
  AuthService.isAuthenticated (authService (onRetrySettled i (Some err) s)) = false /\
  AuthService.currentUser (authService (onRetrySettled i (Some err) s)) = None /\
  AuthService.navigations (authService (onRetrySettled i (Some err) s)) =
    AuthService.navigations (authService s) ++ ["/auth/login"].
Proof.
  assert (onRetrySettled i (Some err) s =
          mk false (subjectValue s) (waiters s) (AuthService.logout (authService s))
             (refreshing s) (delete i (retrying s)) (wire s)
             (failures s ++ [(r, err)])) as ->.
  { unfold onRetrySettled. by rewrite Hretry. }
  destruct (logout_clears (authService s)) as (Htok & Href & _ & Hu & Hauth & _ & _ & Hnav).
  unfold AuthService.getAccessToken.
  cbn [wire isRefreshing failures authService].
  by rewrite Htok, Href, Hu, Hauth, Hnav.
Qed.

Lemma refreshCalls_step (s : t) (e : Event) :
  refreshCalls (step s e) = refreshCalls s \/
  (refreshCalls (step s e) = S (refreshCalls s) /\
   exists req, e = ErrorResponse req 401 /\ isAuthEndpoint (url req) = false /\
     isRefreshing s = false /\
     Js.truthy (AuthService.localStorage (authService s)
                  !! AuthService.REFRESH_TOKEN_KEY) = true).
Proof.
  destruct e as [req status|i res|i err|i result]; simpl.
  - unfold onErrorResponse.
    destruct (isAuthEndpoint (url req)) eqn:Hep; [by left|].
    destruct (Z.eqb_spec status 401) as [->|]; [|by left].
    destruct (isRefreshing s) eqn:Hflag.
    + left. unfold handle401, subject_subscribe. rewrite Hflag; simpl.
      destruct (subjectValue s); [|done].
      rewrite refreshCalls_app.
      rewrite filter_cons_False by (simpl; congruence). simpl. lia.
    + destruct (Js.truthy (AuthService.localStorage (authService s)
                             !! AuthService.REFRESH_TOKEN_KEY)) eqn:Htoken.
      * right. destruct (refreshToken_inr _ Htoken) as (token & _ & Hpost).
        rewrite (handle401_starts_refresh req _ s Hflag Hpost).
        split; [|by exists req].
        unfold refreshCalls; simpl. rewrite filter_app, length_app; simpl. lia.
      * left. unfold handle401. rewrite Hflag; simpl.
        by rewrite (refreshToken_inl _ Htoken).
  - left. unfold onRefreshResponse. destruct (refreshing s !! i) eqn:Hi; [|done].
    unfold refreshCalls, subject_next, send; simpl.
    rewrite !filter_app, !length_app, filter_Forwarded.
    rewrite filter_cons_False by (simpl; congruence). simpl. lia.
  - left. unfold onRefreshError. by destruct (refreshing s !! i).
  - left. unfold onRetrySettled. destruct (retrying s !! i); [|done].
    by destruct result.
Qed.

(** X6. Of the callbacks of the auth interceptor, only the handler of a
    401 on a request that is not to an auth endpoint, finding the flag
    clear and a refresh token in storage, puts a refresh call on the wire,
    and it puts exactly one; the handlers of a refresh response, a refresh
    failure and a retry outcome put none.  Over a whole run of these
    callbacks there are at most as many refresh calls as 401 responses.
    The interceptor is not the only source of refresh calls: the timer
    that [handleAuthSuccess] arms posts the stored refresh token when it is
    due and does not read the flag, so it adds a refresh call beside one
    that is outstanding. *)
Theorem refresh_calls_from_401_and_timer (s : t) (events : list Event) :
  (forall e,
     refreshCalls (step s e) = refreshCalls s \/
     (refreshCalls (step s e) = S (refreshCalls s) /\
      exists req, e = ErrorResponse req 401 /\ isAuthEndpoint (url req) = false /\
        isRefreshing s = false /\
        Js.truthy (AuthService.localStorage (authService s)
                     !! AuthService.REFRESH_TOKEN_KEY) = true)) /\
  (refreshCalls (run s events) <= refreshCalls s + count401 events)%nat /\
  (forall delay token,
     AuthService.refreshSub (authService s) = Some delay ->
     AuthService.localStorage (authService s) !! "reddit_refresh_token" = Some token ->
     token <> "" ->
     wire (onRefreshTimer s) =
       wire s ++ [RefreshCall (mkRequest (AuthService.apiUrl (authService s) +:+ "/refresh")
                                 POST token {["Content-Type" := "text/plain"]})] /\
     refreshCalls (onRefreshTimer s) = S (refreshCalls s) /\
     isRefreshing (onRefreshTimer s) = isRefreshing s /\
     refreshing (onRefreshTimer s) = refreshing s /\
     waiters (onRefreshTimer s) = waiters s).
Proof.
  split; [apply refreshCalls_step|]. split.
  - revert s. induction events as [|e events IH]; intros s; [simpl; lia|].
    cbn [run foldl]. specialize (IH (step s e)). unfold run in IH.
    unfold count401 in *. rewrite filter_cons.
    destruct (refreshCalls_step s e) as [Heq|(Heq & req & -> & _)].
    + rewrite Heq in IH. destruct (decide _); cbn [length]; lia.
    + rewrite Heq in IH.
      rewrite decide_True by done. cbn [length]. lia.
  - intros delay token Hsub Htok Hne. unfold onRefreshTimer.
    rewrite Hsub. cbn [set_authService authService].
    rewrite (refreshToken_post (fired (authService s)) token Htok Hne).
    repeat split. rewrite refreshCalls_app.
    change (refreshCalls (set_authService (fired (authService s)) s))
      with (refreshCalls s).
    simpl. lia.
Qed.

Lemma headers_set_eq (h : HttpHeaders) (name value : string) :
  <[name := value]> h =
    mkHeaders (<[Js.toLowerCase name := [value]]> (headerValues h))
              (match normalizedNames h !! Js.toLowerCase name with
               | Some _ => normalizedNames h
               | None => <[Js.toLowerCase name := name]> (normalizedNames h)
               end).
Proof. reflexivity. Qed.

(** Setting a header twice is setting it to the second value. *)
Lemma setHeader_setHeader (name v v' : string) (r : HttpRequest) :
  setHeader name v' (setHeader name v r) = setHeader name v' r.
Proof.
  unfold setHeader. cbn [url method body headers]. f_equal.
  rewrite !headers_set_eq. cbn [headerValues normalizedNames].
  rewrite insert_insert_eq. f_equal.
  destruct (normalizedNames (headers r) !! Js.toLowerCase name) as [n|] eqn:Hn.
  - by rewrite Hn.
  - by rewrite lookup_insert_eq.
Qed.

Lemma sameRequest_addToken (q r : HttpRequest) (token : string) :
  sameRequest q (addToken r token) <-> sameRequest q r.
Proof. unfold sameRequest, addToken. by rewrite setHeader_setHeader. Qed.

Lemma heldOf_snoc (q r : HttpRequest) (l : list HttpRequest) :
  heldOf q (l ++ [r]) =
    (heldOf q l + if decide (sameRequest q r) then 1 else 0)%nat.
Proof.
  unfold heldOf. rewrite filter_app, length_app, filter_cons, filter_nil.
  by destruct (decide (sameRequest q r)).
Qed.

Lemma heldOf_delete (q x : HttpRequest) (l : list HttpRequest) (i : nat) :
  l !! i = Some x ->
  (heldOf q (delete i l) + (if decide (sameRequest q x) then 1 else 0))%nat =
    heldOf q l.
Proof.
  unfold heldOf. revert i. induction l as [|y l IH]; intros i; [done|].
  destruct i as [|i].
  - intros [= ->]. change (delete 0%nat (x :: l)) with l. rewrite filter_cons.
    destruct (decide (sameRequest q x)); cbn [length]; lia.
  - intros Hi. specialize (IH i Hi).
    change (delete (S i) (y :: l)) with (y :: delete i l). rewrite !filter_cons.
    destruct (decide (sameRequest q y)), (decide (sameRequest q x));
      cbn [length] in *; lia.
Qed.

Lemma forwardedOf_map (q : HttpRequest) (token : string) (l : list HttpRequest) :
  length (filter (fun w => isForwardOf q w = true)
            (map (fun r => Forwarded (addToken r token)) l)) = heldOf q l.
Proof.
  unfold heldOf. induction l as [|r l IH]; [done|]. cbn [map].
  rewrite !filter_cons. cbn [isForwardOf].
  destruct (decide (sameRequest q r)) as [Hs|Hs].
  - rewrite decide_True; [cbn [length]; by rewrite IH|].
    apply bool_decide_eq_true_2. by apply sameRequest_addToken.
  - rewrite decide_False; [done|].
    rewrite bool_decide_eq_false_2; [done|]. by rewrite sameRequest_addToken.
Qed.

Lemma forwardedOf_one (q r : HttpRequest) (token : string) :
  length (filter (fun w => isForwardOf q w = true) [Forwarded (addToken r token)]) =
    if decide (sameRequest q r) then 1%nat else 0%nat.
Proof.
  change [Forwarded (addToken r token)]
    with (map (fun r => Forwarded (addToken r token)) [r]).
  rewrite forwardedOf_map. unfold heldOf. rewrite filter_cons, filter_nil.
  by destruct (decide (sameRequest q r)).
Qed.

Lemma accountedOf_step (q : HttpRequest) (s : t) (e : Event) :
  (accountedOf q (step s e) <= accountedOf q s + (if is401Of q e then 1 else 0))%nat.
Proof.
  unfold accountedOf, forwardedOf.
  destruct e as [req status|i res|i err|i result]; cbn [step is401Of].
  - unfold onErrorResponse.
    destruct (isAuthEndpoint (url req)); [cbn [throwError wire waiters refreshing]; lia|].
    destruct (Z.eqb_spec status 401) as [->|];
      [|cbn [throwError wire waiters refreshing]; lia].
    cbn [andb negb].
    assert ((if bool_decide (sameRequest q req) then 1 else 0)%nat =
            (if decide (sameRequest q req) then 1 else 0)%nat) as ->
      by (by destruct (decide (sameRequest q req));
            [rewrite bool_decide_eq_true_2|rewrite bool_decide_eq_false_2]).
    unfold handle401. destruct (isRefreshing s); cbn [negb].
    + unfold subject_subscribe. destruct (subjectValue s) as [token|].
      * unfold send; cbn [wire waiters refreshing].
        rewrite filter_app, length_app, forwardedOf_one. lia.
      * cbn [wire waiters refreshing]. rewrite heldOf_snoc. lia.
    + cbn [set_isRefreshing subject_next authService].
      destruct (AuthService.refreshToken (authService s)) as [err|post].
      * cbn [refresh_finalize refresh_catchError throwError set_authService
             set_isRefreshing wire waiters refreshing]. lia.
      * unfold set_refreshing, send; cbn [wire waiters refreshing].
        rewrite filter_app, length_app, heldOf_snoc.
        rewrite filter_cons_False by (simpl; congruence). simpl. lia.
  - unfold onRefreshResponse. destruct (refreshing s !! i) as [req|] eqn:Hi; [|lia].
    pose proof (heldOf_delete q req _ _ Hi) as Hdel.
    unfold set_retrying, send, subject_next, set_isRefreshing, set_authService,
      set_refreshing; cbn [wire waiters refreshing].
    rewrite !filter_app, !length_app, forwardedOf_map, forwardedOf_one.
    change (heldOf q []) with 0%nat. lia.
  - unfold onRefreshError. destruct (refreshing s !! i) as [req|] eqn:Hi; [|lia].
    pose proof (heldOf_delete q req _ _ Hi) as Hdel.
    unfold refresh_finalize, refresh_catchError, throwError, set_isRefreshing,
      set_authService, set_refreshing, AuthService.refreshToken_error;
      cbn [wire waiters refreshing].
    lia.
  - unfold onRetrySettled. destruct (retrying s !! i); [|lia].
    destruct result; simpl; lia.
Qed.

(** X7. No request is re-dispatched more often than it got a 401.  Count,
    for a request [q], its re-dispatched copies together with the places
    it holds in the queue (waiting, or as the trigger of a refresh): over
    any run this count grows by at most the number of 401 responses to [q]
    that ran the 401 handler.  So from the initial state a request that
    got one 401 is re-dispatched at most once, and one that got none is
    never sent by the queue. *)
Theorem no_request_redispatched_twice
    (q : HttpRequest) (s : t) (a : AuthService.t) (events : list Event) :
  (accountedOf q (run s events) <= accountedOf q s + count401Of q events)%nat /\
  (forwardedOf q (run (init a) events) <= count401Of q events)%nat /\
  (count401Of q events = 1%nat -> forwardedOf q (run (init a) events) <= 1)%nat /\
  (count401Of q events = 0%nat ->
   forall token, Forwarded (addToken q token) ∉ wire (run (init a) events)).
Proof.
  assert (forall events s,
            (accountedOf q (run s events) <= accountedOf q s + count401Of q events)%nat)
    as Hrun.
  { clear. intros events. induction events as [|e events IH]; intros s; [simpl; lia|].
    cbn [run foldl]. specialize (IH (step s e)). unfold run in IH.
    pose proof (accountedOf_step q s e) as Hstep.
    unfold count401Of in *. rewrite filter_cons.
    destruct (is401Of q e) eqn:He.
    - rewrite decide_True by done. cbn [length]. lia.
    - rewrite decide_False by congruence. lia. }
  assert (forwardedOf q (run (init a) events) <= count401Of q events)%nat as Hinit.
  { specialize (Hrun events (init a)). unfold accountedOf in Hrun at 1.
    change (accountedOf q (init a)) with 0%nat in Hrun. lia. }
  split; [apply Hrun|]. split; [exact Hinit|]. split; [lia|].
  intros Hzero token Hin.
  assert (0 < forwardedOf q (run (init a) events))%nat; [|lia].
  unfold forwardedOf.
  assert (Forwarded (addToken q token) ∈
            filter (fun w => isForwardOf q w = true) (wire (run (init a) events))) as Hf.
  { apply list_elem_of_filter. split; [|done]. cbn [isForwardOf].
    apply bool_decide_eq_true_2. by apply sameRequest_addToken. }
  destruct (filter _ _); [by apply elem_of_nil in Hf|cbn [length]; lia].
Qed.

(** X8. Requests left waiting by a failed refresh outlive the session.
    After the failure and the forced logout they are still queued; when
    the user then logs in again and a later 401 on a request that is not
    to an auth endpoint leads to a successful refresh, each of them is
    re-dispatched with the access token of that refresh, and none of them
    was ever failed. *)
Theorem stale_waiters_sent_with_next_session_token
    (s : t) (i : nat) (r q : HttpRequest) (err : HttpError)
    (session res : AuthResponse)
    (Hout : refreshing s !! i = Some r)
    (Hsession : refreshToken session <> "")
    (Hq : isAuthEndpoint (url q) = false) :
  let s1 := onRefreshError i err s in
  let s2 := loggedIn session s1 in
  let s3 := onErrorResponse q 401 s2 in
  let s4 := onRefreshResponse (length (refreshing s1)) res s3 in
  waiters s1 = waiters s /\
  AuthService.getAccessToken (authService s1) = None /\
  failures s4 = failures s ++ [(r, ApiError err)] /\
  forall w, w ∈ waiters s ->
    Forwarded (addToken w (accessToken res)) ∈ wire s4 /\
    headers (addToken w (accessToken res)) !! "Authorization" =
      Some ("Bearer " +:+ accessToken res).
Proof.
  intros s1 s2 s3 s4.
  assert (s1 = mk false (subjectValue s) (waiters s)
                  (AuthService.logout (AuthService.handleLogout (authService s)))
                  (delete i (refreshing s)) (retrying s) (wire s)
                  (failures s ++ [(r, ApiError err)])) as Hs1
    by (by apply onRefreshError_eq).
  assert (Js.truthy (AuthService.localStorage (authService s2)
                       !! AuthService.REFRESH_TOKEN_KEY) = true) as Htoken.
  { subst s2. unfold loggedIn, AuthService.handleAuthSuccess,
      AuthService.scheduleTokenRefresh; simpl.
    rewrite lookup_insert_ne by done. rewrite lookup_insert_eq.
    by apply truthy_Some. }
  destruct (refreshToken_inr _ Htoken) as (token & _ & Hpost).
  assert (isRefreshing s2 = false) as Hidle by (subst s2; by rewrite Hs1).
  assert (s3 = handle401 q s2) as Hs3 by (by apply onErrorResponse_401).
  rewrite (handle401_starts_refresh q _ s2 Hidle Hpost) in Hs3.
  assert (refreshing s3 !! length (refreshing s1) = Some q) as Hq'.
  { rewrite Hs3. subst s2. cbn [refreshing loggedIn set_authService].
    by rewrite lookup_app_r, Nat.sub_diag. }
  assert (waiters s3 = waiters s) as Hw by (rewrite Hs3; subst s2; by rewrite Hs1).
  assert (failures s3 = failures s ++ [(r, ApiError err)]) as Hf
    by (rewrite Hs3; subst s2; by rewrite Hs1).
  subst s4. rewrite (onRefreshResponse_eq _ q res s3 Hq').
  cbn [wire failures]. rewrite Hw, Hf.
  split; [by rewrite Hs1|]. split.
  { rewrite Hs1. destruct (logout_clears (AuthService.handleLogout (authService s)))
      as (Htok & _). exact Htok. }
  split; [done|].
  intros w Hin. split; [|apply addToken_Authorization].
  apply elem_of_app; right. apply list_elem_of_fmap. exists w.
  split; [done|]. apply elem_of_app. by left.
Qed.

End ChainProperties.

Section ChainScenarios.
Import Http Model Interceptor InterceptorChain InterceptorCounts TokenRefreshTimer
  Samples.

Lemma late_401_always_queues_witness :
  isRefreshing (run (H := stringifyUser) (init session)
                  [ErrorResponse getPosts 401]) = true /\
  waiters (handle401 getFeed
             (run (H := stringifyUser) (init session) [ErrorResponse getPosts 401])) =
    waiters (run (H := stringifyUser) (init session) [ErrorResponse getPosts 401])
      ++ [getFeed].
Proof.
  split; [reflexivity|].
  destruct (late_401_always_queues (H := stringifyUser) session
              [ErrorResponse getPosts 401] getFeed eq_refl)
    as (_ & _ & Hwait & _).
  exact Hwait.
Defined.

Lemma handle401_without_refresh_token_witness :
  isRefreshing (init anonymous) = false /\
  wire (handle401 getPosts (init anonymous)) = wire (init anonymous) /\
  failures (handle401 getPosts (init anonymous)) =
    failures (init anonymous) ++ [(getPosts, JsError "No refresh token available")].
Proof.
  split; [reflexivity|].
  destruct (handle401_without_refresh_token (init anonymous) getPosts eq_refl eq_refl)
    as (Hwire & _ & _ & _ & Hfail & _).
  split; [exact Hwire|exact Hfail].
Defined.

(** A first refresh has succeeded and its re-dispatched request is still
    out; a second refresh, triggered by [getFeed], is in flight. *)
Lemma stale_finalize_allows_second_refresh_witness :
  refreshing (run (H := stringifyUser) (init session)
                [ErrorResponse getPosts 401; RefreshResponse 0 refreshed;
                 ErrorResponse getFeed 401]) = [getFeed] /\
  refreshing
    (onErrorResponse getComments 401
       (onRetrySettled 0 None
          (run (H := stringifyUser) (init session)
             [ErrorResponse getPosts 401; RefreshResponse 0 refreshed;
              ErrorResponse getFeed 401]))) =
    refreshing (run (H := stringifyUser) (init session)
                  [ErrorResponse getPosts 401; RefreshResponse 0 refreshed;
                   ErrorResponse getFeed 401]) ++ [getComments].
Proof.
  split; [vm_compute; reflexivity|].
  assert (Js.truthy
            (AuthService.localStorage
               (authService
                  (run (H := stringifyUser) (init session)
                     [ErrorResponse getPosts 401; RefreshResponse 0 refreshed;
                      ErrorResponse getFeed 401]))
             !! AuthService.REFRESH_TOKEN_KEY) = true) as Htoken
    by (vm_compute; reflexivity).
  assert (retrying
            (run (H := stringifyUser) (init session)
               [ErrorResponse getPosts 401; RefreshResponse 0 refreshed;
                ErrorResponse getFeed 401]) !! 0%nat = Some getPosts) as Hretry
    by (vm_compute; reflexivity).
  destruct (stale_finalize_allows_second_refresh _ 0 getPosts getComments
              Hretry Htoken eq_refl) as (_ & _ & _ & _ & Htwo).
  exact Htwo.
Defined.

Lemma failed_retry_forces_logout_witness :
  retrying (run (H := stringifyUser) (init session)
              [ErrorResponse getPosts 401; RefreshResponse 0 refreshed]) !! 0%nat =
    Some getPosts /\
  AuthService.getAccessToken
    (authService
       (onRetrySettled 0 (Some (HttpErrorResponse 500))
          (run (H := stringifyUser) (init session)
             [ErrorResponse getPosts 401; RefreshResponse 0 refreshed]))) = None.
Proof.
  assert (retrying (run (H := stringifyUser) (init session)
                      [ErrorResponse getPosts 401; RefreshResponse 0 refreshed])
            !! 0%nat = Some getPosts) as Hretry by (vm_compute; reflexivity).
  split; [exact Hretry|].
  destruct (failed_retry_forces_logout _ 0 getPosts (HttpErrorResponse 500) Hretry)
    as (_ & _ & _ & Htok & _).
  exact Htok.
Defined.

(** The user has logged in, which armed the refresh timer, and a 401 has
    started a refresh: the timer, when due, posts a second refresh call
    beside the outstanding one. *)
Lemma refresh_calls_from_401_and_timer_witness :
  isRefreshing (handle401 getPosts
                  (loggedIn (H := stringifyUser) refreshed (init anonymous))) = true /\
  refreshCalls (handle401 getPosts
                  (loggedIn (H := stringifyUser) refreshed (init anonymous))) = 1%nat /\
  refreshCalls
    (onRefreshTimer
       (handle401 getPosts
          (loggedIn (H := stringifyUser) refreshed (init anonymous)))) = 2%nat.
Proof.
  split; [vm_compute; reflexivity|]. split; [vm_compute; reflexivity|].
  assert ("refresh-2" <> "") as Hne by discriminate.
  destruct (refresh_calls_from_401_and_timer (H := stringifyUser)
              (handle401 getPosts
                 (loggedIn (H := stringifyUser) refreshed (init anonymous))) [])
    as (_ & _ & Htimer).
  destruct (Htimer 86100000 "refresh-2") as (_ & Hcalls & _);
    [vm_compute; reflexivity|vm_compute; reflexivity|exact Hne|].
  exact Hcalls.
Defined.

(** Two requests get a 401 and the refresh succeeds: each is re-dispatched
    once. *)
Lemma no_request_redispatched_twice_witness :
  count401Of getFeed
    [ErrorResponse getPosts 401; ErrorResponse getFeed 401;
     RefreshResponse 0 refreshed] = 1%nat /\
  (forwardedOf getFeed
     (run (H := stringifyUser) (init session)
        [ErrorResponse getPosts 401; ErrorResponse getFeed 401;
         RefreshResponse 0 refreshed]) <= 1)%nat /\
  Forwarded (addToken getFeed "xyz") ∈
    wire (run (H := stringifyUser) (init session)
            [ErrorResponse getPosts 401; ErrorResponse getFeed 401;
             RefreshResponse 0 refreshed]).
Proof.
  assert (count401Of getFeed
            [ErrorResponse getPosts 401; ErrorResponse getFeed 401;
             RefreshResponse 0 refreshed] = 1%nat) as Hone
    by (vm_compute; reflexivity).
  split; [exact Hone|].
  destruct (no_request_redispatched_twice (H := stringifyUser) getFeed
              (init session) session
              [ErrorResponse getPosts 401; ErrorResponse getFeed 401;
               RefreshResponse 0 refreshed]) as (_ & _ & Honce & _).
  split; [exact (Honce Hone)|].
  apply list_elem_of_In. vm_compute. right. left. reflexivity.
Defined.

Lemma stale_waiters_sent_with_next_session_token_witness :
  refreshing (unauthorized [getPosts; getFeed] (init session)) !! 0%nat = Some getPosts /\
  Forwarded (addToken getFeed "xyz") ∈
    wire (onRefreshResponse (H := stringifyUser) 0 refreshed
            (onErrorResponse getComments 401
               (loggedIn (H := stringifyUser) refreshed
                  (onRefreshError 0 (HttpErrorResponse 500)
                     (unauthorized [getPosts; getFeed] (init session)))))).
Proof.
  split; [reflexivity|].
  assert (refreshToken refreshed <> "") as Hne by discriminate.
  destruct (stale_waiters_sent_with_next_session_token (H := stringifyUser)
              (unauthorized [getPosts; getFeed] (init session)) 0
              getPosts getComments (HttpErrorResponse 500) refreshed refreshed
              eq_refl Hne eq_refl) as (_ & _ & _ & Hall).
  apply (Hall getFeed). apply list_elem_of_In. vm_compute. left. reflexivity.
Defined.

End ChainScenarios.

(** ** The session in local storage, and logging in *)

Section SessionProperties.
Import Http Model AuthService.
Context `{JsonStringify ApiUser}.

Lemma AuthService_ext (x y : AuthService.t) :
  apiUrl x = apiUrl y -> localStorage x = localStorage y ->
  currentUser x = currentUser y -> isAuthenticated x = isAuthenticated y ->
  authSubject x = authSubject y -> refreshSub x = refreshSub y ->
  navigations x = navigations y -> x = y.
Proof. destruct x, y; simpl; intros; by subst. Qed.

Lemma handleLogout_storage (a : AuthService.t) (k : string) :
  localStorage (handleLogout a) !! k =
    if decide (k = TOKEN_KEY \/ k = REFRESH_TOKEN_KEY \/ k = USER_KEY)
    then None else localStorage a !! k.
Proof.
  unfold handleLogout, clearTokens. cbn [localStorage].
  rewrite !lookup_delete.
  repeat case_decide; try done; intuition congruence.
Qed.

Lemma handleAuthSuccess_storage (res : AuthResponse) (a : AuthService.t) (k : string) :
  localStorage (handleAuthSuccess res a) !! k =
    if decide (k = USER_KEY) then Some (JSON_stringify (user res))
    else if decide (k = REFRESH_TOKEN_KEY) then Some (Model.refreshToken res)
    else if decide (k = TOKEN_KEY) then Some (accessToken res)
    else localStorage a !! k.
Proof.
  unfold handleAuthSuccess, scheduleTokenRefresh. cbn [localStorage].
  rewrite !lookup_insert.
  repeat case_decide; try done; subst; congruence.
Qed.

(** X9. A successful login or refresh writes exactly three keys of local
    storage (access token, refresh token, user) and a logout removes
    exactly those three: every other key keeps its value through both.
    Logging out after a login leaves storage as logging out alone does,
    and logging out twice is the same as once. *)
Theorem session_storage_round_trip
    (res : AuthResponse) (a : AuthService.t) (k : string) :
  getAccessToken (handleAuthSuccess res a) = Some (accessToken res) /\
  localStorage (handleAuthSuccess res a) !! REFRESH_TOKEN_KEY = Some (Model.refreshToken res) /\
  localStorage (handleAuthSuccess res a) !! USER_KEY = Some (JSON_stringify (user res)) /\
  (k <> TOKEN_KEY -> k <> REFRESH_TOKEN_KEY -> k <> USER_KEY ->
     localStorage (handleAuthSuccess res a) !! k = localStorage a !! k /\
     localStorage (handleLogout a) !! k = localStorage a !! k) /\
  localStorage (handleLogout (handleAuthSuccess res a)) = localStorage (handleLogout a) /\
  handleLogout (handleLogout a) = handleLogout a.
Proof.
  unfold getAccessToken.
  split; [by rewrite handleAuthSuccess_storage|].
  split; [by rewrite handleAuthSuccess_storage|].
  split; [by rewrite handleAuthSuccess_storage|].
  split.
  { intros Ht Hr Hu. rewrite handleAuthSuccess_storage, handleLogout_storage.
    rewrite !decide_False by tauto. done. }
  split.
  - apply map_eq. intros j. rewrite !handleLogout_storage.
    case_decide as Hj; [done|]. rewrite handleAuthSuccess_storage.
    rewrite !decide_False by tauto. done.
  - assert (localStorage (handleLogout (handleLogout a)) = localStorage (handleLogout a))
      as Hls.
    { apply map_eq. intros j. rewrite !handleLogout_storage. by case_decide. }
    by apply AuthService_ext.
Qed.

(** X10. The delay that [handleAuthSuccess] asks of the refresh timer,
    for a token lifetime of at most 2147783 s, which keeps the delay
    within what a timer of the host can wait (2147483647 ms): it is never
    shorter than one minute.  A token that lives six minutes or more is
    refreshed five minutes before it expires; one that lives less than six
    minutes is refreshed after one minute, which for a lifetime under a
    minute is only after the token has expired. *)
Theorem token_refresh_timer_bounds (res : AuthResponse) (a : AuthService.t)
    (Hrange : expiresIn res <= 2147783) :
  exists delay,
    refreshSub (handleAuthSuccess res a) = Some delay /\
    60000 <= delay <= 2147483647 /\
    (360 <= expiresIn res -> delay = expiresIn res * 1000 - 300000) /\
    (expiresIn res <= 360 -> delay = 60000) /\
    (expiresIn res < 60 -> expiresIn res * 1000 < delay).
Proof.
  eexists. split; [reflexivity|]. repeat split; intros; lia.
Qed.

(** X11. A failed login never touches the session: storage, current user
    and authenticated state stay as they were, and loading is switched
    off.  The message "Invalid username or password." is set exactly when
    the error that reaches [login] is an HTTP error response of status
    401; an error wrapped by the error interceptor, as every error is with
    the interceptors of [app.config.ts], never sets it. *)
Theorem failed_login_keeps_session
    (credentials : string) (s : AuthLogin.t) (e : HttpError) :
  AuthLogin.service (fst (AuthLogin.login_catchError e (fst (AuthLogin.login credentials s)))) =
    AuthLogin.service s /\
  AuthLogin.loading (fst (AuthLogin.login_catchError e (fst (AuthLogin.login credentials s)))) =
    false /\
  (AuthLogin.error (fst (AuthLogin.login_catchError e (fst (AuthLogin.login credentials s)))) =
     Some "Invalid username or password." <-> e = HttpErrorResponse 401) /\
  (e <> HttpErrorResponse 401 ->
   AuthLogin.error (fst (AuthLogin.login_catchError e (fst (AuthLogin.login credentials s)))) =
     None) /\
  AuthLogin.error
    (fst (AuthLogin.login_catchError (InterceptorChain.errorInterceptorFn_catchError e)
            (fst (AuthLogin.login credentials s)))) = None /\
  snd (AuthLogin.login_catchError e (fst (AuthLogin.login credentials s))) = ApiError e.
Proof.
  unfold AuthLogin.login_catchError, AuthLogin.login,
    InterceptorChain.errorInterceptorFn_catchError. cbn [fst snd].
  destruct e as [status|msg|orig]; cbn [InterceptorChain.status].
  - destruct (decide (Some status = Some 401)) as [[= ->]|Hne];
      repeat split; try done; intros; try congruence.
  - repeat split; try done; intros; try congruence.
  - repeat split; try done; intros; try congruence.
Qed.

End SessionProperties.

Section SessionScenarios.
Import Http Model AuthService.

Lemma token_refresh_timer_bounds_witness :
  expiresIn Samples.refreshed <= 2147783 /\
  exists delay,
    refreshSub (handleAuthSuccess (H := Samples.stringifyUser) Samples.refreshed
                  Samples.anonymous) = Some delay /\
    60000 <= delay <= 2147483647 /\
    (360 <= expiresIn Samples.refreshed ->
     delay = expiresIn Samples.refreshed * 1000 - 300000) /\
    (expiresIn Samples.refreshed <= 360 -> delay = 60000) /\
    (expiresIn Samples.refreshed < 60 -> expiresIn Samples.refreshed * 1000 < delay).
Proof.
  assert (expiresIn Samples.refreshed <= 2147783) as Hrange
    by (vm_compute; discriminate).
  split; [exact Hrange|].
  apply (token_refresh_timer_bounds (H := Samples.stringifyUser)
           Samples.refreshed Samples.anonymous Hrange).
Defined.

End SessionScenarios.

(** ** The connection manager over whole runs *)

Section ConnectionRunProperties.
Import Model WebSocketService WebSocketLog.

Lemma lastState_snoc (s : t) (st : WebSocketConnectionState)
    (err : option string) (attempt : option Z) :
  lastState (setConnectionState st err attempt s) = st /\
  connectionState (setConnectionState st err attempt s) = st.
Proof.
  unfold lastState, setConnectionState. cbn [connectionEvents connectionState].
  by rewrite last_snoc.
Qed.

Lemma lastState_frame (x y : t) :
  connectionState x = connectionState y ->
  connectionEvents x = connectionEvents y ->
  connectionState y = lastState y -> connectionState x = lastState x.
Proof. unfold lastState. intros -> ->. done. Qed.

Lemma lastState_append (x y : t) (st : WebSocketConnectionState)
    (e : WebSocketConnectionEvent) :
  connectionState x = st -> state e = st ->
  connectionEvents x = connectionEvents y ++ [e] ->
  connectionState x = lastState x.
Proof. unfold lastState. intros -> <- ->. by rewrite last_snoc. Qed.

Lemma lastState_set (st : WebSocketConnectionState) (err : option string)
    (attempt : option Z) (x : t) :
  connectionState (setConnectionState st err attempt x) =
  lastState (setConnectionState st err attempt x).
Proof. by destruct (lastState_snoc x st err attempt) as [-> ->]. Qed.

Lemma step_log (s : t) (e : Event) :
  (connectionState s = lastState s ->
   connectionState (step s e) = lastState (step s e)) /\
  connectionEvents s `prefix_of` connectionEvents (step s e).
Proof.
  destruct e as [| |d cb|d| | |m| | |ms|].
  - cbn [step].
    destruct (connect_frame s) as (_ & _ & _ & _ & _ & [[Hs He]|[Hs He]]).
    + split; [by apply lastState_frame|]. by rewrite He.
    + split; [intros _; eapply lastState_append; [exact Hs| |exact He]; done|].
      rewrite He. by apply prefix_app_r.
  - cbn [step]. unfold disconnect. split; [intros _; apply lastState_set|].
    by apply prefix_app_r.
  - cbn [step]. destruct (subscribe_frame d cb s) as (Hs & He & _).
    split; [by apply lastState_frame|]. by rewrite He.
  - cbn [step]. unfold unsubscribe. by destruct (clientConnected s).
  - destruct (client s) as [c|] eqn:Hc; [|cbn [step]; by rewrite Hc].
    rewrite (step_StompConnected s c Hc).
    match goal with
    | |- context [subscribeToUserTopics ?x] =>
        destruct (subscribeToUserTopics_frame x) as (Hs & He & _)
    end.
    split; [intros _; eapply lastState_append; [exact Hs| |exact He]; done|].
    rewrite He. by apply prefix_app_r.
  - cbn [step]. destruct (client s) as [c|] eqn:Hc; [|done].
    destruct (client_set_connected_frame false s) as (_ & He & _).
    unfold onDisconnect. split; [intros _; apply lastState_set|].
    unfold setConnectionState; cbn [connectionEvents]. rewrite He.
    by apply prefix_app_r.
  - cbn [step]. destruct (client s) as [c|] eqn:Hc; [|done].
    unfold onStompError. split; [intros _; apply lastState_set|].
    by apply prefix_app_r.
  - destruct (client s) as [c|] eqn:Hc; [|cbn [step]; by rewrite Hc].
    destruct (Z.lt_ge_cases (reconnectAttempts s) maxReconnectAttempts).
    + rewrite (step_WebSocketError_below s c Hc) by done.
      split; [intros _|by apply prefix_app_r].
      unfold lastState. cbn [connectionEvents connectionState].
      by rewrite last_app.
    + rewrite (step_WebSocketError_ceiling s c Hc) by done.
      split; [intros _|by apply prefix_app_r].
      unfold lastState. cbn [connectionEvents connectionState].
      by rewrite last_app.
  - cbn [step]. destruct (timers s) as [|delay rest]; [done|].
    destruct (connect_frame (set_timers rest s)) as (_ & _ & _ & _ & _ & [[Hs He]|[Hs He]]).
    + split; [by apply lastState_frame|]. by rewrite He.
    + split; [intros _; eapply lastState_append; [exact Hs| |exact He]; done|].
      rewrite He. by apply prefix_app_r.
  - done.
  - cbn [step]. destruct (client_set_connected_frame false s) as (Hs & He & _).
    split; [by apply lastState_frame|]. by rewrite He.
Qed.

Lemma run_app (s : t) (events more : list Event) :
  run s (events ++ more) = run (run s events) more.
Proof. unfold run. apply foldl_app. Qed.

Lemma run_log (events : list Event) (s : t) :
  (connectionState s = lastState s ->
   connectionState (run s events) = lastState (run s events)) /\
  connectionEvents s `prefix_of` connectionEvents (run s events).
Proof.
  revert s. induction events as [|e events IH]; intros s; [done|].
  cbn [run foldl]. destruct (step_log s e) as [Hinv Hpre].
  destruct (IH (step s e)) as [Hinv' Hpre']. split.
  - intros Hs. apply Hinv'. by apply Hinv.
  - by etrans.
Qed.

(** X12. Whatever happens to a service started in the disconnected
    state, its connection state is the state of the newest entry of its
    log, and the log only grows: what was recorded stays a prefix of what
    is recorded later. *)
Theorem state_is_last_log_entry
    (a : AuthService.t) (start : Z) (events more : list Event) :
  connectionState (run (init a start) events) = lastState (run (init a start) events) /\
  connectionEvents (run (init a start) events)
    `prefix_of` connectionEvents (run (init a start) (events ++ more)).
Proof.
  split.
  - by apply run_log.
  - rewrite run_app. apply run_log.
Qed.

(** How one event changes the attempt counter and the pending timers. *)
Lemma step_counter_timers (s : t) (e : Event) :
  (reconnectAttempts (step s e) = reconnectAttempts s /\
   timers (step s e) = timers s) \/
  (e = TimerFires /\ reconnectAttempts (step s e) = reconnectAttempts s /\
   exists delay, timers s = delay :: timers (step s e)) \/
  (e = StompConnected /\ reconnectAttempts (step s e) = 0 /\
   timers (step s e) = timers s) \/
  (e = WebSocketError /\ reconnectAttempts s < maxReconnectAttempts /\
   reconnectAttempts (step s e) = reconnectAttempts s + 1 /\
   timers (step s e) = timers s ++ [reconnectDelay * (reconnectAttempts s + 1)]).
Proof.
  destruct e as [| |d cb|d| | |m| | |ms|].
  - left. cbn [step]. by destruct (connect_frame s) as (-> & -> & _).
  - by left.
  - left. cbn [step]. by destruct (subscribe_frame d cb s) as (_ & _ & -> & -> & _).
  - left. cbn [step]. unfold unsubscribe. by destruct (clientConnected s).
  - destruct (client s) as [c|] eqn:Hc; [|left; cbn [step]; by rewrite Hc].
    right; right; left. rewrite (step_StompConnected s c Hc).
    match goal with
    | |- context [subscribeToUserTopics ?x] =>
        destruct (subscribeToUserTopics_frame x) as (_ & _ & -> & -> & _)
    end.
    done.
  - left. cbn [step]. destruct (client s) as [c|] eqn:Hc; [|done].
    unfold client_set_connected. by rewrite Hc.
  - left. cbn [step]. by destruct (client s).
  - destruct (client s) as [c|] eqn:Hc; [|left; cbn [step]; by rewrite Hc].
    destruct (Z.lt_ge_cases (reconnectAttempts s) maxReconnectAttempts).
    + right; right; right.
      by rewrite (step_WebSocketError_below s c Hc).
    + left. by rewrite (step_WebSocketError_ceiling s c Hc).
  - cbn [step]. destruct (timers s) as [|delay rest] eqn:Ht; [by left|].
    right; left. destruct (connect_frame (set_timers rest s)) as (-> & -> & _).
    split; [done|]. split; [done|]. by exists delay.
  - by left.
  - left. cbn [step].
    by destruct (client_set_connected_frame false s) as (_ & _ & -> & -> & _).
Qed.

(** X13. The attempt counter and the reconnect timers change in three
    ways only: a transport error below the ceiling adds one to the counter
    and arms one timer; an accepted handshake sets the counter to 0; a due
    timer leaves the list.  Nothing else touches them: a STOMP error, a
    broker disconnect, [connect], [disconnect], [subscribe] and
    [unsubscribe] neither arm nor cancel a timer nor change the counter. *)
Theorem counter_and_timers_change_three_ways (s : t) (e : Event) :
  ((reconnectAttempts (step s e) = reconnectAttempts s /\
    timers (step s e) = timers s) \/
   (e = TimerFires /\ reconnectAttempts (step s e) = reconnectAttempts s /\
    exists delay, timers s = delay :: timers (step s e)) \/
   (e = StompConnected /\ reconnectAttempts (step s e) = 0 /\
    timers (step s e) = timers s) \/
   (e = WebSocketError /\ reconnectAttempts s < maxReconnectAttempts /\
    reconnectAttempts (step s e) = reconnectAttempts s + 1 /\
    timers (step s e) = timers s ++ [reconnectDelay * (reconnectAttempts s + 1)])) /\
  (e <> WebSocketError -> e <> StompConnected ->
   reconnectAttempts (step s e) = reconnectAttempts s) /\
  (e <> WebSocketError -> e <> TimerFires -> timers (step s e) = timers s).
Proof.
  pose proof (step_counter_timers s e) as Hcases.
  split; [exact Hcases|].
  split; intros ? ?;
    destruct Hcases as [[? ?]|[(? & ? & ?)|[(? & ? & ?)|(? & ? & ? & ?)]]];
    congruence.
Qed.

Lemma step_bounds (s : t) (e : Event) :
  0 <= reconnectAttempts s <= maxReconnectAttempts ->
  Forall reconnectDelayOf (timers s) ->
  0 <= reconnectAttempts (step s e) <= maxReconnectAttempts /\
  Forall reconnectDelayOf (timers (step s e)).
Proof.
  intros Hn Ht.
  destruct (step_counter_timers s e)
    as [[-> ->]|[(_ & -> & delay & Hd)|[(_ & -> & ->)|(_ & Hlt & -> & ->)]]].
  - done.
  - split; [done|]. rewrite Hd in Ht. by apply Forall_cons in Ht as [_ ?].
  - split; [unfold maxReconnectAttempts; lia|done].
  - split; [lia|]. apply Forall_app. split; [done|].
    apply Forall_singleton. exists (reconnectAttempts s + 1). split; [lia|done].
Qed.

(** X14. For a service started in the disconnected state the attempt
    counter stays between 0 and 5 and every pending reconnect timer has a
    delay of 1000 ms times an attempt number between 1 and 5: no delay is
    shorter than one second or longer than five. *)
Theorem counter_and_delays_bounded
    (a : AuthService.t) (start : Z) (events : list Event) :
  0 <= reconnectAttempts (run (init a start) events) <= 5 /\
  Forall reconnectDelayOf (timers (run (init a start) events)) /\
  Forall (fun delay => 1000 <= delay <= 5000) (timers (run (init a start) events)).
Proof.
  assert (forall events s,
            0 <= reconnectAttempts s <= maxReconnectAttempts ->
            Forall reconnectDelayOf (timers s) ->
            0 <= reconnectAttempts (run s events) <= maxReconnectAttempts /\
            Forall reconnectDelayOf (timers (run s events))) as Hrun.
  { clear. intros events. induction events as [|e events IH]; intros s Hn Ht; [done|].
    cbn [run foldl]. destruct (step_bounds s e Hn Ht) as [Hn' Ht']. by apply IH. }
  destruct (Hrun events (init a start)) as [Hn Ht].
  { cbn [init reconnectAttempts]. unfold maxReconnectAttempts. lia. }
  { by apply Forall_nil. }
  split; [exact Hn|]. split; [exact Ht|].
  eapply Forall_impl; [exact Ht|].
  intros delay (attempt & Hrange & ->).
  unfold maxReconnectAttempts, reconnectDelay in *. lia.
Qed.

(** X15. [disconnect] clears the registry and drops the client, but it
    neither cancels a pending reconnect timer nor resets the attempt
    counter.  A timer that is pending at teardown still fires [connect]
    afterwards; with an access token stored this opens a new connection:
    the log gains disconnected and then connecting, and a client is in
    place again. *)
Theorem disconnect_keeps_reconnect_timer
    (s : t) (delay : Z) (rest : list Z)
    (Htimers : timers s = delay :: rest)
    (Htoken : Js.truthy (storedToken s) = true) :
  connectionState (disconnect s) = DISCONNECTED /\
  client (disconnect s) = None /\
  activeSubscriptions (disconnect s) = [] /\
  timers (disconnect s) = delay :: rest /\
  reconnectAttempts (disconnect s) = reconnectAttempts s /\
  connectionState (step (disconnect s) TimerFires) = CONNECTING /\
  is_Some (client (step (disconnect s) TimerFires)) /\
  timers (step (disconnect s) TimerFires) = rest /\
  reconnectAttempts (step (disconnect s) TimerFires) = reconnectAttempts s /\
  stateLog (step (disconnect s) TimerFires) =
    stateLog s ++ [(DISCONNECTED, None); (CONNECTING, None)].
Proof.
  assert (disconnect s =
          mk None DISCONNECTED
             (connectionEvents s ++ [mkEvent DISCONNECTED (now s) None None])
             (reconnectAttempts s) [] (timers s) (authService s) (now s)) as -> by done.
  rewrite Htimers.
  erewrite step_TimerFires_connects; [|reflexivity|reflexivity|exact Htoken].
  unfold stateLog. cbn [connectionState client activeSubscriptions timers
                        reconnectAttempts connectionEvents].
  rewrite <- app_assoc, !map_app. repeat split. by eexists.
Qed.



Lemma subscribe_mk (d : string) (cb : Handler) (auth0 : string)
    (held : list (string * Handler)) (st : WebSocketConnectionState)
    (ev : list WebSocketConnectionEvent) (n : Z) (subs : list string)
    (tm : list Z) (auth : AuthService.t) (nw : Z) :
  subscribe d cb (mk (Some (mkClient true auth0 held)) st ev n subs tm auth nw) =
    mk (Some (mkClient true auth0 (held ++ [(d, cb)]))) st ev n (subs ++ [d])
       tm auth nw.
Proof. reflexivity. Qed.

Lemma subscribeToUserTopics_connected
    (auth0 : string) (held : list (string * Handler))
    (st : WebSocketConnectionState)
    (ev : list WebSocketConnectionEvent) (n : Z) (subs : list string)
    (tm : list Z) (auth : AuthService.t) (nw : Z) (u : ApiUser) :
  AuthService.currentUser auth = Some u ->
  subscribeToUserTopics (mk (Some (mkClient true auth0 held)) st ev n subs tm auth nw) =
    mk (Some (mkClient true auth0 (held ++ userTopics (username u))))
       st ev n (subs ++ (userTopics (username u)).*1) tm auth nw.
Proof.
  intros Hu. unfold subscribeToUserTopics.
  change (authService (mk ?a ?b ?c ?d ?e ?f auth ?g)) with auth. rewrite Hu.
  rewrite !subscribe_mk, <- !app_assoc. reflexivity.
Qed.

(** X17. After a drop and a successful reconnection the new client holds
    handlers for the five per-user topics only: subscriptions made on the
    old client (a post's or a subreddit's topic, announcements) are not
    made again.  The registry, which [connect] never clears, still lists
    every earlier key and gets the five per-user keys appended once more. *)
Theorem reconnect_resubscribes_user_topics_only
    (s : t) (u : ApiUser)
    (Hconn : clientConnected s = true)
    (Hbelow : reconnectAttempts s < maxReconnectAttempts)
    (Htimers : timers s = [])
    (Htoken : Js.truthy (storedToken s) = true)
    (Huser : AuthService.currentUser (authService s) = Some u) :
  clientSubscriptions (run s [WebSocketError; TimerFires; StompConnected]) =
    userTopics (username u) /\
  activeSubscriptions (run s [WebSocketError; TimerFires; StompConnected]) =
    activeSubscriptions s ++ (userTopics (username u)).*1 /\
  connectionState (run s [WebSocketError; TimerFires; StompConnected]) = CONNECTED /\
  reconnectAttempts (run s [WebSocketError; TimerFires; StompConnected]) = 0.
Proof.
  unfold clientConnected in Hconn.
  destruct (client s) as [c|] eqn:Hc; [|discriminate].
  unfold run. cbn [foldl].
  rewrite (step_WebSocketError_below s c Hc Hbelow), Htimers.
  erewrite step_TimerFires_connects; [|reflexivity|reflexivity|exact Htoken].
  erewrite step_StompConnected; [|reflexivity].
  cbn [authorization subscriptions connectionEvents now activeSubscriptions
       timers authService].
  rewrite (subscribeToUserTopics_connected _ [] _ _ _ _ _ _ _ u Huser).
  unfold clientSubscriptions. cbn [client subscriptions activeSubscriptions
    connectionState reconnectAttempts app]. by repeat split.
Qed.

Lemma filter_ne_occurrences (d k : string) (l : list string) :
  occurrences k (filter (fun x => x <> d) l) =
    if decide (k = d) then 0%nat else occurrences k l.
Proof.
  unfold occurrences. induction l as [|x l IH]; [by case_decide|].
  rewrite !filter_cons.
  destruct (decide (x <> d)) as [Hx|Hx].
  - rewrite filter_cons. destruct (decide (x = k)) as [->|Hk].
    + rewrite decide_False by done. cbn [length]. rewrite IH.
      by rewrite decide_False by done.
    + rewrite IH. by case_decide.
  - apply dec_stable in Hx. subst x. rewrite IH.
    case_decide as Hk; [done|]. by rewrite decide_False by congruence.
Qed.

Lemma filter_ne_idemp (d : string) (l : list string) :
  filter (fun x => x <> d) (filter (fun x => x <> d) l) = filter (fun x => x <> d) l.
Proof.
  induction l as [|x l IH]; [done|]. rewrite filter_cons.
  destruct (decide (x <> d)); [|done].
  rewrite filter_cons, decide_True by done. by rewrite IH.
Qed.

(** X18. While the client is connected, [unsubscribe] removes every
    occurrence of the key from the registry, keeps the other keys in their
    order, and is idempotent; it never touches the handlers the client
    holds, so the handler of the key stays registered.  While the client is
    not connected, [unsubscribe] and [subscribe] both change nothing: the
    key stays in the registry, and the subscription is dropped. *)
Theorem unsubscribe_filters_registry_only
    (s : t) (d : string) (cb : Handler) :
  (clientConnected s = true ->
     activeSubscriptions (unsubscribe d s) =
       filter (fun k => k <> d) (activeSubscriptions s) /\
     occurrences d (activeSubscriptions (unsubscribe d s)) = 0%nat /\
     (forall k, k <> d ->
        occurrences k (activeSubscriptions (unsubscribe d s)) =
        occurrences k (activeSubscriptions s)) /\
     clientSubscriptions (unsubscribe d s) = clientSubscriptions s /\
     unsubscribe d (unsubscribe d s) = unsubscribe d s) /\
  (clientConnected s = false ->
     unsubscribe d s = s /\ subscribe d cb s = s).
Proof.
  split.
  - intros Hconn. unfold unsubscribe. rewrite Hconn. cbn [negb].
    change (clientConnected (set_activeSubscriptions ?l s)) with (clientConnected s).
    rewrite Hconn. cbn [negb].
    unfold set_activeSubscriptions, clientSubscriptions, occurrences.
    cbn [activeSubscriptions client connectionState connectionEvents
         reconnectAttempts timers authService now].
    repeat split.
    + fold (occurrences d (filter (fun k => k <> d) (activeSubscriptions s))).
      rewrite filter_ne_occurrences. by rewrite decide_True.
    + intros k Hk.
      fold (occurrences k (filter (fun k => k <> d) (activeSubscriptions s))).
      fold (occurrences k (activeSubscriptions s)).
      rewrite filter_ne_occurrences. by rewrite decide_False.
    + by rewrite filter_ne_idemp.
  - intros Hdis. split; [|by apply subscribe_not_connected].
    unfold unsubscribe. by rewrite Hdis.
Qed.

End ConnectionRunProperties.

Section ConnectionRunScenarios.
Import Model WebSocketService WebSocketLog Samples MoreSamples.

Lemma disconnect_keeps_reconnect_timer_witness :
  timers droppedService = [1000] /\
  connectionState (step (disconnect droppedService) TimerFires) = CONNECTING /\
  timers (disconnect droppedService) = [1000].
Proof.
  assert (timers droppedService = [1000]) as Htimers by (vm_compute; reflexivity).
  assert (Js.truthy (storedToken droppedService) = true) as Htoken
    by (vm_compute; reflexivity).
  split; [exact Htimers|].
  destruct (disconnect_keeps_reconnect_timer droppedService 1000 [] Htimers Htoken)
    as (_ & _ & _ & Hkept & _ & Hstate & _).
  split; [exact Hstate|exact Hkept].
Defined.


Lemma reconnect_resubscribes_user_topics_only_witness :
  clientConnected (subscribeToAnnouncements connectedService) = true /\
  clientSubscriptions
    (run (subscribeToAnnouncements connectedService)
       [WebSocketError; TimerFires; StompConnected]) = userTopics "alice" /\
  activeSubscriptions
    (run (subscribeToAnnouncements connectedService)
       [WebSocketError; TimerFires; StompConnected]) =
    activeSubscriptions (subscribeToAnnouncements connectedService)
      ++ (userTopics "alice").*1.
Proof.
  assert (clientConnected (subscribeToAnnouncements connectedService) = true) as Hconn
    by (vm_compute; reflexivity).
  split; [exact Hconn|].
  assert (reconnectAttempts (subscribeToAnnouncements connectedService)
            < maxReconnectAttempts) as Hbelow by (vm_compute; reflexivity).
  assert (Js.truthy (storedToken (subscribeToAnnouncements connectedService)) = true)
    as Htoken by (vm_compute; reflexivity).
  assert (timers (subscribeToAnnouncements connectedService) = []) as Htimers
    by (vm_compute; reflexivity).
  assert (AuthService.currentUser
            (authService (subscribeToAnnouncements connectedService)) = Some alice)
    as Huser by (vm_compute; reflexivity).
  destruct (reconnect_resubscribes_user_topics_only
              (subscribeToAnnouncements connectedService) alice
              Hconn Hbelow Htimers Htoken Huser) as (Hclient & Hreg & _).
  split; [exact Hclient|exact Hreg].
Defined.

End ConnectionRunScenarios.

(** ** Voting from the components *)

Section VoteClickProperties.
Import Http Vote PostService HomeComponent VoteClick.

Lemma find_findIndex {A} (f : A -> bool) (l : list A) :
  find f l = match Js.findIndex f l with Some i => l !! i | None => None end.
Proof.
  induction l as [|x l IH]; [done|]. cbn [find Js.findIndex].
  destruct (f x); [done|]. rewrite IH.
  by destruct (Js.findIndex f l).
Qed.

Lemma findIndex_Some {A} (f : A -> bool) (l : list A) (i : nat) :
  Js.findIndex f l = Some i ->
  exists x, l !! i = Some x /\ f x = true.
Proof.
  revert i. induction l as [|y l IH]; intros i; [done|]. cbn [Js.findIndex].
  destruct (f y) eqn:Hy.
  - intros [= <-]. by exists y.
  - destruct (Js.findIndex f l) as [j|]; [|done]. intros [= <-].
    by destruct (IH j eq_refl) as (x & ? & ?); exists x.
Qed.

Lemma findIndex_insert {A} (f : A -> bool) (l : list A) (i : nat) (x : A) :
  Js.findIndex f l = Some i -> f x = true ->
  Js.findIndex f (<[i := x]> l) = Some i.
Proof.
  revert i. induction l as [|y l IH]; intros i; [done|]. cbn [Js.findIndex].
  destruct (f y) eqn:Hy.
  - intros [= <-] Hx. change (<[0%nat := x]> (y :: l)) with (x :: l).
    cbn [Js.findIndex]. by rewrite Hx.
  - destruct (Js.findIndex f l) as [j|] eqn:Hj; [|done]. intros [= <-] Hx.
    change (<[S j := x]> (y :: l)) with (y :: <[j := x]> l).
    cbn [Js.findIndex]. by rewrite Hy, (IH j eq_refl Hx).
Qed.

Lemma findPost_first (postId : Z) (s : PostService.t) (i : nat) (p : Post) :
  Js.findIndex (fun q => bool_decide (id q = postId)) (posts s) = Some i ->
  posts s !! i = Some p ->
  findPost postId s = Some p.
Proof.
  intros Hi Hp. unfold findPost. by rewrite find_findIndex, Hi, Hp.
Qed.

(** One click on a post that is the first of its id in the list. *)
Lemma clickAndAnswer_first
    (ps : PostService.t) (auth : AuthService.t) (p : Post) (i : nat)
    (b : VoteButton) (body : string) :
  AuthService.isAuthenticated auth = true ->
  Js.findIndex (fun q => bool_decide (id q = id p)) (posts ps) = Some i ->
  posts ps !! i = Some p ->
  clickAndAnswer p b auth ps body =
    Some (mk (<[i := applyDelta (voteDelta (userVote p) (finalVote p b)) p]> (posts ps))
             false None
             (match currentPost ps with
              | Some c =>
                  if bool_decide (id c = id p)
                  then Some (applyDelta (voteDelta (userVote p) (finalVote p b)) p)
                  else Some c
              | None => None
              end)
             (sent ps ++ [VoteService.votePost_request (id p) (finalVote p b)]),
          applyDelta (voteDelta (userVote p) (finalVote p b)) p).
Proof.
  intros Hauth Hi Hp. unfold clickAndAnswer, onVote. rewrite Hauth. cbn [negb].
  unfold votePost.
  change (findPost (id p) (mk (posts ps) true None (currentPost ps) (sent ps)))
    with (findPost (id p) ps).
  rewrite (findPost_first _ _ _ _ Hi Hp).
  unfold votePost_onResponse, votePost_map.
  cbn [pending_postId posts currentPost sent error updatedPost loading].
  by rewrite Hi.
Qed.

Lemma applyDelta_round_trip (p : Post) (b : VoteButton) :
  applyDelta
    (voteDelta (userVote (applyDelta (voteDelta (userVote p) (finalVote p b)) p))
       (finalVote (applyDelta (voteDelta (userVote p) (finalVote p b)) p) b))
    (applyDelta (voteDelta (userVote p) (finalVote p b)) p) =
  afterTwoClicks p b.
Proof.
  unfold afterTwoClicks, finalVote, applyDelta, voteDelta.
  destruct p as [pid ptitle pscore pup pdown pcomments [[]|]], b; simpl;
    repeat (case_decide; simpl in *; try congruence);
    f_equal; lia.
Qed.

(** X19. Two clicks on the same vote button, each answered by the
    server, bring a listed post back to where it was: same score, same
    counts, same user vote, and the list as before.  The one exception is a
    post that held the opposite vote: the first click flips it, the second
    removes it, and the post ends without a vote. *)
Theorem double_click_restores_post
    (ps : PostService.t) (auth : AuthService.t) (p : Post) (i : nat)
    (b : VoteButton) (body1 body2 : string)
    (Hauth : AuthService.isAuthenticated auth = true)
    (Hfirst : Js.findIndex (fun q => bool_decide (id q = id p)) (posts ps) = Some i)
    (Hp : posts ps !! i = Some p) :
  exists ps1 p1 ps2,
    clickAndAnswer p b auth ps body1 = Some (ps1, p1) /\
    clickAndAnswer p1 b auth ps1 body2 = Some (ps2, afterTwoClicks p b) /\
    posts ps2 = <[i := afterTwoClicks p b]> (posts ps) /\
    (userVote p <> Some (opposite (apiVoteType b)) ->
       afterTwoClicks p b = p /\ posts ps2 = posts ps).
Proof.
  rewrite (clickAndAnswer_first ps auth p i b body1 Hauth Hfirst Hp).
  set (p1 := applyDelta (voteDelta (userVote p) (finalVote p b)) p).
  eexists _, p1, _. split; [reflexivity|].
  assert (id p1 = id p) as Hid by done.
  assert (i < length (posts ps))%nat as Hlt by (by eapply findIndex_lt).
  erewrite clickAndAnswer_first; [|exact Hauth| |].
  - rewrite Hid. cbn [posts]. rewrite list_insert_insert_eq.
    unfold p1. rewrite applyDelta_round_trip.
    split; [reflexivity|]. split; [reflexivity|].
    intros Hne. unfold afterTwoClicks. rewrite decide_False by done.
    split; [done|]. by apply list_insert_id.
  - rewrite Hid. cbn [posts]. apply findIndex_insert; [done|].
    by apply bool_decide_eq_true_2.
  - cbn [posts]. by apply list_lookup_insert_eq.
Qed.

(** X20. Removing a vote goes out as an upvote.  When the user clicks
    the button of the vote the post already has, the list asks
    [votePost] for a removal ([null]), and the body posted to the vote
    endpoint carries UPVOTE, be the vote removed an upvote or a downvote:
    on the wire a removal is the same request as an upvote, for posts and
    for comments. *)
Theorem toggle_off_sends_upvote
    (ps : PostService.t) (auth : AuthService.t) (p q : Post) (b : VoteButton)
    (Hauth : AuthService.isAuthenticated auth = true)
    (Hfound : findPost (id p) ps = Some q)
    (Hsame : userVote p = Some (apiVoteType b)) :
  exists ps1 pending,
    onVote p b auth ps = inr (ps1, inr pending) /\
    pending_voteType pending = None /\
    sent ps1 = sent ps ++ [mkVotePostRequest UPVOTE (id p) None] /\
    VoteService.votePost_request (id p) None =
      VoteService.votePost_request (id p) (Some UPVOTE) /\
    VoteComment.voteComment_request (id p) None =
      VoteComment.voteComment_request (id p) (Some UPVOTE).
Proof.
  unfold onVote. rewrite Hauth. cbn [negb].
  assert (finalVote p b = None) as ->.
  { unfold finalVote. by rewrite decide_True. }
  unfold votePost.
  change (findPost (id p) (mk (posts ps) true None (currentPost ps) (sent ps)))
    with (findPost (id p) ps).
  rewrite Hfound. by eexists _, _.
Qed.

Lemma findIndex_None_find {A} (f : A -> bool) (l : list A) :
  Js.findIndex f l = None -> find f l = None.
Proof. intros Hnone. by rewrite find_findIndex, Hnone. Qed.

(** X21. [votePost] for an id that no listed post has falls back on the
    current post, whatever its id.  If the current post is another post,
    the request still goes out for the id asked for, the deltas are
    computed from the other post, and the answer stores nothing: the list
    and the current post stay as they were, and the caller gets the other
    post, changed. *)
Theorem votePost_falls_back_to_current_post
    (s : PostService.t) (postId : Z) (voteType : option VoteType) (c : Post)
    (body : string)
    (Hnone : Js.findIndex (fun q => bool_decide (id q = postId)) (posts s) = None)
    (Hcur : currentPost s = Some c)
    (Hid : id c <> postId) :
  exists s1 pending,
    votePost postId voteType s = (s1, inr pending) /\
    sent s1 = sent s ++ [VoteService.votePost_request postId voteType] /\
    updatedPost pending = applyDelta (voteDelta (userVote c) voteType) c /\
    id (updatedPost pending) <> postId /\
    posts (fst (votePost_onResponse pending body s1)) = posts s /\
    currentPost (fst (votePost_onResponse pending body s1)) = Some c /\
    snd (votePost_onResponse pending body s1) = updatedPost pending.
Proof.
  unfold votePost, findPost. cbn [posts currentPost].
  rewrite (findIndex_None_find _ _ Hnone), Hcur.
  eexists _, _. split; [reflexivity|].
  unfold votePost_onResponse, votePost_map.
  cbn [sent posts currentPost pending_postId updatedPost fst snd id applyDelta].
  rewrite Hnone. rewrite bool_decide_eq_false_2 by done.
  by repeat split.
Qed.

(** X22. The list's handler of realtime vote updates writes the score
    and the user vote of the message into the first listed post of the
    target id and leaves its vote counts alone.  An update that arrives
    while a vote request is in flight is lost: the answer to the request
    overwrites the post with the values computed when the request was
    made. *)
Theorem vote_response_overwrites_realtime_update
    (ps : PostService.t) (p : Post) (i : nat) (voteType : option VoteType)
    (vote : WebSocketVoteUpdate) (body : string)
    (Hfirst : Js.findIndex (fun q => bool_decide (id q = id p)) (posts ps) = Some i)
    (Hp : posts ps !! i = Some p)
    (Htarget : targetId vote = id p)
    (Hpost : targetType vote = POST) :
  exists ps1 pending,
    votePost (id p) voteType ps = (ps1, inr pending) /\
    posts (onVoteUpdate vote ps1) !! i =
      Some (mkPost (id p) (title p) (newScore vote) (upvoteCount p)
              (downvoteCount p) (commentCount p) (update_userVote vote)) /\
    length (posts (onVoteUpdate vote ps1)) = length (posts ps) /\
    posts (fst (votePost_onResponse pending body (onVoteUpdate vote ps1))) !! i =
      Some (applyDelta (voteDelta (userVote p) voteType) p).
Proof.
  assert (i < length (posts ps))%nat as Hlt by (by eapply findIndex_lt).
  unfold votePost.
  change (findPost (id p) (mk (posts ps) true None (currentPost ps) (sent ps)))
    with (findPost (id p) ps).
  rewrite (findPost_first _ _ _ _ Hfirst Hp).
  eexists _, _. split; [reflexivity|].
  unfold onVoteUpdate. rewrite Hpost, Htarget.
  cbn [posts loading error currentPost sent]. rewrite Hfirst, Hp.
  cbn [posts]. split; [by apply list_lookup_insert_eq|].
  split; [by apply length_insert|].
  unfold votePost_onResponse, votePost_map.
  cbn [pending_postId posts updatedPost fst].
  rewrite (findIndex_insert _ _ _ _ Hfirst) by (by apply bool_decide_eq_true_2).
  apply list_lookup_insert_eq. by rewrite length_insert.
Qed.

Lemma findIndex_filter_ne (postId : Z) (l : list Post) :
  Js.findIndex (fun q => bool_decide (id q = postId))
    (filter (fun q => id q <> postId) l) = None.
Proof.
  induction l as [|x l IH]; [done|]. rewrite filter_cons.
  destruct (decide (id x <> postId)); [|done].
  cbn [Js.findIndex]. rewrite bool_decide_eq_false_2 by done. by rewrite IH.
Qed.

(** X23. [deletePost] takes every post of the id off the list and keeps
    the others in order, but it leaves the current post alone.  If the
    deleted post is the current post, [votePost] for its id still finds
    it there and still sends the vote. *)
Theorem deleted_post_can_still_be_voted
    (ps : PostService.t) (c : Post) (voteType : option VoteType)
    (Hcur : currentPost ps = Some c) :
  posts (PostStore.deletePost_tap (id c) ps) =
    filter (fun q => id q <> id c) (posts ps) /\
  Js.findIndex (fun q => bool_decide (id q = id c))
    (posts (PostStore.deletePost_tap (id c) ps)) = None /\
  currentPost (PostStore.deletePost_tap (id c) ps) = Some c /\
  exists ps1 pending,
    votePost (id c) voteType (PostStore.deletePost_tap (id c) ps) = (ps1, inr pending) /\
    sent ps1 = sent ps ++ [VoteService.votePost_request (id c) voteType].
Proof.
  split; [done|]. split; [apply findIndex_filter_ne|]. split; [done|].
  unfold votePost, findPost, PostStore.deletePost_tap. cbn [posts currentPost sent].
  rewrite (findIndex_None_find _ _ (findIndex_filter_ne (id c) (posts ps))), Hcur.
  by eexists _, _.
Qed.

End VoteClickProperties.

Section VoteClickScenarios.
Import Http Vote PostService HomeComponent VoteClick.

Lemma double_click_restores_post_witness :
  Samples.postService.(posts) !! 0%nat = Some Samples.post /\
  exists ps1 p1 ps2,
    clickAndAnswer Samples.post downvote Samples.session Samples.postService "" =
      Some (ps1, p1) /\
    clickAndAnswer p1 downvote Samples.session ps1 "" =
      Some (ps2, afterTwoClicks Samples.post downvote) /\
    posts ps2 = <[0%nat := afterTwoClicks Samples.post downvote]> (posts Samples.postService) /\
    (userVote Samples.post <> Some (opposite (apiVoteType downvote)) ->
       afterTwoClicks Samples.post downvote = Samples.post /\
       posts ps2 = posts Samples.postService).
Proof.
  split; [reflexivity|].
  apply (double_click_restores_post Samples.postService Samples.session
           Samples.post 0 downvote "" "" eq_refl eq_refl eq_refl).
Defined.

Lemma toggle_off_sends_upvote_witness :
  userVote Samples.post = Some DOWNVOTE /\
  exists ps1 pending,
    onVote Samples.post downvote Samples.session Samples.postService =
      inr (ps1, inr pending) /\
    pending_voteType pending = None /\
    sent ps1 = sent Samples.postService ++ [mkVotePostRequest UPVOTE (id Samples.post) None] /\
    VoteService.votePost_request (id Samples.post) None =
      VoteService.votePost_request (id Samples.post) (Some UPVOTE) /\
    VoteComment.voteComment_request (id Samples.post) None =
      VoteComment.voteComment_request (id Samples.post) (Some UPVOTE).
Proof.
  split; [reflexivity|].
  apply (toggle_off_sends_upvote Samples.postService Samples.session
           Samples.post Samples.post downvote eq_refl eq_refl eq_refl).
Defined.

Lemma votePost_falls_back_to_current_post_witness :
  id Samples.post <> 8 /\
  exists s1 pending,
    votePost 8 (Some UPVOTE) (mk [] false None (Some Samples.post) []) =
      (s1, inr pending) /\
    sent s1 = [] ++ [VoteService.votePost_request 8 (Some UPVOTE)] /\
    updatedPost pending =
      applyDelta (voteDelta (userVote Samples.post) (Some UPVOTE)) Samples.post /\
    id (updatedPost pending) <> 8 /\
    posts (fst (votePost_onResponse pending "" s1)) = [] /\
    currentPost (fst (votePost_onResponse pending "" s1)) = Some Samples.post /\
    snd (votePost_onResponse pending "" s1) = updatedPost pending.
Proof.
  assert (id Samples.post <> 8) as Hid by discriminate.
  split; [exact Hid|].
  apply (votePost_falls_back_to_current_post
           (mk [] false None (Some Samples.post) []) 8 (Some UPVOTE)
           Samples.post "" eq_refl eq_refl Hid).
Defined.

Lemma vote_response_overwrites_realtime_update_witness :
  targetType (mkVoteUpdate 7 POST (Some UPVOTE) 10 (Some UPVOTE)) = POST /\
  exists ps1 pending,
    votePost (id Samples.post) None Samples.postService = (ps1, inr pending) /\
    posts (onVoteUpdate (mkVoteUpdate 7 POST (Some UPVOTE) 10 (Some UPVOTE)) ps1) !! 0%nat =
      Some (mkPost 7 "hello" 10 5 2 0 (Some UPVOTE)) /\
    length (posts (onVoteUpdate (mkVoteUpdate 7 POST (Some UPVOTE) 10 (Some UPVOTE)) ps1)) =
      length (posts Samples.postService) /\
    posts (fst (votePost_onResponse pending ""
                  (onVoteUpdate (mkVoteUpdate 7 POST (Some UPVOTE) 10 (Some UPVOTE)) ps1)))
      !! 0%nat =
      Some (applyDelta (voteDelta (userVote Samples.post) None) Samples.post).
Proof.
  split; [reflexivity|].
  apply (vote_response_overwrites_realtime_update Samples.postService Samples.post 0
           None (mkVoteUpdate 7 POST (Some UPVOTE) 10 (Some UPVOTE)) ""
           eq_refl eq_refl eq_refl eq_refl).
Defined.

Lemma deleted_post_can_still_be_voted_witness :
  currentPost (mk [Samples.post] false None (Some Samples.post) []) = Some Samples.post /\
  Js.findIndex (fun q => bool_decide (id q = id Samples.post))
    (posts (PostStore.deletePost_tap (id Samples.post)
              (mk [Samples.post] false None (Some Samples.post) []))) = None.
Proof.
  split; [reflexivity|].
  destruct (deleted_post_can_still_be_voted
              (mk [Samples.post] false None (Some Samples.post) []) Samples.post
              (Some UPVOTE) eq_refl) as (_ & Hgone & _).
  exact Hgone.
Defined.

End VoteClickScenarios.

(** ** Display pipes *)

Section PipeProperties.
Import Pipes.

(** X24. Let the current time lie between the epoch and the end of the
    year 9999, so that the difference to any time a [Date] can hold is a
    number that JavaScript computes exactly.  For a time that a [Date] can
    hold, [timeAgo] never shows a count of 0 or a count that belongs to the
    next unit: minutes run from 1 to 59, hours from 1 to 23, days from 1
    to 29, months (of 30 days) from 1 to 12, years from 1.  A time in the
    future, like one less than a minute ago, reads "just now"; a missing
    value and the time 0 give the empty string.  A number beyond the range
    of [Date] reads "NaNy ago". *)
Theorem timeAgo_counts_in_range (now value : Z)
    (Hnow : 0 <= now <= 253402300799999)
    (Hvalue : value <> 0)
    (Hrange : -8640000000000000 <= value <= 8640000000000000) :
  ((now - value) / 1000 < 60 -> timeAgo now (Some value) = "just now") /\
  (60 <= (now - value) / 1000 ->
   exists count unit,
     timeAgo now (Some value) = pretty count +:+ unit /\
     ((unit = "m ago" /\ count = (now - value) / 1000 / 60 /\ 1 <= count <= 59) \/
      (unit = "h ago" /\ count = (now - value) / 1000 / 3600 /\ 1 <= count <= 23) \/
      (unit = "d ago" /\ count = (now - value) / 1000 / 86400 /\ 1 <= count <= 29) \/
      (unit = "mo ago" /\ count = (now - value) / 1000 / 2592000 /\ 1 <= count <= 12) \/
      (unit = "y ago" /\ count = (now - value) / 1000 / 31536000 /\ 1 <= count))) /\
  timeAgo now None = "" /\
  timeAgo now (Some 0) = "" /\
  (forall beyond,
     beyond < -8640000000000000 \/ 8640000000000000 < beyond ->
     timeAgo now (Some beyond) = "NaNy ago").
Proof.
  split; [|split; [|split; [done|split; [done|]]]].
  3: { intros beyond Hb. unfold timeAgo.
       destruct (Z.eqb_spec beyond 0); [lia|].
       destruct (Z.ltb_spec beyond (- maxDate)); [done|].
       destruct (Z.ltb_spec maxDate beyond); [done|].
       unfold maxDate in *. lia. }
  all: unfold timeAgo; rewrite (proj2 (Z.eqb_neq value 0)) by done;
    destruct (Z.ltb_spec value (- maxDate)); [unfold maxDate in *; lia|];
    destruct (Z.ltb_spec maxDate value); [unfold maxDate in *; lia|];
    cbn [orb]; set (seconds := (now - value) / 1000).
  - intros Hlt. by rewrite (proj2 (Z.ltb_lt _ _)).
  - intros Hge. rewrite (proj2 (Z.ltb_ge _ _)) by done.
    destruct (Z.ltb_spec seconds 3600).
    { eexists _, _. split; [reflexivity|]. left.
      repeat split; [apply Z.div_le_lower_bound|
                     apply Z.lt_succ_r, Z.div_lt_upper_bound]; lia. }
    destruct (Z.ltb_spec seconds 86400).
    { eexists _, _. split; [reflexivity|]. right; left.
      repeat split; [apply Z.div_le_lower_bound|
                     apply Z.lt_succ_r, Z.div_lt_upper_bound]; lia. }
    destruct (Z.ltb_spec seconds 2592000).
    { eexists _, _. split; [reflexivity|]. right; right; left.
      repeat split; [apply Z.div_le_lower_bound|
                     apply Z.lt_succ_r, Z.div_lt_upper_bound]; lia. }
    destruct (Z.ltb_spec seconds 31536000).
    { eexists _, _. split; [reflexivity|]. right; right; right; left.
      repeat split; [apply Z.div_le_lower_bound|
                     apply Z.lt_succ_r, Z.div_lt_upper_bound]; lia. }
    eexists _, _. split; [reflexivity|]. right; right; right; right.
    repeat split. apply Z.div_le_lower_bound; lia.
Qed.

Lemma timeAgo_counts_in_range_witness :
  0 <= 1700007200000 <= 253402300799999 /\
  (1700000000000 : Z) <> 0 /\
  -8640000000000000 <= 1700000000000 <= 8640000000000000 /\
  exists count unit,
    timeAgo 1700007200000 (Some 1700000000000) = pretty count +:+ unit /\
    ((unit = "m ago" /\ count = (1700007200000 - 1700000000000) / 1000 / 60 /\
      1 <= count <= 59) \/
     (unit = "h ago" /\ count = (1700007200000 - 1700000000000) / 1000 / 3600 /\
      1 <= count <= 23) \/
     (unit = "d ago" /\ count = (1700007200000 - 1700000000000) / 1000 / 86400 /\
      1 <= count <= 29) \/
     (unit = "mo ago" /\ count = (1700007200000 - 1700000000000) / 1000 / 2592000 /\
      1 <= count <= 12) \/
     (unit = "y ago" /\ count = (1700007200000 - 1700000000000) / 1000 / 31536000 /\
      1 <= count)).
Proof.
  assert ((1700000000000 : Z) <> 0) as Hvalue by discriminate.
  assert (-8640000000000000 <= 1700000000000 <= 8640000000000000) as Hrange by lia.
  assert (0 <= 1700007200000 <= 253402300799999) as Hnow by lia.
  split; [exact Hnow|]. split; [exact Hvalue|]. split; [exact Hrange|].
  destruct (timeAgo_counts_in_range 1700007200000 1700000000000 Hnow Hvalue Hrange)
    as (_ & Hlong & _).
  apply Hlong. vm_compute. discriminate.
Defined.

Example timeAgo_future :
  timeAgo 1700000000000 (Some 1700007200000) = "just now".
Proof. vm_compute. reflexivity. Qed.

Example timeAgo_invalid_date :
  timeAgo 1700000000000 (Some 8640000000000001) = "NaNy ago".
Proof. vm_compute. reflexivity. Qed.

Example timeAgo_two_hours :
  timeAgo 1700007200000 (Some 1700000000000) = "2h ago".
Proof. vm_compute. reflexivity. Qed.

Lemma trimStart_length (s : JsString) : (length (trimStart s) <= length s)%nat.
Proof.
  induction s as [|c s IH]; [done|]. cbn [trimStart].
  destruct (isWhiteSpace c); cbn [length]; lia.
Qed.

Lemma trim_length (s : JsString) : (length (trim s) <= length s)%nat.
Proof.
  unfold trim, trimEnd. rewrite length_reverse.
  etrans; [apply trimStart_length|]. rewrite length_reverse.
  apply trimStart_length.
Qed.

Lemma trimStart_head (s : JsString) (c : N) :
  head (trimStart s) = Some c -> isWhiteSpace c = false.
Proof.
  induction s as [|x s IH]; [done|]. cbn [trimStart].
  destruct (isWhiteSpace x) eqn:Hx; [done|]. by intros [= <-].
Qed.

Lemma trim_last (s : JsString) (c : N) :
  last (trim s) = Some c -> isWhiteSpace c = false.
Proof.
  unfold trim, trimEnd. rewrite last_reverse. apply trimStart_head.
Qed.

(** X25. [truncate] returns a text of at most [limit] code units as it
    is.  A longer text is cut to its first [limit] units, trimmed, and
    followed by three dots: the result has at most [limit + 3] units (3
    for a negative [limit]), and the kept part never ends in white space.
    Nothing and the empty text give the empty text, whatever the limit. *)
Theorem truncate_bounds (value : JsString) (limit : Z) :
  (Z.of_nat (length value) <= limit -> truncate (Some value) limit = value) /\
  (value <> [] -> limit < Z.of_nat (length value) ->
   exists kept,
     truncate (Some value) limit = kept ++ ellipsis /\
     kept = trim (take (Z.to_nat limit) value) /\
     Z.of_nat (length kept) <= Z.max limit 0 /\
     Z.of_nat (length (truncate (Some value) limit)) <= Z.max limit 0 + 3 /\
     (forall c, last kept = Some c -> isWhiteSpace c = false)) /\
  truncate None limit = [] /\
  truncate (Some []) limit = [].
Proof.
  split; [|split; [|done]].
  - intros Hle. destruct value as [|c value]; [done|].
    unfold truncate. by rewrite (proj2 (Z.leb_le _ _)).
  - intros Hne Hlt. destruct value as [|c value]; [done|].
    unfold truncate. rewrite (proj2 (Z.leb_gt _ _)) by done.
    eexists. split; [reflexivity|]. split; [reflexivity|].
    pose proof (trim_length (take (Z.to_nat limit) (c :: value))) as Hlen.
    rewrite length_take in Hlen.
    split; [lia|].
    split; [rewrite length_app; change (length ellipsis) with 3%nat; lia|].
    intros x. apply trim_last.
Qed.

End PipeProperties.

Section PagePipeScenarios.
Import Http Vote PostService HomeComponent VoteClick Pipes.

(** X26. The post page shows its own copy of the post, which realtime
    updates change, but a vote is computed from the service's copy, which
    they do not reach.  After a click and the server's answer the page
    shows the service's copy with the deltas applied: the vote to send is
    chosen from the user vote the page shows, the deltas from the user
    vote the service holds, and the score the page showed is gone. *)
Theorem page_vote_uses_service_copy
    (page : PostPage) (shown stored : Post) (b : VoteButton) (body : string)
    (Hshown : post page = Some shown)
    (Hstored : findPost (id shown) (postService page) = Some stored) :
  exists page1 pending,
    page_votePost b page = (page1, Some (inr pending)) /\
    pending_voteType pending = finalVote shown b /\
    post (page_votePost_next pending body page1) =
      Some (applyDelta (voteDelta (userVote stored) (finalVote shown b)) stored).
Proof.
  unfold page_votePost. rewrite Hshown. unfold votePost.
  change (findPost (id shown)
            (mk (posts (postService page)) true None
                (currentPost (postService page)) (sent (postService page))))
    with (findPost (id shown) (postService page)).
  rewrite Hstored. by eexists _, _.
Qed.

Lemma page_vote_uses_service_copy_witness :
  post (page_onVoteUpdate 7 (mkVoteUpdate 7 POST (Some UPVOTE) 10 None)
          MoreSamples.loadedPage) =
    Some (mkPost 7 "hello" 10 5 2 0 None) /\
  exists page1 pending,
    page_votePost upvote
      (page_onVoteUpdate 7 (mkVoteUpdate 7 POST (Some UPVOTE) 10 None)
         MoreSamples.loadedPage) = (page1, Some (inr pending)) /\
    pending_voteType pending = finalVote (mkPost 7 "hello" 10 5 2 0 None) upvote /\
    post (page_votePost_next pending "" page1) =
      Some (applyDelta
              (voteDelta (userVote Samples.post)
                 (finalVote (mkPost 7 "hello" 10 5 2 0 None) upvote))
              Samples.post).
Proof.
  split; [reflexivity|].
  apply (page_vote_uses_service_copy
           (page_onVoteUpdate 7 (mkVoteUpdate 7 POST (Some UPVOTE) 10 None)
              MoreSamples.loadedPage)
           (mkPost 7 "hello" 10 5 2 0 None) Samples.post upvote ""
           eq_refl eq_refl).
Defined.

(** "hello world" cut at 6 units: the blank goes, the dots come. *)
Example truncate_hello :
  truncate (Some [104; 101; 108; 108; 111; 32; 119; 111; 114; 108; 100]%N) 6 =
    [104; 101; 108; 108; 111; 46; 46; 46]%N.
Proof. vm_compute. reflexivity. Qed.

End PagePipeScenarios.
